(** * LMS backend: authorization, grading and progress rules

    A shallow embedding of the business rules of the LMS backend
    (controllers and models of quizzes, assignments, submissions,
    enrollments and categories) together with the properties stated in
    the specification.

    Modelling conventions.
    - A PostgreSQL table is a list of rows (records); a [SELECT ... WHERE]
      is a [filter], a [JOIN] is a nested [flat_map], [rows[0]] is the head.
    - An [async] controller that throws is a function into [result]:
      [Ok] carries the new database and the JSON payload, [Throw] the
      exception ([AppError] with its message and HTTP status).
    - [CURRENT_TIMESTAMP] and [new Date()] are one explicit argument [now],
      a time stamp in milliseconds.
    - JavaScript numbers that may be fractional (grades, progress, late
      penalty, scores) are IEEE 754 binary64 values: a finite one is named
      by its exact rational value, and every arithmetic operation rounds
      its exact result to the nearest binary64 value, ties to even;
      integer columns (ids, points, max_points) are [Z].
    - Strings are strings of 8-bit characters.  [toLowerCase] and [trim]
      act on the ASCII letters and the ASCII white space: they are
      JavaScript's functions on ASCII text ([ascii_text]), and differ from
      them on other text (JavaScript also maps accented capital letters
      and strips the no-break space). *)

From Stdlib Require Import PrimFloat SpecFloat FloatOps.
From Stdlib Require Import ZArith QArith Qround List String Ascii Bool Lia DecimalString.
From Stdlib Require Import Sorted.
Import ListNotations.

Local Open Scope string_scope.
Local Open Scope list_scope.
Local Open Scope Z_scope.

(* ------------------------------------------------------------------ *)
(** ** Exceptions and results *)

(** utils/constants.js, [HTTP_STATUS] (the codes the controllers use). *)
Inductive http_status : Set :=
| BAD_REQUEST | UNAUTHORIZED | FORBIDDEN | NOT_FOUND | CONFLICT
| INTERNAL_SERVER_ERROR.

Definition status_code (s : http_status) : Z :=
  match s with
  | BAD_REQUEST => 400
  | UNAUTHORIZED => 401
  | FORBIDDEN => 403
  | NOT_FOUND => 404
  | CONFLICT => 409
  | INTERNAL_SERVER_ERROR => 500
  end.

(** What a controller or a model function can throw: an [AppError] built by
    the code itself, a plain [Error] of a model function, or a [TypeError]
    or a [ReferenceError] of the runtime. *)
Inductive exn : Type :=
| AppError (message : string) (statusCode : http_status)
| Error (message : string)
| TypeError (message : string)
| ReferenceError (message : string).

Definition exn_message (e : exn) : string :=
  match e with
  | AppError m _ => m
  | Error m => m
  | TypeError m => m
  | ReferenceError m => m
  end.

Inductive result (A : Type) : Type :=
| Ok (a : A)
| Throw (e : exn).
Arguments Ok {A} a.
Arguments Throw {A} e.

Definition bind {A B} (r : result A) (k : A -> result B) : result B :=
  match r with
  | Ok a => k a
  | Throw e => Throw e
  end.

Notation "x <- r ;; k" := (bind r (fun x => k))
  (at level 61, r at next level, right associativity).
Notation "r ;;; k" := (bind r (fun _ => k))
  (at level 61, right associativity).

(** [if (cond) throw e;] *)
Definition throw_if (cond : bool) (e : exn) : result unit :=
  if cond then Throw e else Ok tt.

(** [try { body } catch (error) { handler(error) }] *)
Definition try_catch {A} (body : result A) (handler : exn -> result A) : result A :=
  match body with
  | Ok a => Ok a
  | Throw e => handler e
  end.

(* ------------------------------------------------------------------ *)
(** ** Strings *)

Definition string_of_Z (n : Z) : string := NilZero.string_of_int (Z.to_int n).

(** [hay.includes(needle)] *)
Definition includes (needle hay : string) : bool :=
  match index 0 needle hay with
  | Some _ => true
  | None => false
  end.

(** [toLowerCase] on the letters [A] to [Z]; the other characters are left
    as they are.  This is [String.prototype.toLowerCase] on ASCII text; on
    other text JavaScript also maps the accented capital letters. *)
Definition lower_ascii (c : ascii) : ascii :=
  let n := nat_of_ascii c in
  if (Nat.leb 65 n && Nat.leb n 90)%bool then ascii_of_nat (n + 32) else c.

Fixpoint toLowerCase (s : string) : string :=
  match s with
  | EmptyString => EmptyString
  | String c r => String (lower_ascii c) (toLowerCase r)
  end.

(** The ASCII white space that [trim] strips: the space and the characters
    9 to 13.  This is [String.prototype.trim] on ASCII text; on other text
    JavaScript also strips the no-break space and the other Unicode
    spaces. *)
Definition is_space (c : ascii) : bool :=
  let n := nat_of_ascii c in
  (Nat.eqb n 32 || (Nat.leb 9 n && Nat.leb n 13))%bool.

Fixpoint trimStart (s : string) : string :=
  match s with
  | EmptyString => EmptyString
  | String c r => if is_space c then trimStart r else s
  end.

Fixpoint trimEnd (s : string) : string :=
  match s with
  | EmptyString => EmptyString
  | String c r =>
      match trimEnd r with
      | EmptyString => if is_space c then EmptyString else String c EmptyString
      | r' => String c r'
      end
  end.

Definition trim (s : string) : string := trimEnd (trimStart s).

(** [xs.join(sep)] *)
Fixpoint join (sep : string) (xs : list string) : string :=
  match xs with
  | [] => EmptyString
  | [x] => x
  | x :: r => (x ++ sep ++ join sep r)%string
  end.

(* ------------------------------------------------------------------ *)
(** ** JavaScript values *)

(** A JSON value as it reaches a controller in [req.body]: absent
    ([undefined]), [null], a boolean, an integer-valued number, a string, or
    an object of which only the [value] property is read. *)
Inductive jsval : Type :=
| JUndefined
| JNull
| JBool (b : bool)
| JInt (n : Z)
| JStr (s : string)
| JObj (value : jsval).

(** [a === b] for two values that come from different JSON documents:
    objects are compared by reference and are never the same object. *)
Definition strict_eq (a b : jsval) : bool :=
  match a, b with
  | JUndefined, JUndefined => true
  | JNull, JNull => true
  | JBool x, JBool y => Bool.eqb x y
  | JInt x, JInt y => Z.eqb x y
  | JStr x, JStr y => String.eqb x y
  | _, _ => false
  end.

(** [xs.includes(v)] (SameValueZero, which is [===] on these values). *)
Definition js_includes (xs : list jsval) (v : jsval) : bool :=
  existsb (fun x => strict_eq x v) xs.

(** Truthiness. *)
Definition truthy (v : jsval) : bool :=
  match v with
  | JUndefined | JNull => false
  | JBool b => b
  | JInt n => negb (n =? 0)
  | JStr s => negb (String.eqb s EmptyString)
  | JObj _ => true
  end.

(** [v.toString()] for a value that is neither [undefined] nor [null]. *)
Definition toString (v : jsval) : string :=
  match v with
  | JUndefined => "undefined"
  | JNull => "null"
  | JBool true => "true"
  | JBool false => "false"
  | JInt n => string_of_Z n
  | JStr s => s
  | JObj _ => "[object Object]"
  end.

(** A JavaScript number, an IEEE 754 binary64 value: [Num q] is the finite
    value whose exact value is the rational [q].  The sign of a zero is not
    kept: it shows only in the sign of the infinity that a division by
    zero gives. *)
Inductive jsnumber : Type :=
| NaN
| Infinity (negative : bool)
| Num (q : Q).

(** Rounding of the positive quotient [n / d] to binary64, to nearest with
    ties to even: the quotient with its rounding bits, then the rounding
    of the standard library's specification of IEEE 754 (precision 53,
    exponents below 1024). *)
Definition b64_round (negative : bool) (n d : positive) : spec_float :=
  let '(m, e, l) := SFdiv_core_binary prec emax (Zpos n) 0 (Zpos d) 0 in
  binary_round_aux prec emax negative m e l.

(** The exact value [m * 2 ^ e] of a finite binary64 value, in lowest
    terms. *)
Definition b64_value (negative : bool) (m : positive) (e : Z) : Q :=
  let v := match e with
           | Zneg k => Zpos m # (2 ^ k)%positive
           | _ => inject_Z (Zpos m * 2 ^ e)
           end in
  Qred (if negative then - v else v).

Definition number_of_b64 (f : spec_float) : jsnumber :=
  match f with
  | S754_zero _ => Num 0
  | S754_infinity s => Infinity s
  | S754_nan => NaN
  | S754_finite s m e => Num (b64_value s m e)
  end.

(** [fl q]: the binary64 value nearest to the rational [q], an infinity
    beyond the largest finite value. *)
Definition fl (q : Q) : jsnumber :=
  let r := Qred q in
  match Qnum r with
  | Z0 => Num 0
  | Zpos n => number_of_b64 (b64_round false n (Qden r))
  | Zneg n => number_of_b64 (b64_round true n (Qden r))
  end.

(** The value of a hardware float, to compare [fl] with the machine. *)
Definition number_of_float (f : float) : jsnumber := number_of_b64 (Prim2SF f).

(** A numeric field of a request body: absent, [null] or a number. *)
Inductive numval : Type :=
| NUndefined
| NNull
| NNumber (x : jsnumber).

Definition ToNumber (v : numval) : jsnumber :=
  match v with
  | NUndefined => NaN
  | NNull => Num 0
  | NNumber x => x
  end.

Definition Qlt_bool (a b : Q) : bool := negb (Qle_bool b a).

(** [a < b] on numbers: false as soon as one side is [NaN]. *)
Definition number_lt (a b : jsnumber) : bool :=
  match a, b with
  | Num x, Num y => Qlt_bool x y
  | Num _, Infinity t => negb t
  | Infinity s, Num _ => s
  | Infinity s, Infinity t => s && negb t
  | _, _ => false
  end.

(** [a < b] and [a > b] *)
Definition js_lt (a b : numval) : bool := number_lt (ToNumber a) (ToNumber b).

Definition js_gt (a b : numval) : bool := js_lt b a.

(** [a >= b]: false as soon as one side is [NaN]. *)
Definition js_ge (a b : numval) : bool :=
  match ToNumber a, ToNumber b with
  | Num x, Num y => Qle_bool y x
  | Num _, Infinity t => t
  | Infinity s, Num _ => negb s
  | Infinity s, Infinity t => negb s || t
  | _, _ => false
  end.

(** [a * b] *)
Definition js_mul (a b : jsnumber) : jsnumber :=
  match a, b with
  | NaN, _ | _, NaN => NaN
  | Num x, Num y => fl (x * y)
  | Infinity s, Num y =>
      if Qeq_bool y 0 then NaN else Infinity (xorb s (Qlt_bool y 0))
  | Num x, Infinity t =>
      if Qeq_bool x 0 then NaN else Infinity (xorb (Qlt_bool x 0) t)
  | Infinity s, Infinity t => Infinity (xorb s t)
  end.

(** [a - b] *)
Definition js_sub (a b : jsnumber) : jsnumber :=
  match a, b with
  | NaN, _ | _, NaN => NaN
  | Num x, Num y => fl (x - y)
  | Infinity s, Num _ => Infinity s
  | Num _, Infinity t => Infinity (negb t)
  | Infinity s, Infinity t => if Bool.eqb s t then NaN else Infinity s
  end.

(** [a / b]; the divisor zero is taken as the positive zero. *)
Definition js_div (a b : jsnumber) : jsnumber :=
  match a, b with
  | NaN, _ | _, NaN => NaN
  | Num x, Num y =>
      if Qeq_bool y 0
      then (if Qeq_bool x 0 then NaN else Infinity (Qlt_bool x 0))
      else fl (x / y)
  | Infinity s, Num y => Infinity (xorb s (Qlt_bool y 0))
  | Num _, Infinity _ => Num 0
  | Infinity _, Infinity _ => NaN
  end.

(** [Math.round]: the nearest integer, ties towards plus infinity.  The
    result is exact: a binary64 value of magnitude [2 ^ 52] or more is an
    integer already. *)
Definition Math_round (x : Q) : Z := Qfloor (x + (1 # 2)).

Definition js_round (x : jsnumber) : jsnumber :=
  match x with
  | Num q => Num (inject_Z (Math_round q))
  | other => other
  end.

(** An integer column read by node-postgres, as a number: exact, the
    columns being 32-bit integers (and their sums, below [2 ^ 53]). *)
Definition number_of_Z (z : Z) : jsnumber := Num (inject_Z z).

(** A query parameter of node-postgres: [undefined] and [null] are both
    sent as SQL NULL. *)
Definition sql_param (v : numval) : option jsnumber :=
  match v with
  | NUndefined | NNull => None
  | NNumber x => Some x
  end.

(* ------------------------------------------------------------------ *)
(** ** The relational store *)

(** utils/constants.js, [USER_ROLES]. *)
Inductive role : Set := student | instructor | admin.

Definition role_eqb (a b : role) : bool :=
  match a, b with
  | student, student | instructor, instructor | admin, admin => true
  | _, _ => false
  end.

Definition role_name (r : role) : string :=
  match r with
  | student => "student"
  | instructor => "instructor"
  | admin => "admin"
  end.

(** [req.user], as [authenticate] loads it from the [users] table. *)
Record user : Type := mkUser {
  u_id : Z;
  u_name : string;
  u_role : role
}.

Record course : Type := mkCourse {
  c_id : Z;
  c_title : string;
  c_category_id : option Z;
  c_instructor_id : Z;
  c_is_deleted : bool
}.

Record module_row : Type := mkModule {
  m_id : Z;
  m_course_id : Z
}.

Record lesson : Type := mkLesson {
  l_id : Z;
  l_module_id : Z;
  l_title : string
}.

Record quiz : Type := mkQuiz {
  q_id : Z;
  q_lesson_id : Z;
  q_question : string;
  q_answer : string;
  q_options : option (list jsval);
  q_quiz_type : string;
  q_points : Z
}.

Record assignment : Type := mkAssignment {
  a_id : Z;
  a_lesson_id : Z;
  a_title : string;
  a_description : option string;
  a_due_date : option Z;
  a_max_points : Z;
  a_allow_late_submission : bool;
  a_late_penalty_percent : option Q
}.

Record submission : Type := mkSubmission {
  s_id : Z;
  s_assignment_id : Z;
  s_student_id : Z;
  s_content : option string;
  s_file_path : option string;
  s_is_late : option bool;
  s_submitted_at : Z;
  s_grade : option jsnumber;
  s_feedback : option string;
  s_graded_at : option Z;
  s_graded_by : option Z
}.

Record enrollment : Type := mkEnrollment {
  e_id : Z;
  e_user_id : Z;
  e_course_id : Z;
  e_progress : option jsnumber;
  e_completed : bool;
  e_completed_at : option Z
}.

Record category : Type := mkCategory {
  cat_id : Z;
  cat_name : string
}.

Record db : Type := mkDb {
  courses : list course;
  modules : list module_row;
  lessons : list lesson;
  quizzes : list quiz;
  assignments : list assignment;
  submissions : list submission;
  enrollments : list enrollment;
  categories : list category
}.

Definition set_submissions (d : db) (ss : list submission) : db :=
  mkDb (courses d) (modules d) (lessons d) (quizzes d) (assignments d) ss
       (enrollments d) (categories d).

Definition set_enrollments (d : db) (es : list enrollment) : db :=
  mkDb (courses d) (modules d) (lessons d) (quizzes d) (assignments d)
       (submissions d) es (categories d).

Definition set_categories (d : db) (cs : list category) : db :=
  mkDb (courses d) (modules d) (lessons d) (quizzes d) (assignments d)
       (submissions d) (enrollments d) cs.

Definition set_assignments (d : db) (xs : list assignment) : db :=
  mkDb (courses d) (modules d) (lessons d) (quizzes d) xs
       (submissions d) (enrollments d) (categories d).

(** [rows[0] || null] *)
Definition first_row {A} (rows : list A) : option A := hd_error rows.

(* ------------------------------------------------------------------ *)
(** ** Ancestor chains: the joins the controllers run *)

(** [FROM modules m JOIN courses c ON m.course_id = c.id] *)
Definition modules_courses (d : db) : list (module_row * course) :=
  flat_map (fun m =>
    map (fun c => (m, c)) (filter (fun c => c_id c =? m_course_id m) (courses d)))
    (modules d).

(** [FROM lessons l JOIN modules m ON l.module_id = m.id
     JOIN courses c ON m.course_id = c.id] *)
Definition lessons_courses (d : db) : list (lesson * course) :=
  flat_map (fun l =>
    map (fun mc => (l, snd mc))
        (filter (fun mc => m_id (fst mc) =? l_module_id l) (modules_courses d)))
    (lessons d).

(** [FROM quizzes q JOIN lessons l ON q.lesson_id = l.id JOIN modules ...
     JOIN courses ...] *)
Definition quizzes_courses (d : db) : list (quiz * course) :=
  flat_map (fun q =>
    map (fun lc => (q, snd lc))
        (filter (fun lc => l_id (fst lc) =? q_lesson_id q) (lessons_courses d)))
    (quizzes d).

(** [FROM assignments a JOIN lessons l ON a.lesson_id = l.id JOIN modules ...
     JOIN courses ...] *)
Definition assignments_courses (d : db) : list (assignment * course) :=
  flat_map (fun a =>
    map (fun lc => (a, snd lc))
        (filter (fun lc => l_id (fst lc) =? a_lesson_id a) (lessons_courses d)))
    (assignments d).

(** [FROM submissions s JOIN assignments a ON s.assignment_id = a.id
     JOIN lessons ... JOIN modules ... JOIN courses ...] *)
Definition submissions_courses (d : db) : list (submission * assignment * course) :=
  flat_map (fun s =>
    map (fun ac => (s, fst ac, snd ac))
        (filter (fun ac => a_id (fst ac) =? s_assignment_id s) (assignments_courses d)))
    (submissions d).

(** models/courseModel.js, [getCourseById]:
    [WHERE c.id = $1 AND c.is_deleted = false]; the left joins and the
    grouping by [c.id] keep one row per matching course. *)
Definition getCourseById (d : db) (courseId : Z) : option course :=
  first_row (filter (fun c => (c_id c =? courseId) && negb (c_is_deleted c)) (courses d)).

(** models/moduleModel.js, [getModuleWithCourse]:
    [WHERE m.id = $1 AND c.is_deleted = FALSE] *)
Definition getModuleWithCourse (d : db) (id : Z) : option (module_row * course) :=
  first_row (filter (fun mc => (m_id (fst mc) =? id) && negb (c_is_deleted (snd mc)))
                    (modules_courses d)).

(** models/lessonModel.js, [getLessonWithCourseInfo]:
    [WHERE l.id = $1 AND c.is_deleted = FALSE] *)
Definition getLessonWithCourseInfo (d : db) (id : Z) : option (lesson * course) :=
  first_row (filter (fun lc => (l_id (fst lc) =? id) && negb (c_is_deleted (snd lc)))
                    (lessons_courses d)).

(** models/quizModel.js, [getQuizById]:
    [WHERE q.id = $1 AND c.is_deleted = FALSE] *)
Definition getQuizById (d : db) (id : Z) : option (quiz * course) :=
  first_row (filter (fun qc => (q_id (fst qc) =? id) && negb (c_is_deleted (snd qc)))
                    (quizzes_courses d)).

(** The inline query of the assignment and submission controllers:
    [SELECT a.*, c.instructor_id ... WHERE a.id = $1 AND c.is_deleted = FALSE] *)
Definition assignmentWithCourse (d : db) (id : Z) : option (assignment * course) :=
  first_row (filter (fun ac => (a_id (fst ac) =? id) && negb (c_is_deleted (snd ac)))
                    (assignments_courses d)).

(** The inline query of [gradeSubmissionController]:
    [SELECT s.*, a.max_points, c.instructor_id ...
     WHERE s.id = $1 AND c.is_deleted = FALSE] *)
Definition submissionWithCourse (d : db) (id : Z)
  : option (submission * assignment * course) :=
  first_row (filter (fun r => match r with
                              | (s, _, c) => (s_id s =? id) && negb (c_is_deleted c)
                              end)
                    (submissions_courses d)).

(* ------------------------------------------------------------------ *)
(** ** Authorization *)

(** middleware/auth.js, [authorize(...roles)]; [req.user] is present since
    every router runs [authenticate] first. *)
Definition authorize (roles : list role) (u : user) : result unit :=
  throw_if (negb (existsb (role_eqb (u_role u)) roles))
    (AppError ("Access denied. Required role: "
               ++ join " or " (map role_name roles) ++ ".")%string
              FORBIDDEN).

(** The check every owning controller repeats:
    [if (user.role !== USER_ROLES.ADMIN && x.instructor_id !== user.id)
       throw new AppError(msg, HTTP_STATUS.FORBIDDEN)] *)
Definition requireOwnerOrAdmin (u : user) (instructor_id : Z) (msg : string)
  : result unit :=
  throw_if (negb (role_eqb (u_role u) admin) && negb (instructor_id =? u_id u))
           (AppError msg FORBIDDEN).

(** [const x = await lookup(id); if (!x) throw new AppError(msg, NOT_FOUND)] *)
Definition orNotFound {A} (x : option A) (msg : string) : result A :=
  match x with
  | Some a => Ok a
  | None => Throw (AppError msg NOT_FOUND)
  end.

(** The access part of each owning controller: look the target up, refuse
    with 404 when its chain does not resolve, refuse with 403 when the
    principal is neither admin nor the course's instructor.  What is
    returned is the resolved course. *)

(** controllers/moduleController.js *)
Definition createModuleController_access (d : db) (u : user) (course_id : Z)
  : result course :=
  c <- orNotFound (getCourseById d course_id) "Course not found" ;;
  requireOwnerOrAdmin u (c_instructor_id c)
    "Access denied. You can only add modules to your own courses." ;;;
  Ok c.

Definition updateModuleController_access (d : db) (u : user) (id : Z)
  : result course :=
  mc <- orNotFound (getModuleWithCourse d id) "Module not found" ;;
  requireOwnerOrAdmin u (c_instructor_id (snd mc))
    "Access denied. You can only update modules in your own courses." ;;;
  Ok (snd mc).

Definition deleteModuleController_access (d : db) (u : user) (id : Z)
  : result course :=
  mc <- orNotFound (getModuleWithCourse d id) "Module not found" ;;
  requireOwnerOrAdmin u (c_instructor_id (snd mc))
    "Access denied. You can only delete modules from your own courses." ;;;
  Ok (snd mc).

(** controllers/lessonController.js *)
Definition createLessonController_access (d : db) (u : user) (module_id : Z)
  : result course :=
  mc <- orNotFound (getModuleWithCourse d module_id) "Module not found" ;;
  requireOwnerOrAdmin u (c_instructor_id (snd mc))
    "Access denied. You can only add lessons to your own modules." ;;;
  Ok (snd mc).

Definition updateLessonController_access (d : db) (u : user) (id : Z)
  : result course :=
  lc <- orNotFound (getLessonWithCourseInfo d id) "Lesson not found" ;;
  requireOwnerOrAdmin u (c_instructor_id (snd lc))
    "Access denied. You can only update lessons in your own courses." ;;;
  Ok (snd lc).

Definition deleteLessonController_access (d : db) (u : user) (id : Z)
  : result course :=
  lc <- orNotFound (getLessonWithCourseInfo d id) "Lesson not found" ;;
  requireOwnerOrAdmin u (c_instructor_id (snd lc))
    "Access denied. You can only delete lessons from your own courses." ;;;
  Ok (snd lc).

(** controllers/quizController.js *)
Definition createQuizController_access (d : db) (u : user) (lesson_id : Z)
  : result course :=
  lc <- orNotFound (getLessonWithCourseInfo d lesson_id) "Lesson not found" ;;
  requireOwnerOrAdmin u (c_instructor_id (snd lc))
    "Access denied. You can only add quizzes to your own lessons." ;;;
  Ok (snd lc).

Definition updateQuizController_access (d : db) (u : user) (id : Z)
  : result course :=
  qc <- orNotFound (getQuizById d id) "Quiz not found" ;;
  requireOwnerOrAdmin u (c_instructor_id (snd qc)) "Access denied" ;;;
  Ok (snd qc).

Definition deleteQuizController_access (d : db) (u : user) (id : Z)
  : result course :=
  qc <- orNotFound (getQuizById d id) "Quiz not found" ;;
  requireOwnerOrAdmin u (c_instructor_id (snd qc)) "Access denied" ;;;
  Ok (snd qc).

(** controllers/assignmentController.js *)
Definition createAssignmentController_access (d : db) (u : user) (lesson_id : Z)
  : result course :=
  lc <- orNotFound (getLessonWithCourseInfo d lesson_id) "Lesson not found" ;;
  requireOwnerOrAdmin u (c_instructor_id (snd lc))
    "Access denied. You can only add assignments to your own lessons." ;;;
  Ok (snd lc).

Definition updateAssignmentController_access (d : db) (u : user) (id : Z)
  : result course :=
  ac <- orNotFound (assignmentWithCourse d id) "Assignment not found" ;;
  requireOwnerOrAdmin u (c_instructor_id (snd ac)) "Access denied" ;;;
  Ok (snd ac).

Definition deleteAssignmentController_access (d : db) (u : user) (id : Z)
  : result course :=
  ac <- orNotFound (assignmentWithCourse d id) "Assignment not found" ;;
  requireOwnerOrAdmin u (c_instructor_id (snd ac)) "Access denied" ;;;
  Ok (snd ac).

(** controllers/submissionController.js, the access part of
    [gradeSubmissionController]. *)
Definition gradeSubmissionController_access (d : db) (u : user) (id : Z)
  : result (submission * assignment * course) :=
  r <- orNotFound (submissionWithCourse d id) "Submission not found" ;;
  requireOwnerOrAdmin u (c_instructor_id (snd r)) "Access denied" ;;;
  Ok r.

(** The ownership-gated actions and the routes that reach them.  The routes
    of creation and of grading run [authorize(INSTRUCTOR, ADMIN)] before the
    controller; the routes of update and deletion run the controller
    directly. *)
Inductive entity : Set := Module_ | Lesson | Quiz | Assignment.
Inductive operation : Set := Create | Update | Delete.
Inductive action : Set :=
| Crud (o : operation) (e : entity)
| GradeSubmission.

Definition route_roles (a : action) : option (list role) :=
  match a with
  | Crud Create _ => Some [instructor; admin]
  | Crud _ _ => None
  | GradeSubmission => Some [instructor; admin]
  end.

Definition controller_access (a : action) (d : db) (u : user) (target : Z)
  : result course :=
  match a with
  | Crud Create Module_ => createModuleController_access d u target
  | Crud Update Module_ => updateModuleController_access d u target
  | Crud Delete Module_ => deleteModuleController_access d u target
  | Crud Create Lesson => createLessonController_access d u target
  | Crud Update Lesson => updateLessonController_access d u target
  | Crud Delete Lesson => deleteLessonController_access d u target
  | Crud Create Quiz => createQuizController_access d u target
  | Crud Update Quiz => updateQuizController_access d u target
  | Crud Delete Quiz => deleteQuizController_access d u target
  | Crud Create Assignment => createAssignmentController_access d u target
  | Crud Update Assignment => updateAssignmentController_access d u target
  | Crud Delete Assignment => deleteAssignmentController_access d u target
  | GradeSubmission =>
      r <- gradeSubmissionController_access d u target ;; Ok (snd r)
  end.

Definition route_access (a : action) (d : db) (u : user) (target : Z)
  : result course :=
  match route_roles a with
  | Some roles => authorize roles u
  | None => Ok tt
  end ;;;
  controller_access a d u target.

(** The course an action's target belongs to, as the controller resolves
    it. *)
Definition target_course (a : action) (d : db) (target : Z) : option course :=
  match a with
  | Crud Create Module_ => getCourseById d target
  | Crud _ Module_ | Crud Create Lesson =>
      option_map snd (getModuleWithCourse d target)
  | Crud _ Lesson | Crud Create Quiz | Crud Create Assignment =>
      option_map snd (getLessonWithCourseInfo d target)
  | Crud _ Quiz => option_map snd (getQuizById d target)
  | Crud _ Assignment => option_map snd (assignmentWithCourse d target)
  | GradeSubmission => option_map snd (submissionWithCourse d target)
  end.

Definition allowed {A} (r : result A) : bool :=
  match r with
  | Ok _ => true
  | Throw _ => false
  end.

Definition denied_403 {A} (r : result A) : bool :=
  match r with
  | Throw (AppError _ FORBIDDEN) => true
  | _ => false
  end.

(* ------------------------------------------------------------------ *)
(** ** Quizzes: models/quizModel.js and controllers/quizController.js *)

(** [ORDER BY id] *)
Fixpoint insert_by_id (q : quiz) (l : list quiz) : list quiz :=
  match l with
  | [] => [q]
  | h :: t => if q_id q <=? q_id h then q :: l else h :: insert_by_id q t
  end.

Definition order_by_id (l : list quiz) : list quiz :=
  fold_right insert_by_id [] l.

(** [getQuizzesByLesson]:
    [SELECT id, question, answer, options, quiz_type, points, created_at
     FROM quizzes WHERE lesson_id = $1 ORDER BY id] *)
Definition getQuizzesByLesson (d : db) (lessonId : Z) : list quiz :=
  order_by_id (filter (fun q => q_lesson_id q =? lessonId) (quizzes d)).

(** A row of [getQuizQuestionsForStudent]: the [answer] column is not
    selected. *)
Record quiz_question : Type := mkQuizQuestion {
  qq_id : Z;
  qq_question : string;
  qq_options : option (list jsval);
  qq_quiz_type : string;
  qq_points : Z
}.

Definition question_of (q : quiz) : quiz_question :=
  mkQuizQuestion (q_id q) (q_question q) (q_options q) (q_quiz_type q) (q_points q).

(** [getQuizQuestionsForStudent]:
    [SELECT id, question, options, quiz_type, points
     FROM quizzes WHERE lesson_id = $1 ORDER BY id] *)
Definition getQuizQuestionsForStudent (d : db) (lessonId : Z) : list quiz_question :=
  map question_of (order_by_id (filter (fun q => q_lesson_id q =? lessonId) (quizzes d))).

(** The [quizzes] field of the response of [getQuizzesByLessonController]:
    rows of one of the two queries. *)
Inductive quizzes_payload : Type :=
| QuestionsOnly (rows : list quiz_question)
| FullQuizzes (rows : list quiz).

Record lesson_quizzes_response : Type := mkLessonQuizzes {
  lq_lessonId : Z;
  lq_lessonTitle : string;
  lq_quizzes : quizzes_payload
}.

(** The stored answers a payload carries in its [answer] fields. *)
Definition exposed_answers (p : quizzes_payload) : list string :=
  match p with
  | QuestionsOnly _ => []
  | FullQuizzes rows => map q_answer rows
  end.

(** [getQuizzesByLessonController]; [forStudent] is the query parameter
    ([None] when the URL has none; its default [false] is never ['true']). *)
Definition getQuizzesByLessonController (d : db) (u : user) (lesson_id : Z)
    (forStudent : option string) : result lesson_quizzes_response :=
  lc <- orNotFound (getLessonWithCourseInfo d lesson_id) "Lesson not found" ;;
  quizzes <-
    (if match forStudent with
        | Some v => String.eqb v "true"
        | None => false
        end && role_eqb (u_role u) student
     then
       (* Students get questions only (no answers) *)
       Ok (QuestionsOnly (getQuizQuestionsForStudent d lesson_id))
     else
       (* Instructors/admins get full quiz data *)
       throw_if (role_eqb (u_role u) instructor
                 && negb (c_instructor_id (snd lc) =? u_id u))
                (AppError "Access denied" FORBIDDEN) ;;;
       Ok (FullQuizzes (getQuizzesByLesson d lesson_id))) ;;
  Ok (mkLessonQuizzes lesson_id (l_title (fst lc)) quizzes).

(** The [answers] object of a submission: question id to answer. *)
Definition answers_map : Type := list (Z * jsval).

(** [answers[quiz.id]] *)
Fixpoint lookup_answer (answers : answers_map) (id : Z) : jsval :=
  match answers with
  | [] => JUndefined
  | (k, v) :: r => if k =? id then v else lookup_answer r id
  end.

Definition dquote : string := String "034"%char EmptyString.

(** ["${quiz.question.substring(0, 50)}..."] between double quotes. *)
Definition question_label (q : quiz) : string :=
  (dquote ++ substring 0 50 (q_question q) ++ "..." ++ dquote)%string.

Definition is_nullish (v : jsval) : bool :=
  match v with
  | JUndefined | JNull => true
  | _ => false
  end.

(** The value an entry of the options array stands for: the [value]
    property of an object when it is truthy, else the entry itself. *)
Definition value_or_self (opt : jsval) : jsval :=
  match opt with
  | JObj v => if truthy v then v else opt
  | _ => opt
  end.

(** [opt.value || opt]: reading a property of [null] throws. *)
Definition option_value (opt : jsval) : result jsval :=
  if is_nullish opt
  then Throw (TypeError "Cannot read properties of null (reading 'value')")
  else Ok (value_or_self opt).

(** [options.map(opt => opt.value || opt)] *)
Fixpoint map_options (options : list jsval) : result (list jsval) :=
  match options with
  | [] => Ok []
  | opt :: rest =>
      v <- option_value opt ;;
      vs <- map_options rest ;;
      Ok (v :: vs)
  end.

(** The body of the [forEach] of [validateQuizAnswers]: the errors one quiz
    pushes. *)
Definition validateQuizAnswer (answers : answers_map) (q : quiz) : result (list string) :=
  let userAnswer := lookup_answer answers (q_id q) in
  if is_nullish userAnswer || strict_eq userAnswer (JStr EmptyString) then
    Ok [("Answer required for question: " ++ question_label q)%string]
  else if String.eqb (q_quiz_type q) "true_false" then
    if negb (js_includes [JStr "true"; JStr "false"; JBool true; JBool false] userAnswer)
    then Ok [("Invalid true/false answer for question: " ++ question_label q)%string]
    else Ok []
  else if String.eqb (q_quiz_type q) "multiple_choice" then
    match q_options q with
    | Some options =>
        if (0 <? Z.of_nat (List.length options)) then
          validOptions <- map_options options ;;
          if negb (js_includes validOptions userAnswer)
          then Ok [("Invalid option selected for question: " ++ question_label q)%string]
          else Ok []
        else Ok []
    | None => Ok []
    end
  else if String.eqb (q_quiz_type q) "text" then
    if match userAnswer with
       | JStr s => (String.length (trim s) =? 0)%nat
       | _ => true
       end
    then Ok [("Text answer required for question: " ++ question_label q)%string]
    else Ok []
  else Ok [].

(** [validateQuizAnswers]: the errors of all quizzes, in order. *)
Fixpoint validateQuizAnswers (answers : answers_map) (quizzes : list quiz)
  : result (list string) :=
  match quizzes with
  | [] => Ok []
  | q :: rest =>
      errors <- validateQuizAnswer answers q ;;
      more <- validateQuizAnswers answers rest ;;
      Ok (errors ++ more)
  end.




(** The comparison of [submitQuizAnswers], by quiz type. *)
Definition answer_matches (q : quiz) (userAnswer : jsval) : bool :=
  if String.eqb (q_quiz_type q) "multiple_choice"
     || String.eqb (q_quiz_type q) "true_false" then
    String.eqb (toLowerCase (toString userAnswer)) (toLowerCase (q_answer q))
  else if String.eqb (q_quiz_type q) "text" then
    String.eqb (trim (toLowerCase (toString userAnswer)))
               (trim (toLowerCase (q_answer q)))
  else
    String.eqb (toString userAnswer) (q_answer q).

(** [isCorrect] of one quiz: false without an answer. *)
Definition isCorrect (answers : answers_map) (q : quiz) : bool :=
  let userAnswer := lookup_answer answers (q_id q) in
  if negb (is_nullish userAnswer) then answer_matches q userAnswer else false.

Record quiz_result : Type := mkQuizResult {
  qr_quizId : Z;
  qr_question : string;
  qr_userAnswer : jsval;
  qr_correctAnswer : string;
  qr_isCorrect : bool;
  qr_points : Z;
  qr_maxPoints : Z
}.

Record grading : Type := mkGrading {
  totalQuestions : Z;
  totalPoints : Z;
  earnedPoints : Z;
  score : jsnumber;
  results : list quiz_result
}.

(** One turn of the grading loop on the accumulators
    [(totalPoints, earnedPoints, results)]. *)
Definition grade_step (answers : answers_map)
    (acc : Z * Z * list quiz_result) (q : quiz) : Z * Z * list quiz_result :=
  match acc with
  | (total, earned, res) =>
      let userAnswer := lookup_answer answers (q_id q) in
      let total' := total + q_points q in
      let correct := isCorrect answers q in
      let points := if correct then q_points q else 0 in
      let earned' := if correct then earned + points else earned in
      (total', earned',
       res ++ [mkQuizResult (q_id q) (q_question q) userAnswer (q_answer q)
                            correct points (q_points q)])
  end.

(** [totalPoints > 0 ? Math.round((earnedPoints / totalPoints) * 100) : 0] *)
Definition compute_score (earned total : Z) : jsnumber :=
  if 0 <? total
  then js_round (js_mul (js_div (number_of_Z earned) (number_of_Z total)) (Num 100))
  else Num 0.



(** The score in the words of the specification:
    [round(earnedPoints / totalPoints * 100)], and 0 when [totalPoints]
    is 0. *)
Definition spec_score (earned total : Z) : Z :=
  if total =? 0 then 0
  else Math_round ((inject_Z earned / inject_Z total) * 100)%Q.

(** [submitQuizAnswers]: the query reads
    [SELECT id, question, answer, quiz_type, points FROM quizzes
     WHERE lesson_id = $1 ORDER BY id]; the store is not written. *)
Definition submitQuizAnswers (d : db) (lessonId : Z) (answers : answers_map)
  : grading :=
  let quizzes := order_by_id (filter (fun q => q_lesson_id q =? lessonId) (quizzes d)) in
  match fold_left (grade_step answers) quizzes (0, 0, []) with
  | (total, earned, res) =>
      mkGrading (Z.of_nat (List.length quizzes)) total earned
                (compute_score earned total) res
  end.

(** [submitQuizAnswersController]; [answers] is [None] when the body has no
    [answers] object. *)
Definition submitQuizAnswersController (d : db) (u : user) (lesson_id : Z)
    (answers : option answers_map) : result grading :=
  throw_if (negb (role_eqb (u_role u) student))
           (AppError "Only students can submit quiz answers" FORBIDDEN) ;;;
  _ <- orNotFound (getLessonWithCourseInfo d lesson_id) "Lesson not found" ;;
  match answers with
  | None => Throw (AppError "Answers object is required" BAD_REQUEST)
  | Some answers =>
      let quizzes := getQuizzesByLesson d lesson_id in
      throw_if (Z.of_nat (List.length quizzes) =? 0)
               (AppError "No quizzes found for this lesson" NOT_FOUND) ;;;
      validationErrors <- validateQuizAnswers answers quizzes ;;
      throw_if (0 <? Z.of_nat (List.length validationErrors))
               (AppError (join ", " validationErrors) BAD_REQUEST) ;;;
      Ok (submitQuizAnswers d lesson_id answers)
  end.

(* ------------------------------------------------------------------ *)
(** ** Submissions: controllers/submissionController.js and
       models/submissionModel.js *)

(** utils/helpers.js, [isDatePast]: [new Date(date) < new Date()]. *)
Definition isDatePast (date now : Z) : bool := date <? now.

(** [assignment.due_date && isDatePast(assignment.due_date)]: [null] when
    there is no due date, else the comparison. *)
Definition late_flag (due_date : option Z) (now : Z) : option bool :=
  match due_date with
  | None => None
  | Some due => Some (isDatePast due now)
  end.

(** Truthiness of a nullable boolean column. *)
Definition is_true (b : option bool) : bool :=
  match b with
  | Some true => true
  | _ => false
  end.

(** [!s] on an optional string: absent or empty. *)
Definition falsy_string (s : option string) : bool :=
  match s with
  | None => true
  | Some v => String.eqb v EmptyString
  end.

(** The next value of the [id] sequence of [submissions]. *)
Definition next_submission_id (ss : list submission) : Z :=
  1 + fold_right (fun s acc => Z.max (s_id s) acc) 0 ss.

(** [submitAssignmentController] *)
Definition submitAssignmentController (d : db) (now : Z) (u : user)
    (assignment_id : Z) (content file_path : option string)
  : result (db * submission) :=
  let userId := u_id u in
  ac <- orNotFound (assignmentWithCourse d assignment_id) "Assignment not found" ;;
  let assignment := fst ac in
  (* Check if assignment is past due *)
  let isLate := late_flag (a_due_date assignment) now in
  throw_if (is_true isLate && negb (a_allow_late_submission assignment))
           (AppError "Assignment submission deadline has passed" BAD_REQUEST) ;;;
  (* Check if student already submitted *)
  let existingSubmission :=
    filter (fun s => (s_assignment_id s =? assignment_id) && (s_student_id s =? userId))
           (submissions d) in
  throw_if (0 <? Z.of_nat (List.length existingSubmission))
           (AppError "You have already submitted this assignment" CONFLICT) ;;;
  (* Validate submission content *)
  throw_if (falsy_string content && falsy_string file_path)
           (AppError "Either content or file is required for submission" BAD_REQUEST) ;;;
  (* Create submission *)
  let row := mkSubmission (next_submission_id (submissions d)) assignment_id userId
                          (option_map trim content) file_path isLate now
                          None None None None in
  Ok (set_submissions d (submissions d ++ [row]), row).

(** [UPDATE submissions SET content = $1, file_path = $2, is_late = $3,
     submitted_at = CURRENT_TIMESTAMP WHERE id = $4] *)
Definition resubmit (id : Z) (content file_path : option string)
    (isLate : option bool) (now : Z) (s : submission) : submission :=
  if s_id s =? id then
    mkSubmission (s_id s) (s_assignment_id s) (s_student_id s)
                 content file_path isLate now
                 (s_grade s) (s_feedback s) (s_graded_at s) (s_graded_by s)
  else s.

(** [updateSubmissionController] *)
Definition updateSubmissionController (d : db) (now : Z) (u : user) (id : Z)
    (content file_path : option string) : result (db * option submission) :=
  let userId := u_id u in
  r <- orNotFound
         (first_row (filter (fun r => match r with
                                      | (s, _, c) => (s_id s =? id)
                                                     && (s_student_id s =? userId)
                                                     && negb (c_is_deleted c)
                                      end)
                            (submissions_courses d)))
         "Submission not found or access denied" ;;
  let submission := fst (fst r) in
  let assignment := snd (fst r) in
  (* Check if submission is already graded *)
  throw_if (match s_grade submission with Some _ => true | None => false end)
           (AppError "Cannot update graded submission" BAD_REQUEST) ;;;
  (* Check if assignment is past due *)
  let isLate := late_flag (a_due_date assignment) now in
  throw_if (is_true isLate && negb (a_allow_late_submission assignment))
           (AppError "Assignment submission deadline has passed" BAD_REQUEST) ;;;
  throw_if (falsy_string content && falsy_string file_path)
           (AppError "Either content or file is required for submission" BAD_REQUEST) ;;;
  let ss := map (resubmit id (option_map trim content) file_path isLate now)
                (submissions d) in
  Ok (set_submissions d ss, first_row (filter (fun s => s_id s =? id) ss)).

(** models/submissionModel.js, [updateSubmission]: the look-up joins
    [submissions] and [assignments] only. *)
Definition updateSubmission (d : db) (now : Z) (submissionId : Z)
    (content file_path : option string) : result (db * option submission) :=
  let submissionCheck :=
    flat_map (fun s =>
      map (fun a => (s, a))
          (filter (fun a => a_id a =? s_assignment_id s) (assignments d)))
      (filter (fun s => s_id s =? submissionId) (submissions d)) in
  match first_row submissionCheck with
  | None => Throw (Error "Submission not found")
  | Some (_, assignment) =>
      let isLate := late_flag (a_due_date assignment) now in
      let ss := map (resubmit submissionId content file_path isLate now)
                    (submissions d) in
      Ok (set_submissions d ss, first_row (filter (fun s => s_id s =? submissionId) ss))
  end.

(** [late_penalty_percent || 0] *)
Definition latePenalty (a : assignment) : Q :=
  match a_late_penalty_percent a with
  | Some p => p
  | None => 0%Q
  end.

(** [grade * (1 - latePenalty / 100)], three binary64 operations; the
    penalty read from the store is the binary64 value nearest to the
    stored percentage. *)
Definition penalized (grade : numval) (penalty : Q) : jsnumber :=
  js_mul (ToNumber grade) (js_sub (Num 1) (js_div (fl penalty) (Num 100))).

(** A rational that is a binary64 value, written in lowest terms. *)
Definition binary64 (q : Q) : Prop := fl q = Num q.

(** The final grade of one grading of the number [raw]: [finalGrade] after
    [let finalGrade = grade; if (submission.is_late) { ... }]. *)
Definition graded (late : bool) (raw penalty : Q) : jsnumber :=
  if late then penalized (NNumber (Num raw)) penalty else Num raw.

(** [UPDATE submissions SET grade = $1, feedback = $2,
     graded_at = CURRENT_TIMESTAMP, graded_by = $3 WHERE id = $4] *)
Definition stamp_grade (id : Z) (grade : option jsnumber) (feedback : option string)
    (now : Z) (grader : Z) (s : submission) : submission :=
  if s_id s =? id then
    mkSubmission (s_id s) (s_assignment_id s) (s_student_id s)
                 (s_content s) (s_file_path s) (s_is_late s) (s_submitted_at s)
                 grade feedback (Some now) (Some grader)
  else s.

(** The payload of [gradeSubmissionController]: the returned columns of the
    updated row and the fields the controller adds. *)
Record grade_response : Type := mkGradeResponse {
  gr_row : option submission;
  gr_originalGrade : numval;
  gr_finalGrade : numval;
  gr_latePenaltyApplied : option bool;
  gr_gradedBy : string
}.

(** [grade < 0 || grade > submission.max_points] *)
Definition grade_out_of_range (grade : numval) (max_points : Z) : bool :=
  js_lt grade (NNumber (Num 0))
  || js_gt grade (NNumber (Num (inject_Z max_points))).

(** [gradeSubmissionController] *)
Definition gradeSubmissionController (d : db) (now : Z) (u : user) (id : Z)
    (grade : numval) (feedback : option string) : result (db * grade_response) :=
  r <- orNotFound (submissionWithCourse d id) "Submission not found" ;;
  let submission := fst (fst r) in
  let max_points := a_max_points (snd (fst r)) in
  (* Check if user owns the course or is admin *)
  requireOwnerOrAdmin u (c_instructor_id (snd r)) "Access denied" ;;;
  (* Validate grade *)
  throw_if (grade_out_of_range grade max_points)
           (AppError ("Grade must be between 0 and " ++ string_of_Z max_points)%string
                     BAD_REQUEST) ;;;
  (* Calculate final grade with late penalty if applicable *)
  finalGrade <-
    (if is_true (s_is_late submission) then
       match first_row (filter (fun a => a_id a =? s_assignment_id submission)
                               (assignments d)) with
       | Some a => Ok (NNumber (penalized grade (latePenalty a)))
       | None => Throw (TypeError "Cannot read properties of undefined")
       end
     else Ok grade) ;;
  (* Update submission with grade *)
  let ss := map (stamp_grade id (sql_param finalGrade) (option_map trim feedback)
                             now (u_id u))
                (submissions d) in
  Ok (set_submissions d ss,
      mkGradeResponse (first_row (filter (fun s => s_id s =? id) ss))
                      grade finalGrade (s_is_late submission) (u_name u)).

(** middleware/validation.js, [handleValidationErrors], on the messages of
    the failed checks:
    [new AppError(`Validation failed: ${messages.join(', ')}`, 400)]. *)
Definition handleValidationErrors (messages : list string) : result unit :=
  throw_if (negb (Z.of_nat (List.length messages) =? 0))
           (AppError ("Validation failed: " ++ join ", " messages)%string BAD_REQUEST).

(** [validateId]: [param('id').isInt({ min: 1 })]; the id is modelled
    after [parseInt]. *)
Definition validateId (id : Z) : result unit :=
  handleValidationErrors
    (if 1 <=? id then [] else ["ID must be a positive integer"]).

(** [body('grade').isFloat({ min: 0, max: 100 })], not optional: the check
    reads the value as a string, which is empty for an absent or [null]
    grade and ["NaN"] or ["Infinity"] for the numbers that are not finite;
    none of these is a float. *)
Definition grade_isFloat (grade : numval) : bool :=
  match grade with
  | NNumber (Num q) => Qle_bool 0 q && Qle_bool q 100
  | _ => false
  end.

(** [validateSubmissionGrading]: the check of the grade, then
    [body('feedback').optional().trim().isLength({ max: 1000 })], which
    replaces the feedback by its trimmed text. *)
Definition validateSubmissionGrading (grade : numval) (feedback : option string)
  : result (option string) :=
  let trimmed := option_map trim feedback in
  handleValidationErrors
    ((if grade_isFloat grade then [] else ["Grade must be between 0 and 100"])
     ++ match trimmed with
        | Some text =>
            if (String.length text <=? 1000)%nat then []
            else ["Feedback cannot exceed 1000 characters"]
        | None => []
        end) ;;;
  Ok trimmed.

(** routes/submissionRoutes.js, the only route to the grading of one
    submission:
    [router.put('/:id/grade', authorize(INSTRUCTOR, ADMIN), validateId,
                validateSubmissionGrading, gradeSubmissionController)]. *)
Definition gradeSubmissionRoute (d : db) (now : Z) (u : user) (id : Z)
    (grade : numval) (feedback : option string) : result (db * grade_response) :=
  authorize [instructor; admin] u ;;;
  validateId id ;;;
  trimmed <- validateSubmissionGrading grade feedback ;;
  gradeSubmissionController d now u id grade trimmed.

(** A field of a request body that the code tells apart from [null]. *)
Inductive field (A : Type) : Type :=
| Absent
| Null
| Value (a : A).
Arguments Absent {A}.
Arguments Null {A}.
Arguments Value {A} a.

(** The body of [PUT /assignments/:id].  The route's validator refuses a
    [null] for [allow_late_submission]. *)
Record assignment_update : Type := mkAssignmentUpdate {
  au_title : option string;
  au_description : field string;
  au_due_date : field Z;
  au_max_points : option Z;
  au_allow_late_submission : option bool;
  au_late_penalty_percent : field Q
}.

(** The [updates] object of [updateAssignmentController] applied to a row:
    [UPDATE assignments SET ... WHERE id = $n]. *)
Definition apply_assignment_update (id : Z) (b : assignment_update) (a : assignment)
  : assignment :=
  if a_id a =? id then
    mkAssignment (a_id a) (a_lesson_id a)
      (match au_title b with
       | Some t => if String.eqb t EmptyString then a_title a else trim t
       | None => a_title a
       end)
      (match au_description b with
       | Absent => a_description a
       | Null => None
       | Value t => Some (trim t)
       end)
      (match au_due_date b with
       | Absent => a_due_date a
       | Null => None
       | Value t => Some t
       end)
      (match au_max_points b with
       | Some m => if m =? 0 then a_max_points a else m
       | None => a_max_points a
       end)
      (match au_allow_late_submission b with
       | Some v => v
       | None => a_allow_late_submission a
       end)
      (match au_late_penalty_percent b with
       | Absent => a_late_penalty_percent a
       | Null => None
       | Value p => Some p
       end)
  else a.

(** [Object.keys(updates).length === 0] *)
Definition no_assignment_updates (b : assignment_update) : bool :=
  match au_title b with
  | Some t => String.eqb t EmptyString
  | None => true
  end
  && match au_description b with Absent => true | _ => false end
  && match au_due_date b with Absent => true | _ => false end
  && match au_max_points b with Some m => m =? 0 | None => true end
  && match au_allow_late_submission b with Some _ => false | None => true end
  && match au_late_penalty_percent b with Absent => true | _ => false end.

(** controllers/assignmentController.js, [updateAssignmentController] *)
Definition updateAssignmentController (d : db) (now : Z) (u : user) (id : Z)
    (b : assignment_update) : result (db * option assignment) :=
  ac <- orNotFound (assignmentWithCourse d id) "Assignment not found" ;;
  requireOwnerOrAdmin u (c_instructor_id (snd ac)) "Access denied" ;;;
  throw_if (match au_due_date b with
            | Value due => isDatePast due now
            | _ => false
            end)
           (AppError "Due date cannot be in the past" BAD_REQUEST) ;;;
  throw_if (no_assignment_updates b)
           (AppError "No valid fields to update" BAD_REQUEST) ;;;
  let xs := map (apply_assignment_update id b) (assignments d) in
  Ok (set_assignments d xs, first_row (filter (fun a => a_id a =? id) xs)).

(** The final grade in the words of the specification: the raw grade, or
    [rawGrade * (1 - latePenaltyPercent / 100)] for a late submission. *)
Definition spec_finalGrade (isLate : bool) (rawGrade latePenaltyPercent : Q) : Q :=
  if isLate then (rawGrade * (1 - latePenaltyPercent / 100))%Q else rawGrade.

(** [grade * (1 - latePenalty / 100)] in IEEE binary64, the arithmetic of
    the runtime. *)
Definition penalized_binary64 (grade latePenalty : float) : float :=
  (grade * (1 - latePenalty / 100))%float.

(** Primary key: the ids of a table are pairwise distinct. *)
Fixpoint distinct (ids : list Z) : bool :=
  match ids with
  | [] => true
  | x :: r => negb (existsb (Z.eqb x) r) && distinct r
  end.

(* ------------------------------------------------------------------ *)
(** ** Enrollment progress: models/enrollmentModel.js and
       controllers/enrollmentController.js *)

(** [getEnrollmentByUserAndCourse]:
    [FROM enrollments e JOIN courses c ON e.course_id = c.id
     WHERE e.user_id = $1 AND e.course_id = $2] *)
Definition getEnrollmentByUserAndCourse (d : db) (userId courseId : Z)
  : option enrollment :=
  first_row
    (flat_map (fun e =>
       map (fun _ => e) (filter (fun c => c_id c =? e_course_id e) (courses d)))
       (filter (fun e => (e_user_id e =? userId) && (e_course_id e =? courseId))
               (enrollments d))).

(** [UPDATE enrollments SET progress = $1, completed = $2,
     completed_at = ${completedAt} WHERE user_id = $3 AND course_id = $4] *)
Definition write_progress (userId courseId : Z) (progress : option jsnumber)
    (completed : bool) (completedAt : option Z) (e : enrollment) : enrollment :=
  if (e_user_id e =? userId) && (e_course_id e =? courseId) then
    mkEnrollment (e_id e) (e_user_id e) (e_course_id e) progress completed completedAt
  else e.

(** [updateEnrollmentProgress] *)
Definition updateEnrollmentProgress (d : db) (now : Z) (userId courseId : Z)
    (progress : numval) : db * option enrollment :=
  let completed := js_ge progress (NNumber (Num 100)) in
  let completedAt := if completed then Some now else None in
  let es := map (write_progress userId courseId (sql_param progress) completed completedAt)
                (enrollments d) in
  (set_enrollments d es,
   first_row (filter (fun e => (e_user_id e =? userId) && (e_course_id e =? courseId)) es)).

(** [updateProgress] *)
Definition updateProgress (d : db) (now : Z) (u : user) (course_id : Z)
    (progress : numval) : result (db * option enrollment) :=
  let userId := u_id u in
  (* Validate progress value *)
  throw_if (js_lt progress (NNumber (Num 0)) || js_gt progress (NNumber (Num 100)))
           (AppError "Progress must be between 0 and 100" BAD_REQUEST) ;;;
  (* Check if user is enrolled *)
  _ <- orNotFound (getEnrollmentByUserAndCourse d userId course_id)
                  "You are not enrolled in this course" ;;
  (* Update progress *)
  Ok (updateEnrollmentProgress d now userId course_id progress).

(* ------------------------------------------------------------------ *)
(** ** Categories: models/categoryModel.js and
       controllers/categoryController.js *)

(** [deleteCategory].  The store is modelled without foreign-key
    enforcement: the only guard on the deletion is the count below. *)
Definition deleteCategory (d : db) (id : Z) : result (db * option Z) :=
  (* Check if category has courses *)
  let courseCount :=
    Z.of_nat (List.length
      (filter (fun c => match c_category_id c with
                        | Some k => k =? id
                        | None => false
                        end && negb (c_is_deleted c))
              (courses d))) in
  throw_if (0 <? courseCount)
           (Error ("Cannot delete category. It has " ++ string_of_Z courseCount
                   ++ " associated courses.")%string) ;;;
  let deleted := filter (fun c => cat_id c =? id) (categories d) in
  Ok (set_categories d (filter (fun c => negb (cat_id c =? id)) (categories d)),
      option_map cat_id (first_row deleted)).

(** [deleteCategoryController] *)
Definition deleteCategoryController (d : db) (id : Z) : result db :=
  try_catch
    (r <- deleteCategory d id ;;
     match snd r with
     | None => Throw (AppError "Category not found" NOT_FOUND)
     | Some _ => Ok (fst r)
     end)
    (fun error =>
       if includes "associated courses" (exn_message error)
       then Throw (AppError (exn_message error) CONFLICT)
       else Throw error).

(** The key of an enrollment row. *)
Definition same_enrollment (userId courseId : Z) (e : enrollment) : bool :=
  (e_user_id e =? userId) && (e_course_id e =? courseId).

(** The sum of the points of a list of quizzes. *)
Definition sum_points (qs : list quiz) : Z :=
  fold_right (fun q acc => q_points q + acc) 0 qs.

(** The entry of [results] for one quiz. *)
Definition result_of (answers : answers_map) (q : quiz) : quiz_result :=
  mkQuizResult (q_id q) (q_question q) (lookup_answer answers (q_id q)) (q_answer q)
               (isCorrect answers q)
               (if isCorrect answers q then q_points q else 0)
               (q_points q).

(** An update of the submission of a row of the submission join. *)
Definition on_submission (f : submission -> submission)
    (r : submission * assignment * course) : submission * assignment * course :=
  (f (fst (fst r)), snd (fst r), snd r).

(* ------------------------------------------------------------------ *)
(** ** Example stores *)

Module Examples.

Definition alice : user := mkUser 10 "alice" instructor.
Definition bob : user := mkUser 11 "bob" instructor.
Definition root : user := mkUser 1 "root" admin.
Definition sam : user := mkUser 20 "sam" student.

(** Two courses: course 1 of alice, course 2 of bob.  Under course 1: a
    lesson with one quiz and two assignments (the second refuses late
    work), and a lesson without quizzes.  Submissions 1 and 3 answer
    assignment 1, submission 2 answers assignment 2. *)
Definition quiz_capital : quiz :=
  mkQuiz 1 1 "What is the capital of France?" "Paris"
         (Some [JStr "Paris"; JStr "Rome"; JObj (JStr "Madrid")])
         "multiple_choice" 5.

Definition essay : assignment := mkAssignment 1 1 "Essay" None (Some 1000) 100 true (Some (10 # 1)).
Definition strict_essay : assignment := mkAssignment 2 1 "Timed essay" None (Some 1000) 100 false (Some (20 # 1)).

Definition late_submission : submission :=
  mkSubmission 1 1 20 (Some "text") None (Some true) 1500 None None None None.
Definition early_submission : submission :=
  mkSubmission 2 2 20 (Some "text") None (Some false) 500 None None None None.
Definition on_time_submission : submission :=
  mkSubmission 3 1 21 (Some "text") None (Some false) 500 None None None None.

Definition school : db :=
  mkDb [mkCourse 1 "Geography" (Some 7) 10 false; mkCourse 2 "History" (Some 7) 11 false]
       [mkModule 1 1; mkModule 2 2]
       [mkLesson 1 1 "Capitals"; mkLesson 2 1 "Rivers"]
       [quiz_capital]
       [essay; strict_essay]
       [late_submission; early_submission; on_time_submission]
       [mkEnrollment 1 20 1 (Some (Num 0)) false None]
       [mkCategory 7 "Humanities"; mkCategory 8 "Science"].





End Examples.

(* ------------------------------------------------------------------ *)
(** ** Submissions: the rest of controllers/submissionController.js *)

(** models/submissionModel.js, [hasUserSubmitted]; the duplicate check of
    [submitAssignmentController] runs the same query. *)
Definition hasUserSubmitted (d : db) (assignmentId studentId : Z) : bool :=
  0 <? Z.of_nat (List.length
         (filter (fun s => (s_assignment_id s =? assignmentId)
                           && (s_student_id s =? studentId))
                 (submissions d))).

(** [deleteSubmissionController]: the look-up joins [submissions] and
    [assignments] only,
    [WHERE s.id = $1 AND s.student_id = $2]. *)
Definition deleteSubmissionController (d : db) (u : user) (id : Z) : result db :=
  let userId := u_id u in
  let rows :=
    flat_map (fun s =>
      map (fun a => (s, a))
          (filter (fun a => a_id a =? s_assignment_id s) (assignments d)))
      (filter (fun s => (s_id s =? id) && (s_student_id s =? userId)) (submissions d)) in
  r <- orNotFound (first_row rows) "Submission not found or access denied" ;;
  let submission := fst r in
  (* Check if submission is already graded *)
  throw_if (match s_grade submission with Some _ => true | None => false end)
           (AppError "Cannot delete graded submission" BAD_REQUEST) ;;;
  Ok (set_submissions d (filter (fun s => negb (s_id s =? id)) (submissions d))).

(** An element of the [grades] array of a bulk grading. *)
Record grade_item : Type := mkGradeItem {
  gi_submissionId : Z;
  gi_grade : numval;
  gi_feedback : option string
}.

Record bulk_graded : Type := mkBulkGraded {
  bg_submissionId : Z;
  bg_originalGrade : numval;
  bg_finalGrade : numval;
  bg_latePenaltyApplied : option bool
}.

Record bulk_error : Type := mkBulkError {
  be_submissionId : Z;
  be_error : string
}.

Record bulk_grade_response : Type := mkBulkGradeResponse {
  bgr_gradedCount : Z;
  bgr_errorCount : Z;
  bgr_results : list bulk_graded;
  bgr_errors : list bulk_error
}.

(** [SELECT is_late FROM submissions WHERE id = $1 AND assignment_id = $2],
    first row. *)
Definition bulk_target (d : db) (assignment_id submissionId : Z) : option submission :=
  first_row (filter (fun s => (s_id s =? submissionId)
                              && (s_assignment_id s =? assignment_id))
                    (submissions d)).

(** Truthiness of [assignment.late_penalty_percent]. *)
Definition penalty_truthy (a : assignment) : bool :=
  match a_late_penalty_percent a with
  | Some p => negb (Qeq_bool p 0)
  | None => false
  end.

(** [finalGrade] of one item of a bulk grading:
    [isLate && assignment.late_penalty_percent] decides on the penalty. *)
Definition bulk_finalGrade (a : assignment) (isLate : option bool) (grade : numval)
  : numval :=
  if is_true isLate && penalty_truthy a
  then NNumber (penalized grade (latePenalty a))
  else grade.

(** One turn of the loop of [bulkGradeSubmissionsController] on the store
    and the two accumulators. *)
Definition bulk_grade_step (now : Z) (u : user) (assignment_id : Z) (a : assignment)
    (acc : db * list bulk_graded * list bulk_error) (item : grade_item)
  : db * list bulk_graded * list bulk_error :=
  match acc with
  | (d, results, errors) =>
      let submissionId := gi_submissionId item in
      let grade := gi_grade item in
      if grade_out_of_range grade (a_max_points a) then
        (d, results,
         errors ++ [mkBulkError submissionId
                      ("Grade must be between 0 and " ++ string_of_Z (a_max_points a))%string])
      else
        match bulk_target d assignment_id submissionId with
        | None => (d, results, errors ++ [mkBulkError submissionId "Submission not found"])
        | Some row =>
            let isLate := s_is_late row in
            let finalGrade := bulk_finalGrade a isLate grade in
            (set_submissions d
               (map (stamp_grade submissionId (sql_param finalGrade)
                                 (option_map trim (gi_feedback item)) now (u_id u))
                    (submissions d)),
             results ++ [mkBulkGraded submissionId grade finalGrade isLate],
             errors)
        end
  end.

(** [bulkGradeSubmissionsController]; [grades] is the array of the body. *)
Definition bulkGradeSubmissionsController (d : db) (now : Z) (u : user)
    (assignment_id : Z) (grades : list grade_item)
  : result (db * bulk_grade_response) :=
  ac <- orNotFound (assignmentWithCourse d assignment_id) "Assignment not found" ;;
  let assignment := fst ac in
  requireOwnerOrAdmin u (c_instructor_id (snd ac)) "Access denied" ;;;
  throw_if (Z.of_nat (List.length grades) =? 0)
           (AppError "Grades array is required" BAD_REQUEST) ;;;
  match fold_left (bulk_grade_step now u assignment_id assignment) grades (d, [], []) with
  | (d1, results, errors) =>
      Ok (d1, mkBulkGradeResponse (Z.of_nat (List.length results))
                                  (Z.of_nat (List.length errors)) results errors)
  end.

(** controllers/assignmentController.js, [deleteAssignmentController] *)
Definition deleteAssignmentController (d : db) (u : user) (id : Z) : result db :=
  ac <- orNotFound (assignmentWithCourse d id) "Assignment not found" ;;
  requireOwnerOrAdmin u (c_instructor_id (snd ac)) "Access denied" ;;;
  (* Check if assignment has submissions *)
  let submissionCount :=
    Z.of_nat (List.length (filter (fun s => s_assignment_id s =? id) (submissions d))) in
  throw_if (0 <? submissionCount)
           (AppError "Cannot delete assignment that has submissions" CONFLICT) ;;;
  Ok (set_assignments d (filter (fun a => negb (a_id a =? id)) (assignments d))).

(** models/lessonModel.js, [deleteLesson]: the three [DELETE] statements,
    each on the table it names ([quizzes] and [assignments] by
    [lesson_id], then [lessons] by [id]); the result is the id of the
    deleted lesson.  The store has no foreign keys: the submissions of a
    deleted assignment are not looked at, and stay. *)
Definition deleteLesson (d : db) (id : Z) : db * option Z :=
  (mkDb (courses d) (modules d)
        (filter (fun l => negb (l_id l =? id)) (lessons d))
        (filter (fun q => negb (q_lesson_id q =? id)) (quizzes d))
        (filter (fun a => negb (a_lesson_id a =? id)) (assignments d))
        (submissions d) (enrollments d) (categories d),
   option_map l_id (first_row (filter (fun l => l_id l =? id) (lessons d)))).

(** controllers/lessonController.js, [deleteLessonController] *)
Definition deleteLessonController (d : db) (u : user) (id : Z) : result db :=
  (* Get lesson with course info *)
  lc <- orNotFound (getLessonWithCourseInfo d id) "Lesson not found" ;;
  (* Check if user owns the course or is admin *)
  requireOwnerOrAdmin u (c_instructor_id (snd lc))
    "Access denied. You can only delete lessons from your own courses." ;;;
  Ok (fst (deleteLesson d id)).

(** The outcome of one item of a bulk grading, read off a store. *)
Definition bulk_item_ok (d : db) (assignment_id : Z) (a : assignment) (item : grade_item)
  : bool :=
  negb (grade_out_of_range (gi_grade item) (a_max_points a))
  && match bulk_target d assignment_id (gi_submissionId item) with
     | Some _ => true
     | None => false
     end.

Definition bulk_outcome (d : db) (assignment_id : Z) (a : assignment) (item : grade_item)
  : bulk_graded :=
  let isLate := match bulk_target d assignment_id (gi_submissionId item) with
                | Some row => s_is_late row
                | None => None
                end in
  mkBulkGraded (gi_submissionId item) (gi_grade item)
               (bulk_finalGrade a isLate (gi_grade item)) isLate.

(** What the grading of a submission reads and never writes. *)
Definition submission_handin (s : submission)
  : Z * Z * Z * option string * option string * option bool * Z :=
  (s_id s, s_assignment_id s, s_student_id s, s_content s, s_file_path s,
   s_is_late s, s_submitted_at s).

(** At most one submission per (assignment, student). *)
Definition submission_pair (s : submission) : Z * Z :=
  (s_assignment_id s, s_student_id s).

Definition one_submission_per_pair (d : db) : Prop :=
  NoDup (map submission_pair (submissions d)).

(** Every submission answers an assignment of the store. *)
Definition submissions_have_assignments (d : db) : Prop :=
  forall s, In s (submissions d) ->
            exists a, In a (assignments d) /\ a_id a = s_assignment_id s.

(** The error entry of an item that is not graded. *)
Definition bulk_failure (a : assignment) (item : grade_item) : bulk_error :=
  mkBulkError (gi_submissionId item)
    (if grade_out_of_range (gi_grade item) (a_max_points a)
     then ("Grade must be between 0 and " ++ string_of_Z (a_max_points a))%string
     else "Submission not found").

(** A row after a bulk grading, against the row before: the hand-in is the
    same, and the whole row is the same unless its id is in [ids]. *)
Definition regraded_only (ids : list Z) (s s1 : submission) : Prop :=
  submission_handin s1 = submission_handin s
  /\ (~ In (s_id s) ids -> s1 = s).

(* ------------------------------------------------------------------ *)
(** ** Quizzes: creation, update, deletion and duplication *)

Definition set_quizzes (d : db) (qs : list quiz) : db :=
  mkDb (courses d) (modules d) (lessons d) qs (assignments d)
       (submissions d) (enrollments d) (categories d).

(** utils/constants.js, [Object.values(QUIZ_TYPES)]. *)
Definition QUIZ_TYPES : list string := ["multiple_choice"; "true_false"; "text"].

Definition is_quiz_type (t : string) : bool := existsb (String.eqb t) QUIZ_TYPES.

(** The next value of the [id] sequence of [quizzes]. *)
Definition next_quiz_id (qs : list quiz) : Z :=
  1 + fold_right (fun q acc => Z.max (q_id q) acc) 0 qs.

(** The body of [POST /quizzes]; [options] is [None] unless it is an array,
    [quiz_type] and [points] are [None] when absent. *)
Record quiz_body : Type := mkQuizBody {
  qb_lesson_id : Z;
  qb_question : string;
  qb_answer : string;
  qb_options : option (list jsval);
  qb_quiz_type : option string;
  qb_points : option Z
}.

(** [createQuizController] with the [INSERT] of [createQuiz]; the options of
    a multiple choice quiz are stored as JSON and read back as the array. *)
Definition createQuizController (d : db) (u : user) (b : quiz_body) : result (db * quiz) :=
  let quiz_type := match qb_quiz_type b with Some t => t | None => "text" end in
  let points := match qb_points b with Some p => p | None => 1 end in
  lc <- orNotFound (getLessonWithCourseInfo d (qb_lesson_id b)) "Lesson not found" ;;
  requireOwnerOrAdmin u (c_instructor_id (snd lc))
    "Access denied. You can only add quizzes to your own lessons." ;;;
  (* Validate quiz type *)
  throw_if (negb (is_quiz_type quiz_type)) (AppError "Invalid quiz type" BAD_REQUEST) ;;;
  (* Validate options for multiple choice quizzes *)
  throw_if (String.eqb quiz_type "multiple_choice"
            && match qb_options b with Some _ => false | None => true end)
           (AppError "Options are required for multiple choice quizzes" BAD_REQUEST) ;;;
  let row := mkQuiz (next_quiz_id (quizzes d)) (qb_lesson_id b)
                    (trim (qb_question b)) (trim (qb_answer b))
                    (if String.eqb quiz_type "multiple_choice" then qb_options b else None)
                    quiz_type points in
  Ok (set_quizzes d (quizzes d ++ [row]), row).

(** The body of [PUT /quizzes/:id]. *)
Record quiz_update : Type := mkQuizUpdate {
  qu_question : option string;
  qu_answer : option string;
  qu_options : field (list jsval);
  qu_quiz_type : option string;
  qu_points : option Z
}.

(** The [updates] object of [updateQuizController] applied to a row by
    [updateQuiz]: [UPDATE quizzes SET ... WHERE id = $n]. *)
Definition apply_quiz_update (id : Z) (b : quiz_update) (q : quiz) : quiz :=
  if q_id q =? id then
    mkQuiz (q_id q) (q_lesson_id q)
      (match qu_question b with
       | Some t => if String.eqb t EmptyString then q_question q else trim t
       | None => q_question q
       end)
      (match qu_answer b with
       | Some t => if String.eqb t EmptyString then q_answer q else trim t
       | None => q_answer q
       end)
      (match qu_options b with
       | Absent => q_options q
       | Null => None
       | Value options =>
           match qu_quiz_type b with
           | Some t => if String.eqb t "multiple_choice" then Some options else None
           | None => None
           end
       end)
      (match qu_quiz_type b with
       | Some t => if is_quiz_type t then t else q_quiz_type q
       | None => q_quiz_type q
       end)
      (match qu_points b with
       | Some p => if p =? 0 then q_points q else p
       | None => q_points q
       end)
  else q.

(** [Object.keys(updates).length === 0] *)
Definition no_quiz_updates (b : quiz_update) : bool :=
  match qu_question b with Some t => String.eqb t EmptyString | None => true end
  && match qu_answer b with Some t => String.eqb t EmptyString | None => true end
  && match qu_quiz_type b with Some t => negb (is_quiz_type t) | None => true end
  && match qu_options b with Absent => true | _ => false end
  && match qu_points b with Some p => p =? 0 | None => true end.

(** [updateQuizController] *)
Definition updateQuizController (d : db) (u : user) (id : Z) (b : quiz_update)
  : result (db * option quiz) :=
  qc <- orNotFound (getQuizById d id) "Quiz not found" ;;
  requireOwnerOrAdmin u (c_instructor_id (snd qc)) "Access denied" ;;;
  throw_if (no_quiz_updates b) (AppError "No valid fields to update" BAD_REQUEST) ;;;
  let qs := map (apply_quiz_update id b) (quizzes d) in
  Ok (set_quizzes d qs, first_row (filter (fun q => q_id q =? id) qs)).

(** [deleteQuizController] with the [DELETE] of [deleteQuiz]. *)
Definition deleteQuizController (d : db) (u : user) (id : Z) : result db :=
  qc <- orNotFound (getQuizById d id) "Quiz not found" ;;
  requireOwnerOrAdmin u (c_instructor_id (snd qc)) "Access denied" ;;;
  Ok (set_quizzes d (filter (fun q => negb (q_id q =? id)) (quizzes d))).

(** [duplicateQuiz]:
    [INSERT INTO quizzes (lesson_id, question, answer, options, quiz_type, points)
     SELECT $1, question, answer, options, quiz_type, points
     FROM quizzes WHERE id = $2]: one new row for each row with the id. *)
Definition duplicateQuiz (d : db) (quizId targetLessonId : Z) : db * option quiz :=
  let copies :=
    fold_left (fun acc q =>
                 acc ++ [mkQuiz (next_quiz_id (quizzes d ++ acc)) targetLessonId
                                (q_question q) (q_answer q) (q_options q)
                                (q_quiz_type q) (q_points q)])
              (filter (fun q => q_id q =? quizId) (quizzes d)) [] in
  (set_quizzes d (quizzes d ++ copies), first_row copies).

(** [duplicateQuizController] *)
Definition duplicateQuizController (d : db) (u : user) (id targetLessonId : Z)
  : result (db * option quiz) :=
  qc <- orNotFound (getQuizById d id) "Quiz not found" ;;
  requireOwnerOrAdmin u (c_instructor_id (snd qc)) "Access denied" ;;;
  lc <- orNotFound (getLessonWithCourseInfo d targetLessonId) "Target lesson not found" ;;
  requireOwnerOrAdmin u (c_instructor_id (snd lc)) "Access denied to target lesson" ;;;
  Ok (duplicateQuiz d id targetLessonId).

(** The object [getQuizStats] returns, without [avgPointsPerQuiz] (what
    [parseFloat] reads from the decimal text of [AVG(points)], which is
    not modelled); [parseInt] of the NULL that [SUM] gives on no row is
    [NaN]. *)
Record quiz_stats : Type := mkQuizStats {
  qs_totalQuizzes : Z;
  qs_totalPoints : jsnumber;
  qs_multipleChoiceCount : Z;
  qs_trueFalseCount : Z;
  qs_textCount : Z
}.

(** The count of the rows with [quiz_type = t]. *)
Definition count_of_type (t : string) (qs : list quiz) : Z :=
  Z.of_nat (List.length (filter (fun q => String.eqb (q_quiz_type q) t) qs)).

(** [getQuizStats]: the counts and the sum over
    [FROM quizzes WHERE lesson_id = $1]. *)
Definition getQuizStats (d : db) (lessonId : Z) : quiz_stats :=
  let rows := filter (fun q => q_lesson_id q =? lessonId) (quizzes d) in
  let n := Z.of_nat (List.length rows) in
  mkQuizStats n
    (match rows with
     | [] => NaN
     | _ => number_of_Z (sum_points rows)
     end)
    (count_of_type "multiple_choice" rows)
    (count_of_type "true_false" rows)
    (count_of_type "text" rows).

Record quiz_stats_response : Type := mkQuizStatsResponse {
  qsr_lessonId : Z;
  qsr_lessonTitle : string;
  qsr_stats : quiz_stats
}.

(** [getQuizStatsController] *)
Definition getQuizStatsController (d : db) (u : user) (lesson_id : Z)
  : result quiz_stats_response :=
  (* Validate lesson exists and check ownership *)
  lc <- orNotFound (getLessonWithCourseInfo d lesson_id) "Lesson not found" ;;
  (* Check if user owns the course or is admin *)
  requireOwnerOrAdmin u (c_instructor_id (snd lc)) "Access denied" ;;;
  Ok (mkQuizStatsResponse lesson_id (l_title (fst lc)) (getQuizStats d lesson_id)).

(** [validateId] on the parameters of a path: [param('id').isInt({ min: 1 })]
    fails on a path that binds no [id]. *)
Definition validateIdParam (id : option Z) : result unit :=
  handleValidationErrors
    (match id with
     | Some n => if 1 <=? n then [] else ["ID must be a positive integer"]
     | None => ["ID must be a positive integer"]
     end).

(** routes/quizRoutes.js,
    [router.get('/lesson/:lesson_id/stats', validateId, getQuizStatsController)]:
    the path binds [lesson_id] and no [id]. *)
Definition getQuizStatsRoute (d : db) (u : user) (lesson_id : Z)
  : result quiz_stats_response :=
  validateIdParam None ;;;
  getQuizStatsController d u lesson_id.

(* ------------------------------------------------------------------ *)
(** ** Assignments: creation, controllers/assignmentController.js *)

(** The body of [POST /assignments]; [None] and [Absent] are properties
    the body does not have. *)
Record assignment_body : Type := mkAssignmentBody {
  ab_lesson_id : Z;
  ab_title : string;
  ab_description : option string;
  ab_due_date : option Z;
  ab_max_points : option Z;
  ab_allow_late_submission : option bool;
  ab_late_penalty_percent : field Q
}.

(** The next value of the [id] sequence of [assignments]. *)
Definition next_assignment_id (xs : list assignment) : Z :=
  1 + fold_right (fun a acc => Z.max (a_id a) acc) 0 xs.

(** [createAssignmentController], with the defaults of the destructuring:
    [max_points = 100], [allow_late_submission = true],
    [late_penalty_percent = 10]. *)
Definition createAssignmentController (d : db) (now : Z) (u : user) (b : assignment_body)
  : result (db * assignment) :=
  (* Validate lesson exists and check ownership *)
  lc <- orNotFound (getLessonWithCourseInfo d (ab_lesson_id b)) "Lesson not found" ;;
  requireOwnerOrAdmin u (c_instructor_id (snd lc))
    "Access denied. You can only add assignments to your own lessons." ;;;
  (* Validate due date if provided *)
  throw_if (match ab_due_date b with
            | Some due => isDatePast due now
            | None => false
            end)
           (AppError "Due date cannot be in the past" BAD_REQUEST) ;;;
  let row :=
    mkAssignment (next_assignment_id (assignments d)) (ab_lesson_id b)
      (trim (ab_title b)) (option_map trim (ab_description b)) (ab_due_date b)
      (match ab_max_points b with Some m => m | None => 100 end)
      (match ab_allow_late_submission b with Some v => v | None => true end)
      (match ab_late_penalty_percent b with
       | Absent => Some (10 # 1)
       | Null => None
       | Value p => Some p
       end) in
  Ok (set_assignments d (assignments d ++ [row]), row).

(** The row of [getAssignmentByIdController]: the assignment, its course
    and the two counts over [LEFT JOIN submissions s ON a.id =
    s.assignment_id]. *)
Record assignment_view : Type := mkAssignmentView {
  av_assignment : assignment;
  av_course : course;
  av_submission_count : Z;
  av_graded_count : Z
}.

(** [COUNT(s.id)] and [COUNT(s.id) FILTER (WHERE s.grade IS NOT NULL)] of
    the group of one assignment. *)
Definition submission_count (d : db) (assignmentId : Z) : Z :=
  Z.of_nat (List.length
    (filter (fun s => s_assignment_id s =? assignmentId) (submissions d))).

Definition graded_count (d : db) (assignmentId : Z) : Z :=
  Z.of_nat (List.length
    (filter (fun s => (s_assignment_id s =? assignmentId)
                      && match s_grade s with Some _ => true | None => false end)
            (submissions d))).

(** [getAssignmentByIdController].  With the ids of lessons, modules and
    courses as keys an assignment has one joined row, which is its group of
    the [GROUP BY].  The branch of the students is empty in the source. *)
Definition getAssignmentByIdController (d : db) (u : user) (id : Z)
  : result assignment_view :=
  ac <- orNotFound (assignmentWithCourse d id) "Assignment not found" ;;
  let assignment :=
    mkAssignmentView (fst ac) (snd ac)
                     (submission_count d (a_id (fst ac)))
                     (graded_count d (a_id (fst ac))) in
  (* Check access permissions *)
  (if role_eqb (u_role u) student then Ok tt
   else if role_eqb (u_role u) instructor then
     throw_if (negb (c_instructor_id (snd ac) =? u_id u))
              (AppError "Access denied" FORBIDDEN)
   else Ok tt) ;;;
  Ok assignment.

(* ------------------------------------------------------------------ *)
(** ** Enrollments: the rest of models/enrollmentModel.js and
       controllers/enrollmentController.js *)

(** [isUserEnrolled]:
    [SELECT id FROM enrollments WHERE user_id = $1 AND course_id = $2],
    [result.rows.length > 0]. *)
Definition isUserEnrolled (d : db) (userId courseId : Z) : bool :=
  0 <? Z.of_nat (List.length
         (filter (fun e => (e_user_id e =? userId) && (e_course_id e =? courseId))
                 (enrollments d))).

(** [deleteEnrollment]:
    [DELETE FROM enrollments WHERE user_id = $1 AND course_id = $2 RETURNING id] *)
Definition deleteEnrollment (d : db) (userId courseId : Z) : db * option Z :=
  let hit e := (e_user_id e =? userId) && (e_course_id e =? courseId) in
  (set_enrollments d (filter (fun e => negb (hit e)) (enrollments d)),
   first_row (map e_id (filter hit (enrollments d)))).

(** [unenrollFromCourse] *)
Definition unenrollFromCourse (d : db) (u : user) (course_id : Z) : result db :=
  let userId := u_id u in
  (* Check if user is enrolled *)
  _ <- orNotFound (getEnrollmentByUserAndCourse d userId course_id)
                  "You are not enrolled in this course" ;;
  (* Delete enrollment *)
  Ok (fst (deleteEnrollment d userId course_id)).

(** The data of the response of [checkEnrollmentStatus]. *)
Record enrollment_status : Type := mkEnrollmentStatus {
  es_courseId : Z;
  es_userId : Z;
  es_isEnrolled : bool;
  es_enrollment : option enrollment
}.

(** [checkEnrollmentStatus] *)
Definition checkEnrollmentStatus (d : db) (u : user) (course_id : Z) : enrollment_status :=
  let userId := u_id u in
  let isEnrolled := isUserEnrolled d userId course_id in
  let enrollment :=
    if isEnrolled then getEnrollmentByUserAndCourse d userId course_id else None in
  mkEnrollmentStatus course_id userId isEnrolled enrollment.

(** Foreign key: every enrollment is for a course of the [courses] table. *)
Definition enrollments_have_courses (d : db) : Prop :=
  forall e, In e (enrollments d) -> exists c, In c (courses d) /\ c_id c = e_course_id e.

(** [completed] and [completed_at] go together. *)
Definition completion_is_stamped (d : db) : Prop :=
  forall e, In e (enrollments d) -> (e_completed e = true <-> e_completed_at e <> None).

(** What a progress write of [userId] in [courseId] may change of a row. *)
Definition progress_written (userId courseId : Z) (e e1 : enrollment) : Prop :=
  e_id e1 = e_id e /\ e_user_id e1 = e_user_id e /\ e_course_id e1 = e_course_id e
  /\ (same_enrollment userId courseId e = false -> e1 = e).

(* ------------------------------------------------------------------ *)
(** ** Categories: the bulk operations of controllers/categoryController.js *)

Definition set_courses (d : db) (cs : list course) : db :=
  mkDb cs (modules d) (lessons d) (quizzes d) (assignments d)
       (submissions d) (enrollments d) (categories d).

(** models/categoryModel.js, [getCategoryById]:
    [SELECT id, name, description, created_at FROM categories WHERE id = $1] *)
Definition getCategoryById (d : db) (id : Z) : option category :=
  first_row (filter (fun k => cat_id k =? id) (categories d)).

(** [category_id = $1 AND is_deleted = FALSE] on a course. *)
Definition active_in_category (id : Z) (c : course) : bool :=
  match c_category_id c with
  | Some k => k =? id
  | None => false
  end && negb (c_is_deleted c).

Record bulk_deleted : Type := mkBulkDeleted {
  bd_id : Z;
  bd_status : string
}.

Record bulk_delete_error : Type := mkBulkDeleteError {
  bde_id : Z;
  bde_error : string
}.

Record bulk_delete_response : Type := mkBulkDeleteResponse {
  bdr_deleted : list bulk_deleted;
  bdr_errors : list bulk_delete_error;
  bdr_deletedCount : Z;
  bdr_errorCount : Z
}.

(** One turn of the loop of [bulkDeleteCategories]: the result of
    [deleteCategory] is not looked at, an exception is caught. *)
Definition bulk_delete_step (acc : db * list bulk_deleted * list bulk_delete_error)
    (categoryId : Z) : db * list bulk_deleted * list bulk_delete_error :=
  match acc with
  | (d, results, errors) =>
      match deleteCategory d categoryId with
      | Ok r => (fst r, results ++ [mkBulkDeleted categoryId "deleted"], errors)
      | Throw error =>
          (d, results,
           errors ++ [mkBulkDeleteError categoryId
                        (if includes "associated courses" (exn_message error)
                         then "Category has associated courses"
                         else "Not found or error occurred")])
      end
  end.

(** [bulkDeleteCategories]; [categoryIds] is [None] when the body has no
    array under this name. *)
Definition bulkDeleteCategories (d : db) (categoryIds : option (list Z))
  : result (db * bulk_delete_response) :=
  match categoryIds with
  | None => Throw (AppError "Category IDs array is required" BAD_REQUEST)
  | Some categoryIds =>
      throw_if (Z.of_nat (List.length categoryIds) =? 0)
               (AppError "Category IDs array is required" BAD_REQUEST) ;;;
      match fold_left bulk_delete_step categoryIds (d, [], []) with
      | (d1, results, errors) =>
          Ok (d1, mkBulkDeleteResponse results errors
                    (Z.of_nat (List.length results)) (Z.of_nat (List.length errors)))
      end
  end.

Record merge_error : Type := mkMergeError {
  me_categoryId : Z;
  me_error : string
}.

Record merge_response : Type := mkMergeResponse {
  mr_targetCategory : category;
  mr_movedCourses : Z;
  mr_errors : list merge_error;
  mr_mergedCategories : Z
}.

(** [query] in controllers/categoryController.js.  The module imports the
    category model, the helpers, the error handler and the constants, and
    nothing from the database connection: [query] is an unbound name, and
    evaluating the call [query(...)] raises a [ReferenceError] before an
    argument is looked at or a statement is sent. *)
Definition unbound_query (d : db) : result (db * Z) :=
  Throw (ReferenceError "query is not defined").

(** One turn of the loop of [mergeCategories]: the [try] block (the
    [UPDATE] through [query], the count of the moved rows, then
    [deleteCategory]) and its [catch]. *)
Definition merge_step (target : Z) (acc : db * Z * list merge_error) (source : Z)
  : db * Z * list merge_error :=
  match acc with
  | (d, movedCourses, errors) =>
      if source =? target then acc
      else
        match (updateResult <- unbound_query d ;;
               deleted <- deleteCategory (fst updateResult) source ;;
               Ok (fst deleted, movedCourses + snd updateResult)) with
        | Ok (d', moved) => (d', moved, errors)
        | Throw error =>
            (d, movedCourses, errors ++ [mkMergeError source (exn_message error)])
        end
  end.

(** [mergeCategories]; an id that is missing from the body is [None], and
    [!targetCategoryId] also holds of 0. *)
Definition mergeCategories (d : db) (sourceCategoryIds : option (list Z))
    (targetCategoryId : option Z) : result (db * merge_response) :=
  match sourceCategoryIds with
  | None => Throw (AppError "Source category IDs array is required" BAD_REQUEST)
  | Some sources =>
      throw_if (Z.of_nat (List.length sources) =? 0)
               (AppError "Source category IDs array is required" BAD_REQUEST) ;;;
      match targetCategoryId with
      | None => Throw (AppError "Target category ID is required" BAD_REQUEST)
      | Some target =>
          throw_if (target =? 0)
                   (AppError "Target category ID is required" BAD_REQUEST) ;;;
          (* Verify target category exists *)
          targetCategory <- orNotFound (getCategoryById d target)
                                       "Target category not found" ;;
          match fold_left (merge_step target) sources (d, 0, []) with
          | (d1, movedCourses, errors) =>
              Ok (d1, mkMergeResponse targetCategory movedCourses errors
                        (Z.of_nat (List.length sources)
                         - Z.of_nat (List.length errors)))
          end
      end
  end.

(** A category that no non-deleted course of [d] uses can be deleted. *)
Definition blocked (d : db) (id : Z) : bool :=
  existsb (active_in_category id) (courses d).

(** The categories that are left when those of [ids] have been deleted. *)
Definition without_categories (ids : list Z) (ks : list category) : list category :=
  filter (fun k => negb (existsb (Z.eqb (cat_id k)) ids)) ks.

(** The entries of [sourceCategoryIds] that are not the target. *)
Definition merge_candidates (sources : list Z) (target : Z) : list Z :=
  filter (fun source => negb (source =? target)) sources.

(* ------------------------------------------------------------------ *)
(** ** Pagination: utils/helpers.js *)

(** [parseInt(x) || dflt], on the result of [parseInt]: [None] is [NaN];
    [NaN] and 0 give the default. *)
Definition parsed_or (parsed : option Z) (dflt : Z) : Z :=
  match parsed with
  | Some n => if n =? 0 then dflt else n
  | None => dflt
  end.

Record pagination_params : Type := mkPaginationParams {
  pp_page : Z;
  pp_limit : Z;
  pp_offset : Z
}.

(** [getPaginationParams], on [parseInt(req.query.page)] and
    [parseInt(req.query.limit)]. *)
Definition getPaginationParams (page limit : option Z) : pagination_params :=
  let page := Z.max 1 (parsed_or page 1) in
  let limit := Z.min 100 (Z.max 1 (parsed_or limit 10)) in
  let offset := (page - 1) * limit in
  mkPaginationParams page limit offset.

(** The value of [Math.ceil(totalCount / limit)] on integers: a division
    by zero gives an infinity or [NaN]. *)
Inductive page_count : Type :=
| Pages (n : Z)
| PlusInfinity
| MinusInfinity
| NoNumber.

Definition ceil_quotient (totalCount limit : Z) : page_count :=
  if limit =? 0 then
    if 0 <? totalCount then PlusInfinity
    else if totalCount <? 0 then MinusInfinity
    else NoNumber
  else Pages (Qceiling (inject_Z totalCount / inject_Z limit)).

(** [page < totalPages] *)
Definition below_pages (page : Z) (totalPages : page_count) : bool :=
  match totalPages with
  | Pages n => page <? n
  | PlusInfinity => true
  | MinusInfinity | NoNumber => false
  end.

Record pagination_meta : Type := mkPaginationMeta {
  pm_currentPage : Z;
  pm_totalPages : page_count;
  pm_totalCount : Z;
  pm_hasNextPage : bool;
  pm_hasPreviousPage : bool;
  pm_limit : Z
}.

(** [getPaginationMeta] *)
Definition getPaginationMeta (page limit totalCount : Z) : pagination_meta :=
  let totalPages := ceil_quotient totalCount limit in
  let hasNextPage := below_pages page totalPages in
  let hasPreviousPage := 1 <? page in
  mkPaginationMeta page totalPages totalCount hasNextPage hasPreviousPage limit.

(* ------------------------------------------------------------------ *)
(** ** The course gates of middleware/auth.js *)

(** [authorizeInstructor]; [user] is [req.user] and [courseId] the first
    truthy one of [req.params.courseId], [req.params.id] and
    [req.body.course_id]. *)
Definition authorizeInstructor (d : db) (user : option user) (courseId : option Z)
  : result unit :=
  match user with
  | None => Throw (AppError "Access denied. Authentication required." UNAUTHORIZED)
  | Some u =>
      (* Admin can access everything *)
      if role_eqb (u_role u) admin then Ok tt
      (* Must be instructor *)
      else if negb (role_eqb (u_role u) instructor) then
        Throw (AppError "Access denied. Instructor role required." FORBIDDEN)
      else
        (* Check if instructor owns the course *)
        match courseId with
        | Some courseId =>
            let rows :=
              map c_instructor_id
                  (filter (fun c => (c_id c =? courseId) && negb (c_is_deleted c))
                          (courses d)) in
            match rows with
            | [] => Throw (AppError "Course not found." NOT_FOUND)
            | instructor_id :: _ =>
                throw_if (negb (instructor_id =? u_id u))
                  (AppError "Access denied. You are not the instructor of this course."
                            FORBIDDEN)
            end
        | None => Ok tt
        end
  end.

(** [authorizeEnrolledStudent]; [courseId] is the first truthy one of
    [req.params.courseId] and [req.params.id]. *)
Definition authorizeEnrolledStudent (d : db) (user : option user) (courseId : option Z)
  : result unit :=
  match user with
  | None => Throw (AppError "Access denied. Authentication required." UNAUTHORIZED)
  | Some u =>
      (* Admin and instructors can access *)
      if role_eqb (u_role u) admin || role_eqb (u_role u) instructor then Ok tt
      else
        match courseId with
        | None => Throw (AppError "Course ID is required." BAD_REQUEST)
        | Some courseId =>
            (* Check enrollment *)
            let rows :=
              filter (fun e => (e_user_id e =? u_id u) && (e_course_id e =? courseId))
                     (enrollments d) in
            throw_if (Z.of_nat (List.length rows) =? 0)
              (AppError "Access denied. You are not enrolled in this course." FORBIDDEN)
        end
  end.

(* ------------------------------------------------------------------ *)
(** ** Strings, grades and arrays: utils/helpers.js *)

(** [s.replace(/[<>]/g, '')] *)
Fixpoint remove_angles (s : string) : string :=
  match s with
  | EmptyString => EmptyString
  | String c r =>
      if (Ascii.eqb c "<" || Ascii.eqb c ">")%bool then remove_angles r
      else String c (remove_angles r)
  end.

(** [sanitizeInput]: a value that is not a string is returned as it is. *)
Definition sanitizeInput (input : jsval) : jsval :=
  match input with
  | JStr s => JStr (trim (remove_angles s))
  | _ => input
  end.

(** No character of [s] is an angle bracket. *)
Fixpoint no_angles (s : string) : bool :=
  match s with
  | EmptyString => true
  | String c r => negb (Ascii.eqb c "<" || Ascii.eqb c ">") && no_angles r
  end.

(** [truncateText(text, maxLength = 100)]: [None] is the default;
    [substring(0, n)] takes a negative [n] for 0. *)
Definition truncateText (text : string) (maxLength : option Z) : string :=
  let maxLength := match maxLength with Some m => m | None => 100 end in
  if Z.of_nat (String.length text) <=? maxLength then text
  else (trim (substring 0 (Z.to_nat maxLength) text) ++ "...")%string.

(** [x === 0] on numbers. *)
Definition is_zero (x : jsnumber) : bool :=
  match x with
  | Num q => Qeq_bool q 0
  | _ => false
  end.

(** [calculateGradePercentage] *)
Definition calculateGradePercentage (score maxScore : jsnumber) : jsnumber :=
  if is_zero maxScore then Num 0
  else js_round (js_mul (js_div score maxScore) (Num 100)).

(** The letters ['A'], ['B'], ['C'], ['D'] and ['F']. *)
Inductive grade_letter : Set := Grade_A | Grade_B | Grade_C | Grade_D | Grade_F.

(** [percentage >= n] *)
Definition at_least (n : Q) (percentage : jsnumber) : bool :=
  js_ge (NNumber percentage) (NNumber (Num n)).

(** [getGradeLetter] *)
Definition getGradeLetter (percentage : jsnumber) : grade_letter :=
  if at_least 90 percentage then Grade_A
  else if at_least 80 percentage then Grade_B
  else if at_least 70 percentage then Grade_C
  else if at_least 60 percentage then Grade_D
  else Grade_F.

(** The place of a letter, from ['F'] upwards. *)
Definition letter_rank (g : grade_letter) : Z :=
  match g with
  | Grade_F => 0
  | Grade_D => 1
  | Grade_C => 2
  | Grade_B => 3
  | Grade_A => 4
  end.

(** [removeDuplicates(array, key)] with a key, on items whose [item[key]] is
    a number: the filter with the set [seen]. *)
Fixpoint filter_unseen {X : Type} (key : X -> Z) (seen : list Z) (array : list X) : list X :=
  match array with
  | [] => []
  | item :: rest =>
      let value := key item in
      if existsb (Z.eqb value) seen then filter_unseen key seen rest
      else item :: filter_unseen key (value :: seen) rest
  end.

Definition removeDuplicatesBy {X : Type} (key : X -> Z) (array : list X) : list X :=
  filter_unseen key [] array.

(** [removeDuplicates(array)] without a key, on an array of numbers:
    [[...new Set(array)]], the values in the order of their first
    occurrence. *)
Definition removeDuplicates (array : list Z) : list Z :=
  fold_left (fun set x => if existsb (Z.eqb x) set then set else set ++ [x]) array [].

(** A string without white space at its ends. *)
Definition trimmed (s : string) : Prop := trim s = s.

Definition trimmed_opt (s : option string) : Prop :=
  match s with
  | Some t => trimmed t
  | None => True
  end.

Definition quiz_trimmed (q : quiz) : Prop :=
  trimmed (q_question q) /\ trimmed (q_answer q).

Definition assignment_trimmed (a : assignment) : Prop :=
  trimmed (a_title a) /\ trimmed_opt (a_description a).

Definition submission_trimmed (s : submission) : Prop :=
  trimmed_opt (s_content s) /\ trimmed_opt (s_feedback s).

(** The texts of quizzes, assignments and submissions are stored
    trimmed. *)
Definition texts_are_trimmed (d : db) : Prop :=
  Forall quiz_trimmed (quizzes d)
  /\ Forall assignment_trimmed (assignments d)
  /\ Forall submission_trimmed (submissions d).

(** The ids of quizzes, assignments and submissions are primary keys. *)
Definition ids_are_keys (d : db) : Prop :=
  distinct (map q_id (quizzes d)) = true
  /\ distinct (map a_id (assignments d)) = true
  /\ distinct (map s_id (submissions d)) = true.

(** The order of [ORDER BY id]. *)
Definition id_le (a b : quiz) : Prop := q_id a <= q_id b.

Module MoreExamples.

(** alice grades three items for assignment 1 of [Examples.school]: the late
    submission 1, a grade out of range for submission 3, and submission 2,
    which answers another assignment. *)
Definition batch : list grade_item :=
  [mkGradeItem 1 (NNumber (Num 80)) (Some " good "); mkGradeItem 3 (NNumber (Num 120)) None;
   mkGradeItem 2 (NNumber (Num 50)) None].

End MoreExamples.

(* ------------------------------------------------------------------ *)
(** ** Results on the result monad and on rows *)

Lemma requireOwnerOrAdmin_admin (u : user) (i : Z) (msg : string) :
  u_role u = admin -> requireOwnerOrAdmin u i msg = Ok tt.
Proof. intros H. unfold requireOwnerOrAdmin. rewrite H. reflexivity. Qed.

Lemma requireOwnerOrAdmin_owner (u : user) (i : Z) (msg : string) :
  u_id u = i -> requireOwnerOrAdmin u i msg = Ok tt.
Proof.
  intros H. unfold requireOwnerOrAdmin. subst i.
  rewrite Z.eqb_refl, andb_false_r. reflexivity.
Qed.

Lemma requireOwnerOrAdmin_other (u : user) (i : Z) (msg : string) :
  u_role u <> admin -> u_id u <> i ->
  requireOwnerOrAdmin u i msg = Throw (AppError msg FORBIDDEN).
Proof.
  intros Hr Hi. unfold requireOwnerOrAdmin.
  assert (role_eqb (u_role u) admin = false) as ->
    by (destruct (u_role u); try reflexivity; congruence).
  assert ((i =? u_id u) = false) as -> by (apply Z.eqb_neq; congruence).
  reflexivity.
Qed.

(** The access part of a controller is decided by the instructor of the
    resolved course alone. *)
Lemma controller_access_resolved (a : action) (d : db) (u : user) (target : Z) (c : course) :
  target_course a d target = Some c ->
  exists msg,
    controller_access a d u target =
    (requireOwnerOrAdmin u (c_instructor_id c) msg ;;; Ok c).
Proof.
  intros H.
  destruct a as [[ | | ] [ | | | ] | ]; cbn in H |- *;
    unfold createModuleController_access, updateModuleController_access,
      deleteModuleController_access, createLessonController_access,
      updateLessonController_access, deleteLessonController_access,
      createQuizController_access, updateQuizController_access,
      deleteQuizController_access, createAssignmentController_access,
      updateAssignmentController_access, deleteAssignmentController_access,
      gradeSubmissionController_access;
    match type of H with
    | option_map snd ?X = Some _ =>
        destruct X as [[x c'] | ]; cbn in H; [ | discriminate ];
        injection H as ->; cbn; eexists;
        try reflexivity
    | ?X = Some _ => rewrite H; cbn; eexists; reflexivity
    end.
  instantiate (1 := "Access denied").
  destruct (requireOwnerOrAdmin u (c_instructor_id c) "Access denied"); reflexivity.
Qed.

Lemma authorize_member (roles : list role) (u : user) :
  existsb (role_eqb (u_role u)) roles = true -> authorize roles u = Ok tt.
Proof. intros H. unfold authorize. rewrite H. reflexivity. Qed.

Lemma route_passes_staff (a : action) (u : user) :
  u_role u = admin \/ u_role u = instructor ->
  match route_roles a with
  | Some roles => authorize roles u
  | None => Ok tt
  end = Ok tt.
Proof.
  intros H. destruct (route_roles a) as [roles | ] eqn:E; [ | reflexivity ].
  apply authorize_member.
  destruct a as [[ | | ] e | ]; cbn in E; try discriminate;
    injection E as <-; destruct H as [-> | ->]; reflexivity.
Qed.

(** C3. On every ownership-gated route (create, update, delete of a module,
    lesson, quiz or assignment; grading of a submission) whose target
    resolves to a course [c]: an admin passes whoever owns [c]; an
    instructor passes exactly when their id is the instructor id of [c], and
    is answered 403 otherwise, whatever other courses they own. *)
Theorem owner_or_admin_gate (a : action) (d : db) (u : user) (target : Z) (c : course) :
  target_course a d target = Some c ->
  (u_role u = admin -> route_access a d u target = Ok c) /\
  (u_role u = instructor ->
     (allowed (route_access a d u target) = true <-> u_id u = c_instructor_id c) /\
     (u_id u = c_instructor_id c -> route_access a d u target = Ok c) /\
     (u_id u <> c_instructor_id c -> denied_403 (route_access a d u target) = true)).
Proof.
  intros H.
  destruct (controller_access_resolved a d u target c H) as [msg Hc].
  unfold route_access.
  split.
  - intros Hr. rewrite route_passes_staff by auto. cbn. rewrite Hc.
    rewrite requireOwnerOrAdmin_admin by assumption. reflexivity.
  - intros Hr. rewrite route_passes_staff by auto. cbn. rewrite Hc.
    assert (Hown : u_id u = c_instructor_id c -> (requireOwnerOrAdmin u (c_instructor_id c) msg ;;; Ok c) = Ok c).
    { intros E. rewrite requireOwnerOrAdmin_owner by (symmetry; exact (eq_sym E)). reflexivity. }
    assert (Hoth : u_id u <> c_instructor_id c ->
                   (requireOwnerOrAdmin u (c_instructor_id c) msg ;;; Ok c)
                   = Throw (AppError msg FORBIDDEN)).
    { intros E. rewrite requireOwnerOrAdmin_other; [ reflexivity | congruence | assumption ]. }
    split; [ | split ].
    + split.
      * intros Hall. destruct (Z.eq_dec (u_id u) (c_instructor_id c)) as [E | E]; [ exact E | ].
        rewrite (Hoth E) in Hall. discriminate.
      * intros E. rewrite (Hown E). reflexivity.
    + exact Hown.
    + intros E. rewrite (Hoth E). reflexivity.
Qed.

(** bob owns course 2 and is refused on the module of course 1, which alice
    may update; the admin may as well. *)
Lemma owner_or_admin_gate_witness :
  route_access (Crud Update Module_) Examples.school Examples.root 1
    = Ok (mkCourse 1 "Geography" (Some 7) 10 false) /\
  (allowed (route_access (Crud Update Module_) Examples.school Examples.bob 1) = true
     <-> u_id Examples.bob = 10) /\
  denied_403 (route_access (Crud Update Module_) Examples.school Examples.bob 1) = true /\
  route_access (Crud Update Module_) Examples.school Examples.bob 2
    = Ok (mkCourse 2 "History" (Some 7) 11 false).
Proof.
  pose proof (owner_or_admin_gate (Crud Update Module_) Examples.school Examples.root 1
                (mkCourse 1 "Geography" (Some 7) 10 false) eq_refl) as [Hadmin _].
  pose proof (owner_or_admin_gate (Crud Update Module_) Examples.school Examples.bob 1
                (mkCourse 1 "Geography" (Some 7) 10 false) eq_refl) as [_ Hbob].
  pose proof (owner_or_admin_gate (Crud Update Module_) Examples.school Examples.bob 2
                (mkCourse 2 "History" (Some 7) 11 false) eq_refl) as [_ Hbob2].
  destruct (Hbob eq_refl) as [Hiff [_ Hden]].
  destruct (Hbob2 eq_refl) as [_ [Hown _]].
  split; [ exact (Hadmin eq_refl) | ].
  split; [ exact Hiff | ].
  split; [ apply Hden; cbn; lia | apply Hown; reflexivity ].
Defined.

(* ------------------------------------------------------------------ *)
(** ** Rows of a join under an update of [submissions] *)

Lemma filter_map_comm {A B} (p : B -> bool) (h : A -> B) (l : list A) :
  filter p (map h l) = map h (filter (fun x => p (h x)) l).
Proof.
  induction l as [ | x l IH]; cbn; [ reflexivity | ].
  destruct (p (h x)); cbn; rewrite IH; reflexivity.
Qed.

Lemma first_row_map {A B} (h : A -> B) (l : list A) :
  first_row (map h l) = option_map h (first_row l).
Proof. destruct l; reflexivity. Qed.

Lemma first_row_in {A} (l : list A) (x : A) : first_row l = Some x -> In x l.
Proof. destruct l; cbn; intros H; [ discriminate | injection H as -> ]; auto. Qed.

Lemma first_row_filter_in {A} (p : A -> bool) (l : list A) (x : A) :
  first_row (filter p l) = Some x -> In x l /\ p x = true.
Proof. intros H. apply first_row_in in H. apply filter_In in H. exact H. Qed.

Lemma bind_ok {A B} (r : result A) (k : A -> result B) (b : B) :
  bind r k = Ok b -> exists a, r = Ok a /\ k a = Ok b.
Proof. destruct r as [a | e]; cbn; intros H; [ eauto | discriminate ]. Qed.

(** [H : (x <- r ;; k) = Ok b]: name the value of [r], keep [k x = Ok b]. *)
Ltac ok_step H x :=
  let E := fresh "E" in
  apply bind_ok in H; destruct H as [x [E H]].

(** The same when the value of [r] is not needed. *)
Ltac ok_skip H :=
  let x := fresh "x" in
  let E := fresh "E" in
  apply bind_ok in H; destruct H as [x [E H]]; clear x E.

Section SubmissionUpdate.

Variable f : submission -> submission.
Hypothesis f_assignment : forall s, s_assignment_id (f s) = s_assignment_id s.
Hypothesis f_id : forall s, s_id (f s) = s_id s.

Lemma submissions_courses_map (d : db) :
  submissions_courses (set_submissions d (map f (submissions d)))
  = map (on_submission f) (submissions_courses d).
Proof.
  unfold submissions_courses.
  change (assignments_courses (set_submissions d (map f (submissions d))))
    with (assignments_courses d).
  change (submissions (set_submissions d (map f (submissions d))))
    with (map f (submissions d)).
  induction (submissions d) as [ | s ss IH]; cbn; [ reflexivity | ].
  rewrite map_app, IH. f_equal.
  rewrite f_assignment, map_map. reflexivity.
Qed.

Lemma submissionWithCourse_map (d : db) (id : Z) :
  submissionWithCourse (set_submissions d (map f (submissions d))) id
  = option_map (on_submission f) (submissionWithCourse d id).
Proof.
  unfold submissionWithCourse.
  rewrite submissions_courses_map, filter_map_comm, first_row_map.
  do 2 f_equal. apply filter_ext. intros [[s a] c]. cbn.
  rewrite f_id. reflexivity.
Qed.

End SubmissionUpdate.

Lemma stamp_grade_assignment id g fb now grader s :
  s_assignment_id (stamp_grade id g fb now grader s) = s_assignment_id s.
Proof. unfold stamp_grade. destruct (s_id s =? id); reflexivity. Qed.

Lemma stamp_grade_id id g fb now grader s :
  s_id (stamp_grade id g fb now grader s) = s_id s.
Proof. unfold stamp_grade. destruct (s_id s =? id); reflexivity. Qed.

Lemma stamp_grade_is_late id g fb now grader s :
  s_is_late (stamp_grade id g fb now grader s) = s_is_late s.
Proof. unfold stamp_grade. destruct (s_id s =? id); reflexivity. Qed.

(** Every row of the submission join is made of rows of the tables. *)
Lemma submissions_courses_in (d : db) s a c :
  In (s, a, c) (submissions_courses d) ->
  In s (submissions d) /\ In a (assignments d) /\ a_id a = s_assignment_id s.
Proof.
  unfold submissions_courses. intros H.
  apply in_flat_map in H. destruct H as [s' [Hs H]].
  apply in_map_iff in H. destruct H as [[a' c'] [E H]].
  cbn in E. injection E as -> -> ->.
  apply filter_In in H. destruct H as [H Hid]. cbn in Hid.
  split; [ exact Hs | ]. split; [ | apply Z.eqb_eq; exact Hid ].
  unfold assignments_courses in H.
  apply in_flat_map in H. destruct H as [a' [Ha H]].
  apply in_map_iff in H. destruct H as [lc [E _]].
  injection E as -> _. exact Ha.
Qed.

Lemma submissionWithCourse_in (d : db) id s a c :
  submissionWithCourse d id = Some (s, a, c) ->
  In s (submissions d) /\ In a (assignments d) /\ a_id a = s_assignment_id s
  /\ s_id s = id.
Proof.
  unfold submissionWithCourse. intros H. apply first_row_in in H.
  apply filter_In in H. destruct H as [H Hp].
  apply submissions_courses_in in H. destruct H as [Hs [Ha Hid]].
  apply andb_prop in Hp. destruct Hp as [Hp _].
  repeat split; try assumption. apply Z.eqb_eq. exact Hp.
Qed.

Lemma existsb_eqb_in (x : Z) (l : list Z) : existsb (Z.eqb x) l = false -> ~ In x l.
Proof.
  intros H Hin. assert (existsb (Z.eqb x) l = true); [ | congruence ].
  apply existsb_exists. exists x. split; [ exact Hin | apply Z.eqb_refl ].
Qed.

(** With a primary key, the first row with the id of [a] is [a]. *)
Lemma first_assignment_by_id (l : list assignment) (a : assignment) :
  distinct (map a_id l) = true -> In a l ->
  first_row (filter (fun x => a_id x =? a_id a) l) = Some a.
Proof.
  induction l as [ | x l IH]; cbn; intros Hd Hin; [ contradiction | ].
  apply andb_prop in Hd. destruct Hd as [Hx Hd].
  destruct Hin as [-> | Hin].
  - rewrite Z.eqb_refl. reflexivity.
  - destruct (a_id x =? a_id a) eqn:E.
    + exfalso. apply Z.eqb_eq in E. apply negb_true_iff in Hx.
      apply existsb_eqb_in in Hx. apply Hx. rewrite E. apply in_map. exact Hin.
    + apply IH; assumption.
Qed.

(** The row a grading returns is a stamped row. *)
Lemma first_stamped (ss : list submission) id g fb now grader s :
  In s ss -> s_id s = id ->
  exists row,
    first_row (filter (fun x => s_id x =? id) (map (stamp_grade id g fb now grader) ss))
      = Some row
    /\ s_grade row = g /\ s_graded_at row = Some now /\ s_graded_by row = Some grader.
Proof.
  induction ss as [ | x ss IH]; cbn; intros Hin Hid; [ contradiction | ].
  destruct (s_id x =? id) eqn:E.
  - rewrite stamp_grade_id, E. cbn.
    eexists. split; [ reflexivity | ].
    unfold stamp_grade. rewrite E. cbn. auto.
  - rewrite stamp_grade_id, E.
    destruct Hin as [-> | Hin]; [ | apply IH; assumption ].
    apply Z.eqb_neq in E. contradiction.
Qed.

(** Rounding depends on the value of a rational only. *)
Lemma fl_comp (q q' : Q) : (q == q')%Q -> fl q = fl q'.
Proof. intros H. unfold fl. rewrite (Qred_complete q q' H). reflexivity. Qed.

(** [fl] against the division of the hardware floats of the proof
    assistant, on quotients that are and that are not binary64 values,
    and beyond the range of the finite values. *)
Lemma fl_binary64_figures :
  fl (1 # 10) = number_of_float (1 / 10)%float
  /\ fl (1 # 3) = number_of_float (1 / 3)%float
  /\ fl (2 # 3) = number_of_float (2 / 3)%float
  /\ fl (- (7 # 3)) = number_of_float (- (7) / 3)%float
  /\ fl (23 # 40) = number_of_float (23 / 40)%float
  /\ fl (3 # 4) = Num (3 # 4)
  /\ fl (inject_Z (2 ^ 53 + 1)) = number_of_float (9007199254740992 + 1)%float
  /\ fl (inject_Z (2 ^ 53 + 3)) = number_of_float (9007199254740992 + 3)%float
  /\ fl (1 # (2 ^ 1074)) = number_of_float (FloatOps.Z.ldexp 1 (-1074)%Z)
  /\ fl (1 # (2 ^ 1075)) = Num 0
  /\ fl (inject_Z (2 ^ 1024)) = Infinity false
  /\ fl (- inject_Z (2 ^ 1024)) = number_of_float neg_infinity.
Proof. repeat split; vm_compute; reflexivity. Qed.

Lemma js_mul_one (q : Q) : binary64 q -> js_mul (Num q) (Num 1) = Num q.
Proof.
  intros H. cbn [js_mul]. rewrite (fl_comp (q * 1) q); [ exact H | ring ].
Qed.

(** Without a penalty the late grade is the raw grade. *)
Lemma penalized_zero (q : Q) : binary64 q -> penalized (NNumber (Num q)) 0 = Num q.
Proof.
  intros H. unfold penalized. cbn [ToNumber].
  replace (js_sub (Num 1) (js_div (fl 0) (Num 100))) with (Num 1)
    by (vm_compute; reflexivity).
  apply js_mul_one. exact H.
Qed.

(** The model of binary64 agrees with the hardware floats of the proof
    assistant on the penalty of the specification's figures and on
    [3 * (1 - 1 / 100)], which is 2.9699999999999998. *)
Lemma penalized_binary64_figures :
  penalized (NNumber (Num 80)) 10 = number_of_float (penalized_binary64 80 10)
  /\ penalized (NNumber (Num 50)) 20 = number_of_float (penalized_binary64 50 20)
  /\ penalized (NNumber (Num 13)) 10 = number_of_float (penalized_binary64 13 10)
  /\ penalized (NNumber (Num 3)) 1 = number_of_float (penalized_binary64 3 1)
  /\ penalized (NNumber (Num 80)) 10 = Num 72
  /\ penalized (NNumber (Num 50)) 20 = Num 40
  /\ penalized (NNumber (Num 3)) 1 = Num (3343922723322593 # 1125899906842624).
Proof. repeat split; vm_compute; reflexivity. Qed.

Lemma grade_in_range (raw : Q) (max_points : Z) :
  (0 <= raw)%Q -> (raw <= inject_Z max_points)%Q ->
  grade_out_of_range (NNumber (Num raw)) max_points = false.
Proof.
  intros H0 H1. unfold grade_out_of_range, js_gt, js_lt, number_lt, Qlt_bool. cbn.
  apply Qle_bool_iff in H0. apply Qle_bool_iff in H1.
  rewrite H0, H1. reflexivity.
Qed.

(** A grading overwrites the stamps of an earlier grading. *)
Lemma stamp_grade_twice id g1 f1 n1 u1 g2 f2 n2 u2 s :
  stamp_grade id g2 f2 n2 u2 (stamp_grade id g1 f1 n1 u1 s) = stamp_grade id g2 f2 n2 u2 s.
Proof.
  unfold stamp_grade. destruct (s_id s =? id) eqn:E; cbn; rewrite E; reflexivity.
Qed.

Lemma set_submissions_twice (d : db) (xs ys : list submission) :
  set_submissions (set_submissions d xs) ys = set_submissions d ys.
Proof. reflexivity. Qed.

(** One grading of an in-range raw grade by the owner or an admin: the
    store and the response. *)
Lemma grade_run (d : db) (now : Z) (u : user) (id : Z) (raw : Q)
    (feedback : option string) s a c :
  distinct (map a_id (assignments d)) = true ->
  submissionWithCourse d id = Some (s, a, c) ->
  u_role u = admin \/ u_id u = c_instructor_id c ->
  (0 <= raw)%Q -> (raw <= inject_Z (a_max_points a))%Q ->
  let final := graded (is_true (s_is_late s)) raw (latePenalty a) in
  let ss := map (stamp_grade id (Some final) (option_map trim feedback) now (u_id u))
                (submissions d) in
  gradeSubmissionController d now u id (NNumber (Num raw)) feedback
  = Ok (set_submissions d ss,
        mkGradeResponse (first_row (filter (fun x => s_id x =? id) ss))
                        (NNumber (Num raw)) (NNumber final) (s_is_late s) (u_name u)).
Proof.
  intros Hd Hs Hu H0 H1 final ss.
  destruct (submissionWithCourse_in d id s a c Hs) as [Hin [Ha [Hid Hsid]]].
  unfold gradeSubmissionController. rewrite Hs. cbn -[penalized].
  assert (requireOwnerOrAdmin u (c_instructor_id c) "Access denied" = Ok tt) as ->.
  { destruct Hu as [Hu | Hu];
      [ apply requireOwnerOrAdmin_admin | apply requireOwnerOrAdmin_owner ]; assumption. }
  cbn -[penalized]. rewrite grade_in_range by assumption. cbn -[penalized].
  subst ss final. unfold graded. destruct (is_true (s_is_late s)) eqn:El.
  - rewrite <- Hid, (first_assignment_by_id _ a Hd Ha). reflexivity.
  - reflexivity.
Qed.

Lemma grade_once (d : db) (now : Z) (u : user) (id : Z) (raw : Q)
    (feedback : option string) s a c :
  distinct (map a_id (assignments d)) = true ->
  submissionWithCourse d id = Some (s, a, c) ->
  u_role u = admin \/ u_id u = c_instructor_id c ->
  (0 <= raw)%Q -> (raw <= inject_Z (a_max_points a))%Q ->
  let final := graded (is_true (s_is_late s)) raw (latePenalty a) in
  exists resp row,
    gradeSubmissionController d now u id (NNumber (Num raw)) feedback
      = Ok (set_submissions d
              (map (stamp_grade id (Some final) (option_map trim feedback)
                                now (u_id u))
                   (submissions d)),
            resp)
    /\ gr_finalGrade resp = NNumber final
    /\ gr_originalGrade resp = NNumber (Num raw)
    /\ gr_row resp = Some row
    /\ s_grade row = Some final
    /\ s_graded_at row = Some now
    /\ s_graded_by row = Some (u_id u).
Proof.
  intros Hd Hs Hu H0 H1 final.
  destruct (submissionWithCourse_in d id s a c Hs) as [Hin [_ [_ Hsid]]].
  destruct (first_stamped (submissions d) id (Some final)
              (option_map trim feedback) now (u_id u) s Hin Hsid)
    as [row [Hrow [Hg [Hat Hby]]]].
  eexists. exists row.
  split; [ apply (grade_run d now u id raw feedback s a c Hd Hs Hu H0 H1) | ].
  cbn -[penalized]. auto 10.
Qed.

(** C1 (amended). Grading an in-range raw grade yields the raw grade for a
    submission that is not late and, for a late one, the value of
    [rawGrade * (1 - latePenaltyPercent / 100)] as binary64 arithmetic
    computes it: the quotient, the difference and the product are each
    rounded to the nearest binary64 value.  The value is returned and is
    what the store holds afterwards, with the grading stamps, in the rows
    of that id; the other rows are as before.  A later grading of the same
    submission computes the same formula on its own raw grade: the stored,
    already penalized value is not read, and the store is the one a single
    grading with the later raw grade would leave.  With a penalty of 10
    percent a raw grade of 80 gives 72 when late and 80 otherwise. *)
Theorem late_penalty_applied_once (d : db) (now : Z) (u : user) (id : Z) (raw : Q)
    (feedback : option string) s a c :
  distinct (map a_id (assignments d)) = true ->
  submissionWithCourse d id = Some (s, a, c) ->
  u_role u = admin \/ u_id u = c_instructor_id c ->
  (0 <= raw)%Q -> (raw <= inject_Z (a_max_points a))%Q ->
  let late := is_true (s_is_late s) in
  let p := latePenalty a in
  exists d1 resp row final,
    gradeSubmissionController d now u id (NNumber (Num raw)) feedback = Ok (d1, resp)
    /\ gr_finalGrade resp = NNumber final
    /\ (late = false -> final = Num raw)
    /\ (late = true ->
        final = js_mul (Num raw) (js_sub (Num 1) (js_div (fl p) (Num 100))))
    /\ submissions d1
       = map (stamp_grade id (Some final) (option_map trim feedback) now (u_id u))
             (submissions d)
    /\ (forall x, In x (submissions d1) -> s_id x = id ->
          s_grade x = Some final /\ s_graded_at x = Some now
          /\ s_graded_by x = Some (u_id u))
    /\ (forall x, In x (submissions d) -> s_id x <> id -> In x (submissions d1))
    /\ gr_row resp = Some row
    /\ In row (submissions d1)
    /\ s_id row = id
    /\ (forall now2 u2 raw2 feedback2,
          u_role u2 = admin \/ u_id u2 = c_instructor_id c ->
          (0 <= raw2)%Q -> (raw2 <= inject_Z (a_max_points a))%Q ->
          exists d2 resp2 final2,
            gradeSubmissionController d1 now2 u2 id (NNumber (Num raw2)) feedback2
              = Ok (d2, resp2)
            /\ gr_finalGrade resp2 = NNumber final2
            /\ (late = false -> final2 = Num raw2)
            /\ (late = true ->
                final2 = js_mul (Num raw2) (js_sub (Num 1) (js_div (fl p) (Num 100))))
            /\ submissions d2
               = map (stamp_grade id (Some final2) (option_map trim feedback2)
                                  now2 (u_id u2))
                     (submissions d))
    /\ js_mul (Num 80) (js_sub (Num 1) (js_div (fl 10) (Num 100))) = Num 72.
Proof.
  intros Hd Hs Hu H0 H1 late p.
  destruct (grade_once d now u id raw feedback s a c Hd Hs Hu H0 H1)
    as [resp [row [Hrun [Hfinal [_ [Hrow [Hg [Hat Hby]]]]]]]].
  fold late p in Hrun, Hfinal, Hg.
  set (final := graded late raw p) in *.
  set (f := stamp_grade id (Some final) (option_map trim feedback) now (u_id u)) in *.
  exists (set_submissions d (map f (submissions d))), resp, row, final.
  assert (Hin : In row (map f (submissions d)) /\ s_id row = id).
  { pose proof (grade_run d now u id raw feedback s a c Hd Hs Hu H0 H1) as Hrun'.
    cbv zeta in Hrun'. fold late p in Hrun'. fold final in Hrun'. fold f in Hrun'.
    rewrite Hrun in Hrun'. injection Hrun' as E. rewrite E in Hrow. cbn in Hrow.
    apply first_row_in in Hrow. apply filter_In in Hrow.
    destruct Hrow as [E1 E2]. apply Z.eqb_eq in E2. auto. }
  split; [ exact Hrun | ].
  split; [ exact Hfinal | ].
  split; [ intros E; unfold final, graded; rewrite E; reflexivity | ].
  split; [ intros E; unfold final, graded; rewrite E; reflexivity | ].
  split; [ reflexivity | ].
  split.
  { intros x Hx Hxid. cbn in Hx. apply in_map_iff in Hx.
    destruct Hx as [y [<- _]]. unfold f in *.
    rewrite stamp_grade_id in Hxid. apply Z.eqb_eq in Hxid.
    unfold stamp_grade. rewrite Hxid. cbn. auto. }
  split.
  { intros x Hx Hxid. cbn. apply in_map_iff. exists x. split; [ | exact Hx ].
    unfold f, stamp_grade. apply Z.eqb_neq in Hxid. rewrite Hxid. reflexivity. }
  split; [ exact Hrow | ].
  split; [ apply Hin | ].
  split; [ apply Hin | ].
  split; [ | vm_compute; reflexivity ].
  intros now2 u2 raw2 feedback2 Hu2 H02 H12.
  assert (Hs2 : submissionWithCourse (set_submissions d (map f (submissions d))) id
                = Some (f s, a, c)).
  { rewrite (submissionWithCourse_map f); [ rewrite Hs; reflexivity | | ];
      intros x; [ apply stamp_grade_assignment | apply stamp_grade_id ]. }
  destruct (grade_once (set_submissions d (map f (submissions d))) now2 u2 id raw2
              feedback2 (f s) a c Hd Hs2 Hu2 H02 H12)
    as [resp2 [row2 [Hrun2 [Hfinal2 _]]]].
  unfold f in Hrun2, Hfinal2. rewrite stamp_grade_is_late in Hrun2, Hfinal2.
  fold late p in Hrun2, Hfinal2.
  eexists. exists resp2, (graded late raw2 p).
  split; [ exact Hrun2 | ].
  split; [ exact Hfinal2 | ].
  split; [ intros E; unfold graded; rewrite E; reflexivity | ].
  split; [ intros E; unfold graded; rewrite E; reflexivity | ].
  cbn [submissions set_submissions]. rewrite map_map.
  apply map_ext. intros x. apply stamp_grade_twice.
Qed.

(** alice grades the late submission 1 (penalty 10 percent) with 80: 72 is
    returned and stored. *)
Lemma late_penalty_applied_once_witness :
  exists d1 resp,
    gradeSubmissionController Examples.school 2000 Examples.alice 1
                              (NNumber (Num 80)) None = Ok (d1, resp)
    /\ gr_finalGrade resp = NNumber (Num 72)
    /\ (forall x, In x (submissions d1) -> s_id x = 1 -> s_grade x = Some (Num 72)).
Proof.
  destruct (late_penalty_applied_once Examples.school 2000 Examples.alice 1 80 None
              Examples.late_submission Examples.essay
              (mkCourse 1 "Geography" (Some 7) 10 false)
              eq_refl eq_refl (or_intror eq_refl))
    as [d1 [resp [row [final [Hrun [Hfinal [_ [Hlate [_ [Hst _]]]]]]]]]].
  - unfold Qle; cbn; lia.
  - unfold Qle; cbn; lia.
  - exists d1, resp.
    assert (E : final = Num 72).
    { rewrite (Hlate eq_refl). vm_compute. reflexivity. }
    rewrite E in *.
    split; [ exact Hrun | ]. split; [ exact Hfinal | ].
    intros x Hx Hid. apply (Hst x Hx Hid).
Defined.

(** The late grade is not always the exact product of the specification:
    alice grades the late submission 1 (penalty 10 percent) with 13; the
    exact product is 11.7, the controller returns the binary64 value
    11.700000000000001, which is not the binary64 value nearest to 11.7
    either. *)
Lemma late_grade_is_rounded_three_times :
  (exists d1 resp q,
     gradeSubmissionController Examples.school 2000 Examples.alice 1
                               (NNumber (Num 13)) None = Ok (d1, resp)
     /\ gr_finalGrade resp = NNumber (Num q)
     /\ q = (6586514455029351 # 562949953421312)%Q
     /\ (spec_finalGrade true 13 10 == 117 # 10)%Q
     /\ ~ (q == spec_finalGrade true 13 10)%Q
     /\ fl (spec_finalGrade true 13 10) <> Num q)
  /\ ~ (forall d now u id raw feedback s a c d1 resp q,
          submissionWithCourse d id = Some (s, a, c) ->
          gradeSubmissionController d now u id (NNumber (Num raw)) feedback
            = Ok (d1, resp) ->
          gr_finalGrade resp = NNumber (Num q) ->
          (q == spec_finalGrade (is_true (s_is_late s)) raw (latePenalty a))%Q).
Proof.
  assert (Hrun : exists d1,
             gradeSubmissionController Examples.school 2000 Examples.alice 1
                                       (NNumber (Num 13)) None
             = Ok (d1, mkGradeResponse
                         (Some (stamp_grade 1
                                  (Some (Num (6586514455029351 # 562949953421312)))
                                  None 2000 10 Examples.late_submission))
                         (NNumber (Num 13))
                         (NNumber (Num (6586514455029351 # 562949953421312)))
                         (Some true) "alice")).
  { eexists. vm_compute. reflexivity. }
  destruct Hrun as [d1 Hrun].
  assert (Hne : ~ ((6586514455029351 # 562949953421312)
                   == spec_finalGrade true 13 10)%Q).
  { intros H. vm_compute in H. discriminate. }
  split.
  - exists d1. eexists. exists (6586514455029351 # 562949953421312)%Q.
    split; [ exact Hrun | ].
    split; [ reflexivity | ].
    split; [ reflexivity | ].
    split; [ vm_compute; reflexivity | ].
    split; [ exact Hne | ].
    vm_compute. intros H. discriminate.
  - intros H. apply Hne.
    apply (H Examples.school 2000 Examples.alice 1 13%Q None
             Examples.late_submission Examples.essay
             (mkCourse 1 "Geography" (Some 7) 10 false) d1 _ _ eq_refl Hrun eq_refl).
Qed.

(* ------------------------------------------------------------------ *)
(** ** Grading without a grade *)

Lemma first_assignment_exists (l : list assignment) (a : assignment) :
  In a l -> exists a', first_row (filter (fun x => a_id x =? a_id a) l) = Some a'.
Proof.
  induction l as [ | x l IH]; cbn; intros Hin; [ contradiction | ].
  destruct (a_id x =? a_id a) eqn:E; [ eexists; reflexivity | ].
  destruct Hin as [-> | Hin]; [ rewrite Z.eqb_refl in E; discriminate | auto ].
Qed.

(** A request without a grade does not pass [validateSubmissionGrading]. *)
Lemma omitted_grade_is_invalid (feedback : option string) (r : option string) :
  validateSubmissionGrading NUndefined feedback <> Ok r.
Proof.
  unfold validateSubmissionGrading, handleValidationErrors. cbn.
  destruct (option_map trim feedback) as [text | ]; [ | discriminate ].
  destruct (String.length text <=? 1000)%nat; discriminate.
Qed.

(** C10 (amended). The range guard of [gradeSubmissionController] compares
    the grade with [0] and with [max_points]; for an omitted grade both
    comparisons are false and the 400 branch is not taken: the controller,
    called with an undefined grade, stamps the rows of the submission with
    [graded_at] and [graded_by] and stores as grade NULL when the
    submission is not late and [NaN] when it is.  No request gets that
    far: the route of the grading runs [validateSubmissionGrading] before
    the controller, a request that omits the grade never succeeds, and the
    request of a member of staff with a valid id and feedback is answered
    with the 400 of the validation; nothing is stamped or stored.  A grade
    between 0 and 100 is handed on to the controller. *)
Theorem omitted_grade_passes_guard (d : db) (now : Z) (u : user) (id : Z)
    (feedback : option string) s a c :
  submissionWithCourse d id = Some (s, a, c) ->
  u_role u = admin \/ u_id u = c_instructor_id c ->
  (js_lt NUndefined (NNumber (Num 0)) = false
   /\ js_gt NUndefined (NNumber (Num (inject_Z (a_max_points a)))) = false
   /\ grade_out_of_range NUndefined (a_max_points a) = false)
  /\ (exists d1 resp row,
        gradeSubmissionController d now u id NUndefined feedback = Ok (d1, resp)
        /\ submissions d1
           = map (stamp_grade id (if is_true (s_is_late s) then Some NaN else None)
                              (option_map trim feedback) now (u_id u))
                 (submissions d)
        /\ gr_row resp = Some row
        /\ In row (submissions d1)
        /\ s_id row = id
        /\ s_graded_at row = Some now
        /\ s_graded_by row = Some (u_id u)
        /\ s_grade row = if is_true (s_is_late s) then Some NaN else None)
  /\ (forall d' now' u' id' feedback' r,
        gradeSubmissionRoute d' now' u' id' NUndefined feedback' <> Ok r)
  /\ (u_role u <> student -> 1 <= id ->
      (forall text, feedback = Some text -> (String.length (trim text) <= 1000)%nat) ->
      gradeSubmissionRoute d now u id NUndefined feedback
      = Throw (AppError "Validation failed: Grade must be between 0 and 100"
                        BAD_REQUEST))
  /\ (forall q,
        u_role u <> student -> 1 <= id ->
        (forall text, feedback = Some text -> (String.length (trim text) <= 1000)%nat) ->
        (0 <= q)%Q -> (q <= 100)%Q ->
        gradeSubmissionRoute d now u id (NNumber (Num q)) feedback
        = gradeSubmissionController d now u id (NNumber (Num q))
                                    (option_map trim feedback)).
Proof.
  intros Hs Hu.
  assert (Hstaff : u_role u <> student -> authorize [instructor; admin] u = Ok tt).
  { intros H. unfold authorize. destruct (u_role u); [ congruence | | ]; reflexivity. }
  assert (Hid : 1 <= id -> validateId id = Ok tt).
  { intros H. unfold validateId.
    assert ((1 <=? id) = true) as -> by (apply Z.leb_le; exact H). reflexivity. }
  assert (Hfb : (forall text, feedback = Some text ->
                              (String.length (trim text) <= 1000)%nat) ->
                match option_map trim feedback with
                | Some text =>
                    if (String.length text <=? 1000)%nat then []
                    else ["Feedback cannot exceed 1000 characters"]
                | None => []
                end = []).
  { intros H. destruct feedback as [text | ]; cbn; [ | reflexivity ].
    assert ((String.length (trim text) <=? 1000)%nat = true) as ->; [ | reflexivity ].
    apply Nat.leb_le. apply H. reflexivity. }
  split; [ repeat split; reflexivity | ].
  split; [ | split; [ | split ] ].
  - destruct (submissionWithCourse_in d id s a c Hs) as [Hin [Ha [Haid Hsid]]].
    unfold gradeSubmissionController. rewrite Hs. cbn.
    assert (requireOwnerOrAdmin u (c_instructor_id c) "Access denied" = Ok tt) as ->.
    { destruct Hu as [Hu | Hu];
        [ apply requireOwnerOrAdmin_admin | apply requireOwnerOrAdmin_owner ];
        assumption. }
    cbn.
    destruct (is_true (s_is_late s)) eqn:El.
    + destruct (first_assignment_exists _ a Ha) as [a' Ha'].
      rewrite <- Haid, Ha'. cbn.
      destruct (first_stamped (submissions d) id (Some NaN) (option_map trim feedback)
                  now (u_id u) s Hin Hsid) as [row [Hrow [Hg [Hat Hby]]]].
      destruct (first_row_filter_in _ _ _ Hrow) as [Hrin Hrid]. apply Z.eqb_eq in Hrid.
      eexists. eexists. exists row. split; [ reflexivity | ]. cbn. auto 10.
    + cbn.
      destruct (first_stamped (submissions d) id None (option_map trim feedback)
                  now (u_id u) s Hin Hsid) as [row [Hrow [Hg [Hat Hby]]]].
      destruct (first_row_filter_in _ _ _ Hrow) as [Hrin Hrid]. apply Z.eqb_eq in Hrid.
      eexists. eexists. exists row. split; [ reflexivity | ]. cbn. auto 10.
  - intros d' now' u' id' feedback' r H. unfold gradeSubmissionRoute in H.
    apply bind_ok in H. destruct H as [x [_ H]].
    apply bind_ok in H. destruct H as [y [_ H]].
    apply bind_ok in H. destruct H as [t [H _]].
    exact (omitted_grade_is_invalid feedback' t H).
  - intros Hrole H1 Hlen. unfold gradeSubmissionRoute.
    rewrite (Hstaff Hrole), (Hid H1). cbn [bind].
    unfold validateSubmissionGrading. cbn [grade_isFloat].
    rewrite (Hfb Hlen). reflexivity.
  - intros q Hrole H1 Hlen Hq0 Hq1. unfold gradeSubmissionRoute.
    rewrite (Hstaff Hrole), (Hid H1). cbn [bind].
    unfold validateSubmissionGrading. cbn [grade_isFloat].
    apply Qle_bool_iff in Hq0. apply Qle_bool_iff in Hq1. rewrite Hq0, Hq1.
    rewrite (Hfb Hlen). reflexivity.
Qed.

(** alice sends the grading of the on-time submission 3 without a grade:
    the route answers 400; the controller alone would store NULL. *)
Lemma omitted_grade_passes_guard_witness :
  gradeSubmissionRoute Examples.school 2000 Examples.alice 3 NUndefined None
  = Throw (AppError "Validation failed: Grade must be between 0 and 100" BAD_REQUEST)
  /\ exists d1 resp row,
       gradeSubmissionController Examples.school 2000 Examples.alice 3 NUndefined None
       = Ok (d1, resp)
       /\ gr_row resp = Some row
       /\ In row (submissions d1)
       /\ s_graded_at row = Some 2000
       /\ s_graded_by row = Some 10
       /\ s_grade row = None.
Proof.
  destruct (omitted_grade_passes_guard Examples.school 2000 Examples.alice 3 None
              Examples.on_time_submission Examples.essay
              (mkCourse 1 "Geography" (Some 7) 10 false)
              eq_refl (or_intror eq_refl))
    as [_ [[d1 [resp [row [Hrun [_ [Hrow [Hin [_ [Hat [Hby Hg]]]]]]]]]] [_ [Hroute _]]]].
  split.
  - apply Hroute; [ discriminate | lia | discriminate ].
  - exists d1, resp, row. auto 10.
Defined.

(** A request that omits the grade is not graded: alice's request for
    submission 3 is answered 400 by the route and no store is returned.
    And the controller alone does not always store an empty grade: on
    the late submission 1 an omitted grade is stored as [NaN]. *)
Lemma omitted_grade_not_always_empty :
  gradeSubmissionRoute Examples.school 2000 Examples.alice 3 NUndefined None
  = Throw (AppError "Validation failed: Grade must be between 0 and 100" BAD_REQUEST)
  /\ ~ (exists d1 resp,
          gradeSubmissionRoute Examples.school 2000 Examples.alice 3 NUndefined None
          = Ok (d1, resp))
  /\ ~ (forall d now u id feedback d1 resp row,
          gradeSubmissionController d now u id NUndefined feedback = Ok (d1, resp) ->
          gr_row resp = Some row ->
          s_grade row = None).
Proof.
  split; [ reflexivity | ]. split.
  - intros [d1 [resp H]]. discriminate H.
  - intros H.
    specialize (H Examples.school 2000 Examples.alice 1 None _ _ _ eq_refl eq_refl).
    discriminate H.
Qed.

(* ------------------------------------------------------------------ *)
(** ** Lateness of a submission *)

Lemma resubmit_assignment id c f l now s :
  s_assignment_id (resubmit id c f l now s) = s_assignment_id s.
Proof. unfold resubmit. destruct (s_id s =? id); reflexivity. Qed.

Lemma resubmit_id id c f l now s : s_id (resubmit id c f l now s) = s_id s.
Proof. unfold resubmit. destruct (s_id s =? id); reflexivity. Qed.

Lemma first_resubmitted (ss : list submission) id c f l now s :
  In s ss -> s_id s = id ->
  exists row,
    first_row (filter (fun x => s_id x =? id) (map (resubmit id c f l now) ss)) = Some row
    /\ s_is_late row = l /\ s_submitted_at row = now.
Proof.
  induction ss as [ | x ss IH]; cbn; intros Hin Hid; [ contradiction | ].
  destruct (s_id x =? id) eqn:E.
  - rewrite resubmit_id, E. cbn. eexists. split; [ reflexivity | ].
    unfold resubmit. rewrite E. cbn. auto.
  - rewrite resubmit_id, E.
    destruct Hin as [-> | Hin]; [ | apply IH; assumption ].
    apply Z.eqb_neq in E. contradiction.
Qed.

(** What an update of a submission leaves in the rows of its id, and in the
    others. *)
Lemma resubmitted_rows (id : Z) (c f : option string) (l : option bool) (now : Z)
    (ss : list submission) :
  (forall x, In x (map (resubmit id c f l now) ss) -> s_id x = id ->
             s_is_late x = l /\ s_submitted_at x = now
             /\ s_content x = c /\ s_file_path x = f)
  /\ (forall x, In x ss -> s_id x <> id -> In x (map (resubmit id c f l now) ss)).
Proof.
  split.
  - intros x Hx Hid. apply in_map_iff in Hx. destruct Hx as [y [<- _]].
    rewrite resubmit_id in Hid. apply Z.eqb_eq in Hid.
    unfold resubmit. rewrite Hid. cbn. auto.
  - intros x Hx Hid. apply in_map_iff. exists x. split; [ | exact Hx ].
    unfold resubmit. apply Z.eqb_neq in Hid. rewrite Hid. reflexivity.
Qed.

(** C6 (amended). [is_late] is computed when the submission is created, as
    [due_date && now > due_date]: it is true exactly when the assignment
    has a due date that has passed.  Grading leaves the [is_late] of every
    submission as it is, and so does an update of the assignment, its due
    date included.  A student's update of a submission (the controller, and
    the model function [updateSubmission] alike) computes [is_late] anew,
    from the due date and the clock at the time of the update, and stores
    it: after the update every row of that id holds the new [is_late] and
    the time of the update as [submitted_at], the other rows are as
    before, and the row returned is one of the rows stored. *)
Theorem is_late_set_at_creation_and_resubmission :
  (forall d now u assignment_id content file_path d1 row,
     submitAssignmentController d now u assignment_id content file_path = Ok (d1, row) ->
     exists a c,
       assignmentWithCourse d assignment_id = Some (a, c)
       /\ s_is_late row = late_flag (a_due_date a) now
       /\ (is_true (s_is_late row) = true
           <-> exists due, a_due_date a = Some due /\ due < now)
       /\ submissions d1 = submissions d ++ [row])
  /\ (forall d now u id grade feedback d1 resp,
        gradeSubmissionController d now u id grade feedback = Ok (d1, resp) ->
        map s_is_late (submissions d1) = map s_is_late (submissions d))
  /\ (forall d now u id b d1 row,
        updateAssignmentController d now u id b = Ok (d1, row) ->
        submissions d1 = submissions d)
  /\ (forall d now u id content file_path d1 row,
        updateSubmissionController d now u id content file_path = Ok (d1, row) ->
        exists s a c row1,
          In (s, a, c) (submissions_courses d) /\ s_id s = id
          /\ row = Some row1
          /\ s_is_late row1 = late_flag (a_due_date a) now
          /\ submissions d1
             = map (resubmit id (option_map trim content) file_path
                             (late_flag (a_due_date a) now) now)
                   (submissions d)
          /\ In row1 (submissions d1) /\ s_id row1 = id
          /\ (forall x, In x (submissions d1) -> s_id x = id ->
                s_is_late x = late_flag (a_due_date a) now /\ s_submitted_at x = now)
          /\ (forall x, In x (submissions d) -> s_id x <> id -> In x (submissions d1)))
  /\ (forall d now id content file_path d1 row,
        updateSubmission d now id content file_path = Ok (d1, row) ->
        exists s a row1,
          In s (submissions d) /\ s_id s = id
          /\ In a (assignments d) /\ a_id a = s_assignment_id s
          /\ row = Some row1
          /\ s_is_late row1 = late_flag (a_due_date a) now
          /\ submissions d1
             = map (resubmit id content file_path (late_flag (a_due_date a) now) now)
                   (submissions d)
          /\ In row1 (submissions d1) /\ s_id row1 = id
          /\ (forall x, In x (submissions d1) -> s_id x = id ->
                s_is_late x = late_flag (a_due_date a) now /\ s_submitted_at x = now)
          /\ (forall x, In x (submissions d) -> s_id x <> id -> In x (submissions d1))).
Proof.
  split; [ | split; [ | split; [ | split ] ] ].
  - intros d now u aid content file_path d1 row H.
    unfold submitAssignmentController in H.
    apply bind_ok in H. destruct H as [[a c] [Hac H]].
    do 3 ok_skip H.
    injection H as <- <-. cbn.
    exists a, c. split.
    + destruct (assignmentWithCourse d aid); cbn in Hac; congruence.
    + split; [ reflexivity | ]. split; [ | reflexivity ].
      unfold late_flag, isDatePast. destruct (a_due_date a) as [due | ]; cbn.
      * destruct (due <? now) eqn:E; split.
        -- intros _. exists due. split; [ reflexivity | apply Z.ltb_lt; exact E ].
        -- reflexivity.
        -- discriminate.
        -- intros [due' [Hd Hlt]]. injection Hd as <-.
           apply Z.ltb_lt in Hlt. congruence.
      * split; [ discriminate | intros [due [Hd _]]; discriminate ].
  - intros d now u id grade feedback d1 resp H.
    unfold gradeSubmissionController in H.
    ok_step H r. do 2 ok_skip H. ok_step H final.
    injection H as <- _. cbn. rewrite map_map.
    apply map_ext. intros x. apply stamp_grade_is_late.
  - intros d now u id b d1 row H.
    unfold updateAssignmentController in H.
    ok_step H ac. do 3 ok_skip H.
    injection H as <- _. reflexivity.
  - intros d now u id content file_path d1 row H.
    unfold updateSubmissionController in H.
    apply bind_ok in H. destruct H as [[[s a] c] [Hr H]].
    do 3 ok_skip H.
    injection H as <- <-. cbn [fst snd submissions set_submissions].
    match type of Hr with
    | orNotFound ?X _ = _ => destruct X as [r0 | ] eqn:E; cbn in Hr; [ | discriminate ]
    end.
    injection Hr as ->. apply first_row_in in E. apply filter_In in E.
    destruct E as [Hin Hp].
    apply andb_prop in Hp. destruct Hp as [Hp _].
    apply andb_prop in Hp. destruct Hp as [Hp _]. apply Z.eqb_eq in Hp.
    destruct (submissions_courses_in d s a c Hin) as [Hs _].
    destruct (first_resubmitted (submissions d) id (option_map trim content) file_path
                (late_flag (a_due_date a) now) now s Hs Hp) as [row1 [Hrow [Hl _]]].
    destruct (resubmitted_rows id (option_map trim content) file_path
                (late_flag (a_due_date a) now) now (submissions d)) as [Hrows Hothers].
    destruct (first_row_filter_in _ _ _ Hrow) as [Hrin Hrid]. apply Z.eqb_eq in Hrid.
    exists s, a, c, row1. rewrite Hrow.
    repeat apply conj; try assumption; try reflexivity.
    intros x Hx Hid. destruct (Hrows x Hx Hid) as [H1 [H2 _]]. auto.
  - intros d now id content file_path d1 row H.
    unfold updateSubmission in H.
    match type of H with
    | match first_row ?L with _ => _ end = _ =>
        destruct (first_row L) as [[s a] | ] eqn:E; [ | discriminate ]
    end.
    injection H as <- <-. cbn [fst snd submissions set_submissions].
    apply first_row_in in E. apply in_flat_map in E. destruct E as [s' [Hs E]].
    apply in_map_iff in E. destruct E as [a' [Epair Ha]].
    injection Epair as -> ->.
    apply filter_In in Hs. destruct Hs as [Hs Hid]. apply Z.eqb_eq in Hid.
    apply filter_In in Ha. destruct Ha as [Ha Haid]. apply Z.eqb_eq in Haid.
    destruct (first_resubmitted (submissions d) id content file_path
                (late_flag (a_due_date a) now) now s Hs Hid) as [row1 [Hrow [Hl _]]].
    destruct (resubmitted_rows id content file_path
                (late_flag (a_due_date a) now) now (submissions d)) as [Hrows Hothers].
    destruct (first_row_filter_in _ _ _ Hrow) as [Hrin Hrid]. apply Z.eqb_eq in Hrid.
    exists s, a, row1. rewrite Hrow.
    repeat apply conj; try assumption; try reflexivity.
    intros x Hx Hxid. destruct (Hrows x Hx Hxid) as [H1 [H2 _]]. auto.
Qed.

(** A new student hands in assignment 1 (due at 1000) at time 2000: the
    submission is created late. *)
Lemma is_late_set_at_creation_and_resubmission_witness :
  exists d1 row,
    submitAssignmentController Examples.school 2000 (mkUser 22 "uma" student) 1
                               (Some "essay") None = Ok (d1, row)
    /\ s_is_late row = late_flag (Some 1000) 2000
    /\ is_true (s_is_late row) = true.
Proof.
  destruct is_late_set_at_creation_and_resubmission as [Hcreate _].
  destruct (Hcreate Examples.school 2000 (mkUser 22 "uma" student) 1
                    (Some "essay") None _ _ eq_refl) as [a [c [Hac [Hl _]]]].
  cbn in Hac. injection Hac as <- _.
  eexists. eexists. split; [ reflexivity | ].
  split; [ exact Hl | reflexivity ].
Defined.

(** Submission 3 was handed in on time ([is_late] false, at time 500); its
    author updates it after the due date: the store then holds it with
    [is_late] true and the time of the update. *)
Lemma is_late_changes_on_update :
  exists d1 row,
    updateSubmissionController Examples.school 2000 (mkUser 21 "tom" student) 3
                               (Some "second draft") None = Ok (d1, Some row)
    /\ s_is_late Examples.on_time_submission = Some false
    /\ s_is_late row = Some true
    /\ In row (submissions d1)
    /\ s_submitted_at row = 2000
    /\ map s_is_late (submissions d1) <> map s_is_late (submissions Examples.school).
Proof.
  eexists. eexists. split; [ reflexivity | ]. cbn.
  split; [ reflexivity | ]. split; [ reflexivity | ].
  split; [ auto | ]. split; [ reflexivity | discriminate ].
Qed.

(* ------------------------------------------------------------------ *)
(** ** A second submission *)

(** C8 (amended). When the (assignment, student) pair already has a
    submission, graded or not, [submitAssignmentController] never creates a
    second one.  The refusal is the 409 of the duplicate check whenever that
    check is reached; the two checks that run before it answer first: 404
    when the assignment does not resolve, 400 when the deadline has passed
    and late submission is not allowed. *)
Theorem second_submission_refused (d : db) (now : Z) (u : user) (assignment_id : Z)
    (content file_path : option string) (s0 : submission) :
  In s0 (submissions d) ->
  s_assignment_id s0 = assignment_id ->
  s_student_id s0 = u_id u ->
  (forall r, submitAssignmentController d now u assignment_id content file_path <> Ok r)
  /\ (forall a c,
        assignmentWithCourse d assignment_id = Some (a, c) ->
        is_true (late_flag (a_due_date a) now) && negb (a_allow_late_submission a) = false ->
        submitAssignmentController d now u assignment_id content file_path
        = Throw (AppError "You have already submitted this assignment" CONFLICT))
  /\ (forall a c,
        assignmentWithCourse d assignment_id = Some (a, c) ->
        is_true (late_flag (a_due_date a) now) && negb (a_allow_late_submission a) = true ->
        submitAssignmentController d now u assignment_id content file_path
        = Throw (AppError "Assignment submission deadline has passed" BAD_REQUEST))
  /\ (assignmentWithCourse d assignment_id = None ->
      submitAssignmentController d now u assignment_id content file_path
      = Throw (AppError "Assignment not found" NOT_FOUND)).
Proof.
  intros Hin Ha Hu.
  assert (Hex : (0 <? Z.of_nat (List.length
                   (filter (fun s => (s_assignment_id s =? assignment_id)
                                     && (s_student_id s =? u_id u))
                           (submissions d)))) = true).
  { apply Z.ltb_lt.
    assert (In s0 (filter (fun s => (s_assignment_id s =? assignment_id)
                                    && (s_student_id s =? u_id u))
                          (submissions d))) as Hf.
    { apply filter_In. split; [ exact Hin | ].
      rewrite Ha, Hu, !Z.eqb_refl. reflexivity. }
    destruct (filter _ (submissions d)); [ contradiction | cbn; lia ]. }
  assert (Hconf : forall a c,
             assignmentWithCourse d assignment_id = Some (a, c) ->
             is_true (late_flag (a_due_date a) now) && negb (a_allow_late_submission a) = false ->
             submitAssignmentController d now u assignment_id content file_path
             = Throw (AppError "You have already submitted this assignment" CONFLICT)).
  { intros a c Hac Hl. unfold submitAssignmentController.
    rewrite Hac. cbn. rewrite Hl. cbn. rewrite Hex. reflexivity. }
  assert (Hlate : forall a c,
             assignmentWithCourse d assignment_id = Some (a, c) ->
             is_true (late_flag (a_due_date a) now) && negb (a_allow_late_submission a) = true ->
             submitAssignmentController d now u assignment_id content file_path
             = Throw (AppError "Assignment submission deadline has passed" BAD_REQUEST)).
  { intros a c Hac Hl. unfold submitAssignmentController.
    rewrite Hac. cbn. rewrite Hl. reflexivity. }
  assert (Hnone : assignmentWithCourse d assignment_id = None ->
             submitAssignmentController d now u assignment_id content file_path
             = Throw (AppError "Assignment not found" NOT_FOUND)).
  { intros Hac. unfold submitAssignmentController. rewrite Hac. reflexivity. }
  split; [ | auto ].
  intros r Hr.
  destruct (assignmentWithCourse d assignment_id) as [[a c] | ] eqn:Hac.
  - destruct (is_true (late_flag (a_due_date a) now)
              && negb (a_allow_late_submission a)) eqn:Hl.
    + rewrite (Hlate a c eq_refl Hl) in Hr. discriminate.
    + rewrite (Hconf a c eq_refl Hl) in Hr. discriminate.
  - rewrite (Hnone eq_refl) in Hr. discriminate.
Qed.

(** sam has submission 1 for assignment 1 (late work allowed): a second
    submission is answered 409. *)
Lemma second_submission_refused_witness :
  submitAssignmentController Examples.school 2000 Examples.sam 1 (Some "again") None
  = Throw (AppError "You have already submitted this assignment" CONFLICT).
Proof.
  destruct (second_submission_refused Examples.school 2000 Examples.sam 1
              (Some "again") None Examples.late_submission
              (or_introl eq_refl) eq_refl eq_refl) as [_ [Hconf _]].
  exact (Hconf Examples.essay (mkCourse 1 "Geography" (Some 7) 10 false)
               eq_refl eq_refl).
Defined.

(** sam has submission 2 for assignment 2, which refuses late work and whose
    deadline has passed: a second submission is answered 400, not 409. *)
Lemma second_submission_after_deadline_is_400 :
  In Examples.early_submission (submissions Examples.school)
  /\ s_assignment_id Examples.early_submission = 2
  /\ s_student_id Examples.early_submission = u_id Examples.sam
  /\ submitAssignmentController Examples.school 2000 Examples.sam 2 (Some "again") None
     = Throw (AppError "Assignment submission deadline has passed" BAD_REQUEST)
  /\ submitAssignmentController Examples.school 2000 Examples.sam 2 (Some "again") None
     <> Throw (AppError "You have already submitted this assignment" CONFLICT).
Proof.
  split; [ cbn; auto | ].
  split; [ reflexivity | ]. split; [ reflexivity | ].
  split; [ reflexivity | ]. cbn. discriminate.
Qed.

(* ------------------------------------------------------------------ *)
(** ** Deleting a category *)

Lemma substring_infix (a n b : string) :
  substring (String.length a) (String.length n) (a ++ n ++ b) = n.
Proof.
  induction a as [ | ch a IH]; cbn; [ | exact IH ].
  induction n as [ | ch n IHn]; cbn.
  - destruct b; reflexivity.
  - rewrite IHn. reflexivity.
Qed.

(** A string contains each of its non-empty infixes. *)
Lemma includes_infix (a n b : string) :
  n <> EmptyString -> includes n (a ++ n ++ b) = true.
Proof.
  intros Hn. unfold includes.
  destruct (index 0 n (a ++ n ++ b)) eqn:E; [ reflexivity | ].
  exfalso.
  apply (index_correct3 0 (String.length a) n (a ++ n ++ b) E Hn (Nat.le_0_l _)).
  apply substring_infix.
Qed.

Lemma string_app_assoc (a b c : string) : ((a ++ b) ++ c = a ++ b ++ c)%string.
Proof. induction a as [ | ch a IH]; cbn; [ reflexivity | rewrite IH; reflexivity ]. Qed.

(** The message of [deleteCategory] is recognised by the controller,
    whatever the count. *)
Lemma associated_courses_message (n : Z) :
  includes "associated courses"
    ("Cannot delete category. It has " ++ string_of_Z n ++ " associated courses.")
  = true.
Proof.
  replace ("Cannot delete category. It has " ++ string_of_Z n ++ " associated courses.")%string
    with (("Cannot delete category. It has " ++ string_of_Z n ++ " ")
          ++ "associated courses" ++ ".")%string.
  - apply includes_infix. discriminate.
  - rewrite !string_app_assoc. reflexivity.
Qed.

(** C9. Deleting a category that at least one non-deleted course references
    is answered 409 and leaves the store as it is; deleting an existing
    category that no non-deleted course references succeeds and removes
    exactly the rows of that category. *)
Theorem delete_category_blocked_by_courses (d : db) (id : Z) :
  ((exists c, In c (courses d) /\ c_category_id c = Some id /\ c_is_deleted c = false) ->
   exists msg, deleteCategoryController d id = Throw (AppError msg CONFLICT))
  /\ ((forall c, In c (courses d) -> c_category_id c = Some id -> c_is_deleted c = true) ->
      (exists k, In k (categories d) /\ cat_id k = id) ->
      exists d1,
        deleteCategoryController d id = Ok d1
        /\ categories d1 = filter (fun k => negb (cat_id k =? id)) (categories d)
        /\ (forall k, In k (categories d1) <-> In k (categories d) /\ cat_id k <> id)
        /\ courses d1 = courses d).
Proof.
  split.
  - intros [c [Hin [Hc Hdel]]].
    unfold deleteCategoryController, deleteCategory.
    assert ((0 <? Z.of_nat (List.length
               (filter (fun c => match c_category_id c with
                                 | Some k => k =? id
                                 | None => false
                                 end && negb (c_is_deleted c)) (courses d)))) = true) as ->.
    { apply Z.ltb_lt.
      assert (In c (filter (fun c => match c_category_id c with
                                     | Some k => k =? id
                                     | None => false
                                     end && negb (c_is_deleted c)) (courses d))) as Hf.
      { apply filter_In. split; [ exact Hin | ].
        rewrite Hc, Hdel, Z.eqb_refl. reflexivity. }
      destruct (filter _ (courses d)); [ contradiction | cbn; lia ]. }
    cbn [throw_if bind try_catch exn_message].
    rewrite associated_courses_message. eexists. reflexivity.
  - intros Hnone [k [Hk Hid]].
    unfold deleteCategoryController, deleteCategory.
    assert (filter (fun c => match c_category_id c with
                             | Some k => k =? id
                             | None => false
                             end && negb (c_is_deleted c)) (courses d) = []) as ->.
    { destruct (filter _ (courses d)) as [ | c l] eqn:E; [ reflexivity | exfalso ].
      assert (In c (c :: l)) as Hc by (left; reflexivity).
      rewrite <- E in Hc. apply filter_In in Hc. destruct Hc as [Hin Hp].
      apply andb_prop in Hp. destruct Hp as [Hp Hdel].
      destruct (c_category_id c) as [k' | ] eqn:Ek; [ | discriminate ].
      apply Z.eqb_eq in Hp. subst k'.
      rewrite (Hnone c Hin Ek) in Hdel. discriminate. }
    cbn.
    assert (exists k0, first_row (filter (fun c => cat_id c =? id) (categories d)) = Some k0)
      as [k0 ->].
    { assert (In k (filter (fun c => cat_id c =? id) (categories d))) as Hf
        by (apply filter_In; split; [ exact Hk | apply Z.eqb_eq; exact Hid ]).
      destruct (filter _ (categories d)); [ contradiction | eexists; reflexivity ]. }
    cbn. eexists. split; [ reflexivity | ]. cbn.
    split; [ reflexivity | ]. split; [ | reflexivity ].
    intros k1. rewrite filter_In, negb_true_iff, Z.eqb_neq. reflexivity.
Qed.

(** Category 7 is referenced by both courses and cannot be deleted;
    category 8 is referenced by none and is removed. *)
Lemma delete_category_blocked_by_courses_witness :
  (exists msg, deleteCategoryController Examples.school 7 = Throw (AppError msg CONFLICT))
  /\ (exists d1,
        deleteCategoryController Examples.school 8 = Ok d1
        /\ categories d1 = [mkCategory 7 "Humanities"]).
Proof.
  split.
  - apply (proj1 (delete_category_blocked_by_courses Examples.school 7)).
    exists (mkCourse 1 "Geography" (Some 7) 10 false).
    split; [ left; reflexivity | split; reflexivity ].
  - destruct (proj2 (delete_category_blocked_by_courses Examples.school 8))
      as [d1 [Hrun [Hcat _]]].
    + intros c [<- | [<- | []]]; cbn; discriminate.
    + exists (mkCategory 8 "Science"). split; [ right; left; reflexivity | reflexivity ].
    + exists d1. split; [ exact Hrun | exact Hcat ].
Defined.

(* ------------------------------------------------------------------ *)
(** ** Progress and completion *)

Lemma write_progress_user u c p b t e :
  e_user_id (write_progress u c p b t e) = e_user_id e.
Proof.
  unfold write_progress. destruct ((e_user_id e =? u) && (e_course_id e =? c)); reflexivity.
Qed.

Lemma write_progress_course u c p b t e :
  e_course_id (write_progress u c p b t e) = e_course_id e.
Proof.
  unfold write_progress. destruct ((e_user_id e =? u) && (e_course_id e =? c)); reflexivity.
Qed.

Lemma enrollment_found (d : db) (userId courseId : Z) (e : enrollment) :
  getEnrollmentByUserAndCourse d userId courseId = Some e ->
  In e (enrollments d) /\ same_enrollment userId courseId e = true
  /\ exists c, In c (courses d) /\ c_id c = e_course_id e.
Proof.
  unfold getEnrollmentByUserAndCourse. intros H. apply first_row_in in H.
  apply in_flat_map in H. destruct H as [e' [He H]].
  apply in_map_iff in H. destruct H as [c [<- Hc]].
  apply filter_In in He. destruct He as [He Hp].
  apply filter_In in Hc. destruct Hc as [Hc Hid].
  split; [ exact He | ]. split; [ exact Hp | ].
  exists c. split; [ exact Hc | apply Z.eqb_eq; exact Hid ].
Qed.

Lemma enrollment_lookup (d : db) (userId courseId : Z) (e : enrollment) (c : course) :
  In e (enrollments d) -> same_enrollment userId courseId e = true ->
  In c (courses d) -> c_id c = e_course_id e ->
  exists e', getEnrollmentByUserAndCourse d userId courseId = Some e'.
Proof.
  intros He Hp Hc Hid. unfold getEnrollmentByUserAndCourse.
  match goal with
  | |- exists e', first_row ?L = Some e' =>
      assert (In e L) as Hin; [ | destruct L; [ contradiction | eexists; reflexivity ] ]
  end.
  apply in_flat_map. exists e. split.
  - apply filter_In. split; [ exact He | exact Hp ].
  - apply in_map_iff. exists c. split; [ reflexivity | ].
    apply filter_In. split; [ exact Hc | apply Z.eqb_eq; exact Hid ].
Qed.

Lemma first_written (es : list enrollment) userId courseId p b t e :
  In e es -> same_enrollment userId courseId e = true ->
  exists row,
    first_row (filter (fun x => (e_user_id x =? userId) && (e_course_id x =? courseId))
                      (map (write_progress userId courseId p b t) es)) = Some row
    /\ In row (map (write_progress userId courseId p b t) es)
    /\ same_enrollment userId courseId row = true
    /\ e_progress row = p /\ e_completed row = b /\ e_completed_at row = t.
Proof.
  unfold same_enrollment.
  induction es as [ | x es IH]; cbn; intros Hin Hp; [ contradiction | ].
  rewrite write_progress_user, write_progress_course.
  destruct ((e_user_id x =? userId) && (e_course_id x =? courseId)) eqn:E.
  - cbn. eexists. split; [ reflexivity | ]. split; [ left; reflexivity | ].
    rewrite write_progress_user, write_progress_course.
    split; [ exact E | ].
    unfold write_progress. rewrite E. cbn. auto.
  - destruct Hin as [-> | Hin]; [ congruence | ].
    destruct (IH Hin Hp) as [row [H1 [H2 H3]]].
    exists row. split; [ exact H1 | ]. split; [ right; exact H2 | exact H3 ].
Qed.

(** One progress write on an existing enrollment: the store it leaves and
    the row it returns. *)
Lemma progress_once (d : db) (now : Z) (u : user) (course_id : Z) (p : Q) (e : enrollment) :
  getEnrollmentByUserAndCourse d (u_id u) course_id = Some e ->
  (0 <= p)%Q -> (p <= 100)%Q ->
  let es := map (write_progress (u_id u) course_id (Some (Num p)) (Qle_bool 100 p)
                                (if Qle_bool 100 p then Some now else None))
                (enrollments d) in
  exists row e1,
    updateProgress d now u course_id (NNumber (Num p))
      = Ok (set_enrollments d es, Some row)
    /\ getEnrollmentByUserAndCourse (set_enrollments d es) (u_id u) course_id = Some e1
    /\ In row es
    /\ same_enrollment (u_id u) course_id row = true.
Proof.
  intros He H0 H1 es.
  destruct (enrollment_found d (u_id u) course_id e He) as [Hin [Hp [c [Hc Hid]]]].
  unfold updateProgress. rewrite He.
  assert (js_lt (NNumber (Num p)) (NNumber (Num 0))
          || js_gt (NNumber (Num p)) (NNumber (Num 100)) = false) as ->.
  { unfold js_gt, js_lt, number_lt, Qlt_bool. cbn.
    apply Qle_bool_iff in H0. apply Qle_bool_iff in H1. rewrite H0, H1. reflexivity. }
  cbn. unfold updateEnrollmentProgress.
  change (js_ge (NNumber (Num p)) (NNumber (Num 100))) with (Qle_bool 100 p).
  change (sql_param (NNumber (Num p))) with (Some (Num p)).
  destruct (first_written (enrollments d) (u_id u) course_id (Some (Num p))
              (Qle_bool 100 p) (if Qle_bool 100 p then Some now else None) e Hin Hp)
    as [row [Hrow [Hrin [Hrp _]]]].
  fold es in Hrow, Hrin |- *. rewrite Hrow.
  destruct (enrollment_lookup (set_enrollments d es) (u_id u) course_id row c
              Hrin Hrp Hc) as [e1 He1].
  { unfold same_enrollment in Hrp, Hp.
    apply andb_prop in Hrp. destruct Hrp as [_ Hrc]. apply Z.eqb_eq in Hrc.
    apply andb_prop in Hp. destruct Hp as [_ Hec]. apply Z.eqb_eq in Hec.
    congruence. }
  exists row, e1. auto.
Qed.

(** What a progress write leaves in the rows of the enrollment, and in the
    others. *)
Lemma written_rows (userId courseId : Z) (p : option jsnumber) (b : bool)
    (t : option Z) (es : list enrollment) :
  (forall x, In x (map (write_progress userId courseId p b t) es) ->
             same_enrollment userId courseId x = true ->
             e_progress x = p /\ e_completed x = b /\ e_completed_at x = t)
  /\ (forall x, In x es -> same_enrollment userId courseId x = false ->
                In x (map (write_progress userId courseId p b t) es)).
Proof.
  split.
  - intros x Hx Hk. apply in_map_iff in Hx. destruct Hx as [y [<- _]].
    unfold same_enrollment in Hk. rewrite write_progress_user, write_progress_course in Hk.
    unfold write_progress. rewrite Hk. cbn. auto.
  - intros x Hx Hk. apply in_map_iff. exists x. split; [ | exact Hx ].
    unfold write_progress. unfold same_enrollment in Hk. rewrite Hk. reflexivity.
Qed.

(** C5. For an existing enrollment and a progress in [0, 100] the write
    stores, in every row of the enrollment, the progress,
    [completed = (progress >= 100)] and [completed_at], the time of the
    write when completed and NULL otherwise; the rows of other enrollments
    stay as they are, and the row returned is one of the rows stored.
    Writing 100 completes the enrollment and stamps it; a later write
    below 100 stores [completed = false] and a NULL [completed_at]. *)
Theorem progress_write_sets_completion (d : db) (now : Z) (u : user) (course_id : Z)
    (p : Q) (e : enrollment) :
  getEnrollmentByUserAndCourse d (u_id u) course_id = Some e ->
  (0 <= p)%Q -> (p <= 100)%Q ->
  exists d1 row,
    updateProgress d now u course_id (NNumber (Num p)) = Ok (d1, Some row)
    /\ enrollments d1
       = map (write_progress (u_id u) course_id (Some (Num p)) (Qle_bool 100 p)
                             (if Qle_bool 100 p then Some now else None))
             (enrollments d)
    /\ In row (enrollments d1)
    /\ same_enrollment (u_id u) course_id row = true
    /\ (forall x, In x (enrollments d1) -> same_enrollment (u_id u) course_id x = true ->
          e_progress x = Some (Num p)
          /\ (e_completed x = true <-> (100 <= p)%Q)
          /\ e_completed_at x = (if e_completed x then Some now else None))
    /\ (forall x, In x (enrollments d) -> same_enrollment (u_id u) course_id x = false ->
          In x (enrollments d1))
    /\ ((p == 100)%Q ->
        forall x, In x (enrollments d1) -> same_enrollment (u_id u) course_id x = true ->
          e_completed x = true /\ e_completed_at x = Some now)
    /\ (forall now2 p2,
          (0 <= p2)%Q -> (p2 < 100)%Q ->
          exists d2 row2,
            updateProgress d1 now2 u course_id (NNumber (Num p2)) = Ok (d2, Some row2)
            /\ In row2 (enrollments d2)
            /\ same_enrollment (u_id u) course_id row2 = true
            /\ (forall x, In x (enrollments d2) ->
                  same_enrollment (u_id u) course_id x = true ->
                  e_progress x = Some (Num p2)
                  /\ e_completed x = false
                  /\ e_completed_at x = None)).
Proof.
  intros He H0 H1.
  destruct (progress_once d now u course_id p e He H0 H1)
    as [row [e1 [Hrun [He1 [Hin Hkey]]]]].
  set (es := map (write_progress (u_id u) course_id (Some (Num p)) (Qle_bool 100 p)
                                 (if Qle_bool 100 p then Some now else None))
                 (enrollments d)) in *.
  destruct (written_rows (u_id u) course_id (Some (Num p)) (Qle_bool 100 p)
              (if Qle_bool 100 p then Some now else None) (enrollments d))
    as [Hrows Hothers].
  fold es in Hrows, Hothers.
  exists (set_enrollments d es), row.
  split; [ exact Hrun | ]. split; [ reflexivity | ].
  split; [ exact Hin | ]. split; [ exact Hkey | ].
  split; [ | split; [ exact Hothers | split ] ].
  - intros x Hx Hk. destruct (Hrows x Hx Hk) as [Hp [Hc Hat]].
    split; [ exact Hp | ].
    split; [ rewrite Hc; apply Qle_bool_iff | ].
    rewrite Hat, Hc. reflexivity.
  - intros E x Hx Hk. destruct (Hrows x Hx Hk) as [_ [Hc Hat]].
    assert (Qle_bool 100 p = true) as E'.
    { apply Qle_bool_iff. rewrite E. apply Qle_refl. }
    rewrite Hc, Hat, E'. auto.
  - intros now2 p2 H02 H12.
    destruct (progress_once (set_enrollments d es) now2 u course_id p2 e1 He1 H02
                (Qlt_le_weak _ _ H12))
      as [row2 [_ [Hrun2 [_ [Hin2 Hkey2]]]]].
    assert (Qle_bool 100 p2 = false) as E.
    { destruct (Qle_bool 100 p2) eqn:E; [ | reflexivity ].
      apply Qle_bool_iff in E. exfalso. exact (Qlt_not_le _ _ H12 E). }
    rewrite E in Hrun2, Hin2.
    eexists. exists row2.
    split; [ exact Hrun2 | ]. split; [ exact Hin2 | ]. split; [ exact Hkey2 | ].
    intros x Hx Hk.
    apply (written_rows (u_id u) course_id (Some (Num p2)) false None
             (enrollments (set_enrollments d es))); assumption.
Qed.

(** sam completes course 1 at time 3000 and then falls back to 50: the
    store holds the completed row, then the row that is not completed. *)
Lemma progress_write_sets_completion_witness :
  exists d1 row d2 row2,
    updateProgress Examples.school 3000 Examples.sam 1 (NNumber (Num 100)) = Ok (d1, Some row)
    /\ enrollments d1 = [mkEnrollment 1 20 1 (Some (Num 100)) true (Some 3000)]
    /\ updateProgress d1 4000 Examples.sam 1 (NNumber (Num 50)) = Ok (d2, Some row2)
    /\ In row2 (enrollments d2)
    /\ e_completed row2 = false /\ e_completed_at row2 = None.
Proof.
  destruct (progress_write_sets_completion Examples.school 3000 Examples.sam 1 100
              (mkEnrollment 1 20 1 (Some (Num 0)) false None) eq_refl)
    as [d1 [row [Hrun [Hst [_ [_ [_ [_ [_ Hnext]]]]]]]]].
  - unfold Qle; cbn; lia.
  - unfold Qle; cbn; lia.
  - destruct (Hnext 4000 50%Q) as [d2 [row2 [Hrun2 [Hin2 [Hk2 Hrows2]]]]].
    + unfold Qle; cbn; lia.
    + unfold Qlt; cbn; lia.
    + destruct (Hrows2 row2 Hin2 Hk2) as [_ [Hc2 Hat2]].
      exists d1, row, d2, row2.
      split; [ exact Hrun | ]. split; [ exact Hst | ]. auto.
Defined.

(* ------------------------------------------------------------------ *)
(** ** Quiz grading *)

Lemma insert_by_id_in (q x : quiz) (l : list quiz) :
  In x (insert_by_id q l) <-> x = q \/ In x l.
Proof.
  induction l as [ | h t IH]; cbn.
  - intuition congruence.
  - destruct (q_id q <=? q_id h); cbn; [ intuition congruence | ].
    rewrite IH. intuition congruence.
Qed.

Lemma order_by_id_in (x : quiz) (l : list quiz) : In x (order_by_id l) <-> In x l.
Proof.
  unfold order_by_id. induction l as [ | h t IH]; cbn; [ reflexivity | ].
  rewrite insert_by_id_in, IH. intuition congruence.
Qed.

Lemma getQuizzesByLesson_in (d : db) (lessonId : Z) (q : quiz) :
  In q (getQuizzesByLesson d lessonId) <-> In q (quizzes d) /\ q_lesson_id q = lessonId.
Proof.
  unfold getQuizzesByLesson. rewrite order_by_id_in, filter_In, Z.eqb_eq. reflexivity.
Qed.

(** The grading loop adds up the points of all quizzes and of the correctly
    answered ones, and appends one result per quiz. *)
Lemma grade_loop (answers : answers_map) (qs : list quiz) (t e : Z) (r : list quiz_result) :
  fold_left (grade_step answers) qs (t, e, r)
  = (t + sum_points qs,
     e + sum_points (filter (isCorrect answers) qs),
     r ++ map (result_of answers) qs).
Proof.
  revert t e r. induction qs as [ | q qs IH]; intros t e r; cbn.
  - rewrite !Z.add_0_r, app_nil_r. reflexivity.
  - rewrite IH, <- app_assoc. unfold result_of at 2. cbn [app].
    destruct (isCorrect answers q); unfold sum_points; cbn [filter fold_right];
      f_equal; f_equal; lia.
Qed.

(** A quotient by a non-zero number is the rounded exact quotient. *)
Lemma js_div_positive (e t : Z) :
  0 < t -> js_div (number_of_Z e) (number_of_Z t) = fl (inject_Z e / inject_Z t).
Proof.
  intros H. unfold js_div, number_of_Z.
  assert (Qeq_bool (inject_Z t) 0 = false) as ->; [ | reflexivity ].
  destruct (Qeq_bool (inject_Z t) 0) eqn:E; [ | reflexivity ].
  apply Qeq_bool_iff in E. unfold Qeq in E. cbn in E. lia.
Qed.



(** The model of binary64 agrees with the hardware floats of the proof
    assistant on the scores of 23 points of 40 and of 29 points of 200. *)
Lemma score_binary64_figures :
  js_mul (js_div (Num 23) (Num 40)) (Num 100) = number_of_float (23 / 40 * 100)%float
  /\ js_mul (js_div (Num 29) (Num 200)) (Num 100) = number_of_float (29 / 200 * 100)%float
  /\ compute_score 23 40 = Num 57
  /\ compute_score 29 200 = Num 14
  /\ spec_score 23 40 = 58
  /\ spec_score 29 200 = 15.
Proof. repeat split; vm_compute; reflexivity. Qed.




(* ------------------------------------------------------------------ *)
(** ** Validation of quiz answers *)









(* ------------------------------------------------------------------ *)
(** ** What a student reads of a quiz *)

(** With [forStudent=true] a student is served the question rows, which
    carry no answer. *)
Lemma student_view_has_no_answer (d : db) (u : user) (lesson_id : Z)
    (resp : lesson_quizzes_response) :
  u_role u = student ->
  getQuizzesByLessonController d u lesson_id (Some "true") = Ok resp ->
  lq_quizzes resp = QuestionsOnly (getQuizQuestionsForStudent d lesson_id)
  /\ exposed_answers (lq_quizzes resp) = [].
Proof.
  intros Hs H. unfold getQuizzesByLessonController in H.
  ok_step H lc.
  rewrite Hs in H. cbn in H. injection H as <-. cbn. auto.
Qed.

(** Without [forStudent=true] the controller takes the branch written for
    instructors and admins, which refuses only a foreign instructor: a
    student is served the full rows. *)
Lemma student_default_view_is_full (d : db) (u : user) (lesson_id : Z)
    (forStudent : option string) (lc : lesson * course) :
  u_role u = student ->
  forStudent <> Some "true" ->
  getLessonWithCourseInfo d lesson_id = Some lc ->
  getQuizzesByLessonController d u lesson_id forStudent
  = Ok (mkLessonQuizzes lesson_id (l_title (fst lc))
                        (FullQuizzes (getQuizzesByLesson d lesson_id))).
Proof.
  intros Hs Hf Hl. unfold getQuizzesByLessonController.
  rewrite Hl, Hs. cbn.
  assert (match forStudent with
          | Some v => String.eqb v "true"
          | None => false
          end = false) as ->.
  { destruct forStudent as [v | ]; [ | reflexivity ].
    destruct (String.eqb_spec v "true"); [ subst; contradiction | reflexivity ]. }
  reflexivity.
Qed.

(** C4, the failing path.  The student sam reads the quizzes of lesson 1
    without the [forStudent] parameter and receives the stored answer. *)
Theorem student_reads_stored_answer :
  u_role Examples.sam = student
  /\ getQuizzesByLessonController Examples.school Examples.sam 1 None
     = Ok (mkLessonQuizzes 1 "Capitals" (FullQuizzes [Examples.quiz_capital]))
  /\ exposed_answers (FullQuizzes [Examples.quiz_capital]) = ["Paris"]
  /\ exists resp,
       getQuizzesByLessonController Examples.school Examples.sam 1 (Some "true") = Ok resp
       /\ exposed_answers (lq_quizzes resp) = [].
Proof.
  split; [ reflexivity | ]. split; [ reflexivity | ]. split; [ reflexivity | ].
  eexists. split; reflexivity.
Qed.

(* ------------------------------------------------------------------ *)
(** ** Bulk grading *)

Lemma stamp_grade_handin id g fb now grader s :
  submission_handin (stamp_grade id g fb now grader s) = submission_handin s.
Proof. unfold stamp_grade. destruct (s_id s =? id); reflexivity. Qed.

Lemma stamp_grade_other id g fb now grader s :
  s_id s <> id -> stamp_grade id g fb now grader s = s.
Proof.
  intros H. unfold stamp_grade.
  assert ((s_id s =? id) = false) as -> by (apply Z.eqb_neq; exact H). reflexivity.
Qed.

Lemma regraded_only_refl (ids : list Z) (l : list submission) :
  Forall2 (regraded_only ids) l l.
Proof. induction l; constructor; [ split; auto | assumption ]. Qed.

Lemma regraded_only_stamp (ids : list Z) id g fb now grader (l l1 : list submission) :
  In id ids ->
  Forall2 (regraded_only ids) l l1 ->
  Forall2 (regraded_only ids) l (map (stamp_grade id g fb now grader) l1).
Proof.
  intros Hid H. induction H as [ | s s1 l l1 [Hh Hs] _ IH]; cbn; constructor;
    [ | exact IH ].
  split.
  - rewrite stamp_grade_handin. exact Hh.
  - intros Hn. rewrite (Hs Hn). apply stamp_grade_other.
    intros E. apply Hn. rewrite E. exact Hid.
Qed.

Lemma regraded_only_handin (ids : list Z) (l l1 : list submission) :
  Forall2 (regraded_only ids) l l1 ->
  map submission_handin l1 = map submission_handin l.
Proof.
  intros H. induction H as [ | s s1 l l1 [Hh _] _ IH]; cbn; [ reflexivity | ].
  rewrite Hh, IH. reflexivity.
Qed.

(** The row a bulk item targets is found, and is late, in one store as in
    another with the same hand-ins. *)
Lemma bulk_target_handin (l l0 : list submission) (aid sid : Z) :
  map submission_handin l = map submission_handin l0 ->
  option_map s_is_late
    (first_row (filter (fun s => (s_id s =? sid) && (s_assignment_id s =? aid)) l))
  = option_map s_is_late
      (first_row (filter (fun s => (s_id s =? sid) && (s_assignment_id s =? aid)) l0)).
Proof.
  revert l0. induction l as [ | s l IH]; intros [ | s0 l0] H; cbn in H;
    try discriminate; [ reflexivity | ].
  injection H as Hid Ha _ _ _ Hlate _ Hl.
  cbn. rewrite Hid, Ha.
  destruct ((s_id s0 =? sid) && (s_assignment_id s0 =? aid)); cbn;
    [ rewrite Hlate; reflexivity | apply IH; exact Hl ].
Qed.

Lemma bulk_item_handin (d d0 : db) (aid : Z) (a : assignment) (item : grade_item) :
  map submission_handin (submissions d) = map submission_handin (submissions d0) ->
  bulk_item_ok d aid a item = bulk_item_ok d0 aid a item
  /\ bulk_outcome d aid a item = bulk_outcome d0 aid a item.
Proof.
  intros H.
  pose proof (bulk_target_handin (submissions d) (submissions d0) aid
                (gi_submissionId item) H) as Ht.
  fold (bulk_target d aid (gi_submissionId item)) in Ht.
  fold (bulk_target d0 aid (gi_submissionId item)) in Ht.
  unfold bulk_item_ok, bulk_outcome.
  destruct (bulk_target d aid (gi_submissionId item));
    destruct (bulk_target d0 aid (gi_submissionId item));
    cbn in Ht; try discriminate; [ injection Ht as -> | ]; auto.
Qed.

(** One turn of the loop on an item that is graded, and on one that is not. *)
Lemma bulk_grade_step_ok now u aid a d results errors item :
  bulk_item_ok d aid a item = true ->
  bulk_grade_step now u aid a (d, results, errors) item
  = (set_submissions d
       (map (stamp_grade (gi_submissionId item)
               (sql_param (bg_finalGrade (bulk_outcome d aid a item)))
               (option_map trim (gi_feedback item)) now (u_id u))
            (submissions d)),
     results ++ [bulk_outcome d aid a item],
     errors).
Proof.
  unfold bulk_item_ok, bulk_outcome, bulk_grade_step. intros H.
  apply andb_prop in H. destruct H as [Hr Ht]. apply negb_true_iff in Hr. rewrite Hr.
  destruct (bulk_target d aid (gi_submissionId item)); [ reflexivity | discriminate ].
Qed.

Lemma bulk_grade_step_fail now u aid a d results errors item :
  bulk_item_ok d aid a item = false ->
  bulk_grade_step now u aid a (d, results, errors) item
  = (d, results, errors ++ [bulk_failure a item]).
Proof.
  unfold bulk_item_ok, bulk_failure, bulk_grade_step. intros H.
  destruct (grade_out_of_range (gi_grade item) (a_max_points a)); [ reflexivity | ].
  destruct (bulk_target d aid (gi_submissionId item)); [ discriminate | reflexivity ].
Qed.

(** The loop of a bulk grading: what each item yields is read off the store
    the loop started from. *)
Lemma bulk_grade_loop now u aid a (ids : list Z) (d0 : db) (items : list grade_item) :
  forall d results errors,
    incl (map gi_submissionId items) ids ->
    Forall2 (regraded_only ids) (submissions d0) (submissions d) ->
    exists d1,
      fold_left (bulk_grade_step now u aid a) items (d, results, errors)
      = (d1,
         results ++ map (bulk_outcome d0 aid a) (filter (bulk_item_ok d0 aid a) items),
         errors ++ map (bulk_failure a)
                       (filter (fun i => negb (bulk_item_ok d0 aid a i)) items))
      /\ Forall2 (regraded_only ids) (submissions d0) (submissions d1)
      /\ courses d1 = courses d /\ modules d1 = modules d /\ lessons d1 = lessons d
      /\ assignments d1 = assignments d.
Proof.
  induction items as [ | item items IH]; intros d results errors Hincl Hinv.
  - exists d. cbn. rewrite !app_nil_r. auto 10.
  - assert (Hid : In (gi_submissionId item) ids) by (apply Hincl; left; reflexivity).
    assert (Hrest : incl (map gi_submissionId items) ids)
      by (intros x Hx; apply Hincl; right; exact Hx).
    destruct (bulk_item_handin d d0 aid a item (regraded_only_handin _ _ _ Hinv))
      as [Hok Hout].
    cbn [fold_left filter].
    destruct (bulk_item_ok d0 aid a item) eqn:E0; cbn [negb map].
    + rewrite (bulk_grade_step_ok now u aid a d results errors item Hok), Hout.
      match goal with
      | |- context [fold_left _ items (?D, ?R, ?E)] =>
          destruct (IH D R E Hrest
                       (regraded_only_stamp ids _ _ _ _ _ _ _ Hid Hinv))
            as [d1 [Hrun [Hinv1 Hrest1]]]
      end.
      exists d1. rewrite Hrun, <- app_assoc.
      split; [ reflexivity | ]. split; [ exact Hinv1 | exact Hrest1 ].
    + rewrite (bulk_grade_step_fail now u aid a d results errors item Hok).
      destruct (IH d results (errors ++ [bulk_failure a item]) Hrest Hinv)
        as [d1 [Hrun Hrest1]].
      exists d1. rewrite Hrun, <- app_assoc. split; [ reflexivity | exact Hrest1 ].
Qed.

Lemma filter_split_length {A} (p : A -> bool) (l : list A) :
  (List.length (filter p l) + List.length (filter (fun x => negb (p x)) l)
   = List.length l)%nat.
Proof.
  induction l as [ | x l IH]; cbn; [ reflexivity | ].
  destruct (p x); cbn; lia.
Qed.

Lemma bulk_grade_run (d : db) (now : Z) (u : user) (aid : Z) (grades : list grade_item)
    (d1 : db) (resp : bulk_grade_response) :
  bulkGradeSubmissionsController d now u aid grades = Ok (d1, resp) ->
  exists a c,
    assignmentWithCourse d aid = Some (a, c)
    /\ fold_left (bulk_grade_step now u aid a) grades (d, [], [])
       = (d1, bgr_results resp, bgr_errors resp)
    /\ bgr_gradedCount resp = Z.of_nat (List.length (bgr_results resp))
    /\ bgr_errorCount resp = Z.of_nat (List.length (bgr_errors resp)).
Proof.
  intros H. unfold bulkGradeSubmissionsController in H.
  apply bind_ok in H. destruct H as [[a c] [Hac H]].
  do 2 ok_skip H. cbn [fst] in H.
  destruct (fold_left (bulk_grade_step now u aid a) grades (d, [], []))
    as [[d' results] errors] eqn:Ef.
  injection H as <- <-. exists a, c. cbn.
  destruct (assignmentWithCourse d aid); cbn in Hac; [ | discriminate ].
  injection Hac as ->. auto.
Qed.

(** X1. In a bulk grading every item is answered on its own: it is graded
    exactly when its grade is not out of range and its submission belongs to
    the assignment in the store the request started from, whatever the other
    items of the batch are, and it is reported as an error otherwise.  The
    two counts add up to the size of the batch. *)
Theorem bulk_grading_is_per_item (d : db) (now : Z) (u : user) (aid : Z)
    (grades : list grade_item) (d1 : db) (resp : bulk_grade_response) :
  bulkGradeSubmissionsController d now u aid grades = Ok (d1, resp) ->
  exists a c,
    assignmentWithCourse d aid = Some (a, c)
    /\ bgr_results resp
       = map (bulk_outcome d aid a) (filter (bulk_item_ok d aid a) grades)
    /\ bgr_errors resp
       = map (bulk_failure a) (filter (fun i => negb (bulk_item_ok d aid a i)) grades)
    /\ bgr_gradedCount resp + bgr_errorCount resp = Z.of_nat (List.length grades).
Proof.
  intros H. destruct (bulk_grade_run _ _ _ _ _ _ _ H) as [a [c [Hac [Hfold [Hg He]]]]].
  destruct (bulk_grade_loop now u aid a (map gi_submissionId grades) d grades d [] []
              (incl_refl _) (regraded_only_refl _ _)) as [d' [Hrun _]].
  rewrite Hfold in Hrun. cbn [app] in Hrun. injection Hrun as _ Hres Herr.
  exists a, c. split; [ exact Hac | ]. split; [ exact Hres | ]. split; [ exact Herr | ].
  rewrite Hg, He, Hres, Herr, !length_map, <- Nat2Z.inj_add, filter_split_length.
  reflexivity.
Qed.

(** Of the three items of the batch the first is graded (80 becomes 72), the
    other two are reported. *)
Lemma bulk_grading_is_per_item_witness :
  exists d1 resp,
    bulkGradeSubmissionsController Examples.school 2000 Examples.alice 1
                                   MoreExamples.batch = Ok (d1, resp)
    /\ map bg_submissionId (bgr_results resp) = [1]
    /\ map be_submissionId (bgr_errors resp) = [3; 2]
    /\ bgr_gradedCount resp + bgr_errorCount resp = 3.
Proof.
  eexists. eexists. split; [ reflexivity | ].
  destruct (bulk_grading_is_per_item Examples.school 2000 Examples.alice 1
              MoreExamples.batch _ _ eq_refl) as [a [c [Hac [Hres [Herr Hcount]]]]].
  cbn in Hac. injection Hac as <- <-.
  split; [ rewrite Hres; reflexivity | ].
  split; [ rewrite Herr; reflexivity | exact Hcount ].
Defined.

(** The rows of the store after a bulk grading. *)
Lemma bulk_grading_rows (d : db) (now : Z) (u : user) (aid : Z)
    (grades : list grade_item) (d1 : db) (resp : bulk_grade_response) :
  bulkGradeSubmissionsController d now u aid grades = Ok (d1, resp) ->
  map submission_handin (submissions d1) = map submission_handin (submissions d)
  /\ Forall2 (regraded_only (map gi_submissionId grades)) (submissions d) (submissions d1)
  /\ assignments d1 = assignments d
  /\ courses d1 = courses d.
Proof.
  intros H. destruct (bulk_grade_run _ _ _ _ _ _ _ H) as [a [c [Hac [Hfold _]]]].
  destruct (bulk_grade_loop now u aid a (map gi_submissionId grades) d grades d [] []
              (incl_refl _) (regraded_only_refl _ _))
    as [d' [Hrun [Hinv [Hc [_ [_ Ha]]]]]].
  rewrite Hfold in Hrun. injection Hrun as <- _ _.
  split; [ apply (regraded_only_handin _ _ _ Hinv) | ]. auto.
Qed.

(** X2. A bulk grading adds and removes no submission and changes no
    hand-in field (id, assignment, student, content, file, lateness, time
    of submission) of any row; a row whose id is not named in the batch is
    left as it is, and so are the other tables. *)
Theorem bulk_grading_touches_named_rows_only (d : db) (now : Z) (u : user) (aid : Z)
    (grades : list grade_item) (d1 : db) (resp : bulk_grade_response) :
  bulkGradeSubmissionsController d now u aid grades = Ok (d1, resp) ->
  Forall2 (regraded_only (map gi_submissionId grades)) (submissions d) (submissions d1)
  /\ map submission_handin (submissions d1) = map submission_handin (submissions d)
  /\ assignments d1 = assignments d
  /\ courses d1 = courses d.
Proof.
  intros H. destruct (bulk_grading_rows _ _ _ _ _ _ _ H) as [Hh [Hinv [Ha Hc]]].
  auto.
Qed.

(** After the batch, submission 3 (grade out of range) is as it was. *)
Lemma bulk_grading_touches_named_rows_only_witness :
  exists d1 resp,
    bulkGradeSubmissionsController Examples.school 2000 Examples.alice 1
                                   MoreExamples.batch = Ok (d1, resp)
    /\ map submission_handin (submissions d1)
       = map submission_handin (submissions Examples.school)
    /\ In Examples.on_time_submission (submissions d1).
Proof.
  eexists. eexists. split; [ reflexivity | ].
  destruct (bulk_grading_touches_named_rows_only Examples.school 2000 Examples.alice 1
              MoreExamples.batch _ _ eq_refl) as [_ [Hh _]].
  split; [ exact Hh | ]. vm_compute. auto.
Defined.

(** With a primary key on [submissions], the row a bulk item targets is the
    row with that id. *)
Lemma bulk_target_by_id (d : db) (s : submission) :
  distinct (map s_id (submissions d)) = true ->
  In s (submissions d) ->
  bulk_target d (s_assignment_id s) (s_id s) = Some s.
Proof.
  unfold bulk_target. induction (submissions d) as [ | x l IH]; cbn; intros Hd Hin;
    [ contradiction | ].
  apply andb_prop in Hd. destruct Hd as [Hx Hd].
  destruct Hin as [-> | Hin].
  - rewrite !Z.eqb_refl. reflexivity.
  - destruct (s_id x =? s_id s) eqn:E.
    + exfalso. apply Z.eqb_eq in E. apply negb_true_iff in Hx.
      apply existsb_eqb_in in Hx. apply Hx. rewrite E. apply in_map. exact Hin.
    + cbn. apply IH; assumption.
Qed.

Lemma assignmentWithCourse_id (d : db) (aid : Z) (a : assignment) (c : course) :
  assignmentWithCourse d aid = Some (a, c) -> a_id a = aid.
Proof.
  unfold assignmentWithCourse. intros H. apply first_row_in in H.
  apply filter_In in H. destruct H as [_ H]. apply andb_prop in H.
  destruct H as [H _]. apply Z.eqb_eq. exact H.
Qed.

Lemma penalized_no_penalty (q p : Q) :
  binary64 q -> (p == 0)%Q -> penalized (NNumber (Num q)) p = Num q.
Proof.
  intros Hq Hp. unfold penalized. rewrite (fl_comp p 0 Hp).
  apply (penalized_zero q Hq).
Qed.

(** The final grade of a bulk item is the final grade of a single grading. *)
Lemma bulk_final_is_single (a : assignment) (isLate : option bool) (raw : Q) :
  binary64 raw ->
  bulk_finalGrade a isLate (NNumber (Num raw))
  = NNumber (graded (is_true isLate) raw (latePenalty a)).
Proof.
  intros Hb. unfold bulk_finalGrade, graded, penalty_truthy, latePenalty.
  destruct (is_true isLate); cbn [andb]; [ | reflexivity ].
  destruct (a_late_penalty_percent a) as [p | ].
  - destruct (Qeq_bool p 0) eqn:E; cbn [negb]; [ | reflexivity ].
    apply Qeq_bool_iff in E. rewrite (penalized_no_penalty raw p Hb E). reflexivity.
  - rewrite (penalized_no_penalty raw 0 Hb); reflexivity.
Qed.

(** X3. Bulk grading and single grading agree on a number: for an in-range
    binary64 grade of a submission of the assignment, grading it through
    [gradeSubmissionController] and grading it as the one item of a bulk
    request leave the same store, in which the rows of that id carry the
    same final grade, feedback, time and grader, and both answer with that
    final grade: the raw grade when the submission is not late, the
    binary64 value of [raw * (1 - penalty / 100)] when it is. *)
Theorem bulk_grade_agrees_with_single (d : db) (now : Z) (u : user) (sid : Z) (raw : Q)
    (feedback : option string) s a c :
  distinct (map a_id (assignments d)) = true ->
  distinct (map s_id (submissions d)) = true ->
  submissionWithCourse d sid = Some (s, a, c) ->
  assignmentWithCourse d (a_id a) = Some (a, c) ->
  u_role u = admin \/ u_id u = c_instructor_id c ->
  binary64 raw ->
  (0 <= raw)%Q -> (raw <= inject_Z (a_max_points a))%Q ->
  exists d1 r1 d2 r2 final,
    gradeSubmissionController d now u sid (NNumber (Num raw)) feedback = Ok (d1, r1)
    /\ bulkGradeSubmissionsController d now u (a_id a)
         [mkGradeItem sid (NNumber (Num raw)) feedback] = Ok (d2, r2)
    /\ d1 = d2
    /\ submissions d1
       = map (stamp_grade sid (Some final) (option_map trim feedback) now (u_id u))
             (submissions d)
    /\ (forall x, In x (submissions d1) -> s_id x = sid ->
          s_grade x = Some final /\ s_feedback x = option_map trim feedback
          /\ s_graded_at x = Some now /\ s_graded_by x = Some (u_id u))
    /\ gr_finalGrade r1 = NNumber final
    /\ bgr_results r2
       = [mkBulkGraded sid (NNumber (Num raw)) (NNumber final) (s_is_late s)]
    /\ bgr_errors r2 = []
    /\ (is_true (s_is_late s) = false -> final = Num raw)
    /\ (is_true (s_is_late s) = true ->
        final = js_mul (Num raw)
                       (js_sub (Num 1) (js_div (fl (latePenalty a)) (Num 100)))).
Proof.
  intros Hda Hds Hs Hac Hu Hb H0 H1.
  pose proof (grade_run d now u sid raw feedback s a c Hda Hs Hu H0 H1) as Hrun.
  cbv zeta in Hrun.
  destruct (submissionWithCourse_in d sid s a c Hs) as [Hin [_ [Hid Hsid]]].
  pose proof (bulk_target_by_id d s Hds Hin) as Ht. rewrite <- Hid, Hsid in Ht.
  set (final := graded (is_true (s_is_late s)) raw (latePenalty a)) in *.
  eexists. eexists. eexists. eexists. exists final.
  split; [ exact Hrun | ].
  unfold bulkGradeSubmissionsController. rewrite Hac. cbn [bind orNotFound fst snd].
  assert (requireOwnerOrAdmin u (c_instructor_id c) "Access denied" = Ok tt) as ->.
  { destruct Hu as [Hu | Hu];
      [ apply requireOwnerOrAdmin_admin | apply requireOwnerOrAdmin_owner ]; assumption. }
  cbn [bind throw_if List.length Z.of_nat Z.eqb Pos.of_succ_nat fold_left].
  rewrite (bulk_grade_step_ok now u (a_id a) a d [] []
             (mkGradeItem sid (NNumber (Num raw)) feedback)).
  - unfold bulk_outcome. cbn [gi_submissionId gi_grade gi_feedback].
    rewrite Ht, (bulk_final_is_single a (s_is_late s) raw Hb). fold final.
    cbn [app sql_param].
    split; [ reflexivity | ].
    split; [ reflexivity | ].
    split; [ reflexivity | ].
    split.
    { intros x Hx Hxid. cbn [submissions set_submissions] in Hx.
      apply in_map_iff in Hx. destruct Hx as [y [<- _]].
      rewrite stamp_grade_id in Hxid. apply Z.eqb_eq in Hxid.
      unfold stamp_grade. rewrite Hxid. cbn. auto. }
    split; [ reflexivity | ].
    split; [ reflexivity | ].
    split; [ reflexivity | ].
    unfold final, graded.
    split; intros E; rewrite E; reflexivity.
  - unfold bulk_item_ok. cbn [gi_submissionId gi_grade].
    rewrite Ht, grade_in_range by assumption. reflexivity.
Qed.

(** alice grades the late submission 1 with 80 either way: 72 is stored. *)
Lemma bulk_grade_agrees_with_single_witness :
  exists d1 r1 r2,
    gradeSubmissionController Examples.school 2000 Examples.alice 1
                              (NNumber (Num 80)) None = Ok (d1, r1)
    /\ bulkGradeSubmissionsController Examples.school 2000 Examples.alice 1
         [mkGradeItem 1 (NNumber (Num 80)) None] = Ok (d1, r2)
    /\ gr_finalGrade r1 = NNumber (Num 72)
    /\ bgr_results r2 = [mkBulkGraded 1 (NNumber (Num 80)) (NNumber (Num 72)) (Some true)].
Proof.
  destruct (bulk_grade_agrees_with_single Examples.school 2000 Examples.alice 1 80 None
              Examples.late_submission Examples.essay
              (mkCourse 1 "Geography" (Some 7) 10 false)
              eq_refl eq_refl eq_refl eq_refl (or_intror eq_refl))
    as [d1 [r1 [d2 [r2 [final [H1 [H2 [H3 [_ [_ [H5 [H6 [_ [_ H9]]]]]]]]]]]]]].
  - vm_compute. reflexivity.
  - unfold Qle; cbn; lia.
  - unfold Qle; cbn; lia.
  - assert (E : final = Num 72).
    { rewrite (H9 eq_refl). vm_compute. reflexivity. }
    rewrite E in *. rewrite <- H3 in H2.
    exists d1, r1, r2. auto.
Defined.

(* ------------------------------------------------------------------ *)
(** ** A graded submission and its student *)

Lemma stamp_grade_graded id g fb now grader s :
  s_id s = id -> s_grade (stamp_grade id (Some g) fb now grader s) = Some g.
Proof.
  intros H. unfold stamp_grade.
  assert ((s_id s =? id) = true) as -> by (apply Z.eqb_eq; exact H). reflexivity.
Qed.

Lemma throw_if_ok (cond : bool) (e : exn) (x : unit) :
  throw_if cond e = Ok x -> cond = false.
Proof. destruct cond; cbn; intros H; [ discriminate | reflexivity ]. Qed.

Lemma throw_if_graded (g : option jsnumber) (e : exn) (x : unit) :
  throw_if (match g with Some _ => true | None => false end) e = Ok x -> g = None.
Proof. destruct g; cbn; intros H; [ discriminate | reflexivity ]. Qed.

(** In a store where every row with the id is graded, neither the update nor
    the deletion of that submission goes through. *)
Lemma closed_when_graded (d : db) (id : Z) :
  (forall s, In s (submissions d) -> s_id s = id -> s_grade s <> None) ->
  (forall now u content file_path r,
     updateSubmissionController d now u id content file_path <> Ok r)
  /\ (forall u r, deleteSubmissionController d u id <> Ok r).
Proof.
  intros Hg. split.
  - intros now u content file_path r H.
    unfold updateSubmissionController in H.
    apply bind_ok in H. destruct H as [[[s a] c] [Hr H]].
    apply bind_ok in H. destruct H as [x [Hthrow _]].
    apply throw_if_graded in Hthrow. cbn in Hthrow.
    match type of Hr with
    | orNotFound ?X _ = _ => destruct X as [r0 | ] eqn:E; cbn in Hr; [ | discriminate ]
    end.
    injection Hr as ->. apply first_row_in in E. apply filter_In in E.
    destruct E as [Hin Hp].
    apply andb_prop in Hp. destruct Hp as [Hp _].
    apply andb_prop in Hp. destruct Hp as [Hp _]. apply Z.eqb_eq in Hp.
    destruct (submissions_courses_in d s a c Hin) as [Hs _].
    apply (Hg s Hs Hp). exact Hthrow.
  - intros u r H. unfold deleteSubmissionController in H.
    apply bind_ok in H. destruct H as [[s a] [Hr H]].
    apply bind_ok in H. destruct H as [x [Hthrow _]].
    apply throw_if_graded in Hthrow. cbn in Hthrow.
    match type of Hr with
    | orNotFound ?X _ = _ => destruct X as [r0 | ] eqn:E; cbn in Hr; [ | discriminate ]
    end.
    injection Hr as ->. apply first_row_in in E.
    apply in_flat_map in E. destruct E as [s' [Hs E]].
    apply in_map_iff in E. destruct E as [a' [Epair _]]. injection Epair as -> _.
    apply filter_In in Hs. destruct Hs as [Hs Hp].
    apply andb_prop in Hp. destruct Hp as [Hp _]. apply Z.eqb_eq in Hp.
    apply (Hg s Hs Hp). exact Hthrow.
Qed.

Lemma first_row_of_member {A} (l : list A) (x : A) :
  In x l -> exists y, first_row l = Some y /\ In y l.
Proof. destruct l as [ | y l]; cbn; intros H; [ contradiction | eauto ]. Qed.

(** X4. A submission with a stored grade is closed to its student: in
    every store where the rows of its id carry a grade, each update and
    each deletion of it is refused, and a grading with an in-range number
    leaves such a store, in which its author gets the 400 of the graded
    check.  The closure lasts as long as the grade does: a bulk grading
    that names the submission (not late) without a grade is counted as a
    grading and stores NULL again, after which the deletion by its author
    goes through. *)
Theorem graded_submission_is_closed (d : db) (now : Z) (u : user) (id : Z) (raw : Q)
    (feedback : option string) s a c :
  distinct (map a_id (assignments d)) = true ->
  distinct (map s_id (submissions d)) = true ->
  submissionWithCourse d id = Some (s, a, c) ->
  assignmentWithCourse d (a_id a) = Some (a, c) ->
  u_role u = admin \/ u_id u = c_instructor_id c ->
  (0 <= raw)%Q -> (raw <= inject_Z (a_max_points a))%Q ->
  (forall d',
     (forall x, In x (submissions d') -> s_id x = id -> s_grade x <> None) ->
     (forall now1 u1 content file_path r,
        updateSubmissionController d' now1 u1 id content file_path <> Ok r)
     /\ (forall u1 r, deleteSubmissionController d' u1 id <> Ok r))
  /\ exists d1 resp,
    gradeSubmissionController d now u id (NNumber (Num raw)) feedback = Ok (d1, resp)
    /\ (forall x, In x (submissions d1) -> s_id x = id -> s_grade x <> None)
    /\ (forall now1 u1 content file_path,
          u_id u1 = s_student_id s ->
          updateSubmissionController d1 now1 u1 id content file_path
          = Throw (AppError "Cannot update graded submission" BAD_REQUEST))
    /\ (forall u1,
          u_id u1 = s_student_id s ->
          deleteSubmissionController d1 u1 id
          = Throw (AppError "Cannot delete graded submission" BAD_REQUEST))
    /\ (is_true (s_is_late s) = false ->
        forall now2 u2 feedback2,
          u_role u2 = admin \/ u_id u2 = c_instructor_id c ->
          exists d2 resp2,
            bulkGradeSubmissionsController d1 now2 u2 (a_id a)
              [mkGradeItem id NUndefined feedback2] = Ok (d2, resp2)
            /\ bgr_gradedCount resp2 = 1
            /\ bgr_errors resp2 = []
            /\ (forall x, In x (submissions d2) -> s_id x = id ->
                  s_grade x = None /\ s_graded_at x = Some now2)
            /\ (forall u1,
                  u_id u1 = s_student_id s ->
                  exists d3,
                    deleteSubmissionController d2 u1 id = Ok d3
                    /\ (forall x, In x (submissions d3) -> s_id x <> id))).
Proof.
  intros Hd Hds Hs Hac Hu H0 H1.
  split; [ intros d' Hg; apply (closed_when_graded d' id Hg) | ].
  pose proof (grade_run d now u id raw feedback s a c Hd Hs Hu H0 H1) as Hrun.
  cbv zeta in Hrun.
  set (final := graded (is_true (s_is_late s)) raw (latePenalty a)) in *.
  set (f := stamp_grade id (Some final) (option_map trim feedback) now (u_id u)) in *.
  set (d1 := set_submissions d (map f (submissions d))) in *.
  assert (Hgraded : forall x, In x (submissions d1) -> s_id x = id -> s_grade x <> None).
  { intros x Hx Hid. cbn in Hx. apply in_map_iff in Hx. destruct Hx as [x0 [<- _]].
    unfold f in *. rewrite stamp_grade_id in Hid.
    rewrite (stamp_grade_graded _ _ _ _ _ _ Hid). discriminate. }
  destruct (submissionWithCourse_in d id s a c Hs) as [Hin [Ha [Haid Hsid]]].
  assert (Hlive : c_is_deleted c = false).
  { unfold submissionWithCourse in Hs. apply first_row_in in Hs. apply filter_In in Hs.
    destruct Hs as [_ Hp]. apply andb_prop in Hp. destruct Hp as [_ Hp].
    apply negb_true_iff. exact Hp. }
  assert (Hjoin : In (s, a, c) (submissions_courses d)).
  { unfold submissionWithCourse in Hs. apply first_row_in in Hs. apply filter_In in Hs.
    apply Hs. }
  exists d1. eexists. split; [ exact Hrun | ]. split; [ exact Hgraded | ].
  split; [ | split ].
  - intros now1 u1 content file_path Hown.
    unfold updateSubmissionController.
    match goal with
    | |- bind (orNotFound (first_row ?L) _) _ = _ =>
        assert (In (f s, a, c) L) as Hmem
    end.
    { apply filter_In. split.
      - unfold d1. rewrite (submissions_courses_map f);
          [ | intros x; apply stamp_grade_assignment ].
        apply in_map_iff. exists (s, a, c). split; [ reflexivity | exact Hjoin ].
      - unfold f. rewrite stamp_grade_id, Hsid, Z.eqb_refl.
        unfold stamp_grade. rewrite Hsid, Z.eqb_refl. cbn [s_student_id].
        rewrite Hown, Z.eqb_refl, Hlive. reflexivity. }
    destruct (first_row_of_member _ _ Hmem) as [[[s1 a1] c1] [Hfirst H1in]].
    rewrite Hfirst. cbn [orNotFound bind fst snd].
    apply filter_In in H1in. destruct H1in as [H1in Hp].
    apply andb_prop in Hp. destruct Hp as [Hp _].
    apply andb_prop in Hp. destruct Hp as [Hp _]. apply Z.eqb_eq in Hp.
    destruct (submissions_courses_in d1 s1 a1 c1 H1in) as [Hs1 _].
    destruct (s_grade s1) eqn:Eg; [ reflexivity | ].
    exfalso. exact (Hgraded s1 Hs1 Hp Eg).
  - intros u1 Hown. unfold deleteSubmissionController.
    match goal with
    | |- bind (orNotFound (first_row ?L) _) _ = _ =>
        assert (In (f s, a) L) as Hmem
    end.
    { apply in_flat_map. exists (f s). split.
      - apply filter_In. split; [ cbn; apply in_map; exact Hin | ].
        unfold f. rewrite stamp_grade_id, Hsid, Z.eqb_refl.
        unfold stamp_grade. rewrite Hsid, Z.eqb_refl. cbn [s_student_id].
        rewrite Hown, Z.eqb_refl. reflexivity.
      - apply in_map. apply filter_In. split; [ exact Ha | ].
        unfold f. rewrite stamp_grade_assignment. apply Z.eqb_eq. exact Haid. }
    destruct (first_row_of_member _ _ Hmem) as [[s1 a1] [Hfirst H1in]].
    rewrite Hfirst. cbn [orNotFound bind fst snd].
    apply in_flat_map in H1in. destruct H1in as [s2 [Hs2 H1in]].
    apply in_map_iff in H1in. destruct H1in as [a2 [Epair _]]. injection Epair as -> _.
    apply filter_In in Hs2. destruct Hs2 as [Hs2 Hp].
    apply andb_prop in Hp. destruct Hp as [Hp _]. apply Z.eqb_eq in Hp.
    destruct (s_grade s1) eqn:Eg; [ reflexivity | ].
    exfalso. exact (Hgraded s1 Hs2 Hp Eg).
  - intros Hlate now2 u2 feedback2 Hu2.
    set (g := stamp_grade id None (option_map trim feedback2) now2 (u_id u2)).
    set (d2 := set_submissions d1 (map g (submissions d1))).
    assert (Ht : bulk_target d1 (a_id a) id = Some (f s)).
    { pose proof (bulk_target_by_id d s Hds Hin) as Ht.
      rewrite <- Haid, Hsid in Ht. unfold bulk_target in *. cbn [d1 submissions set_submissions].
      rewrite (filter_map_comm
                 (fun x => (s_id x =? id) && (s_assignment_id x =? a_id a)) f).
      rewrite (filter_ext
                 (fun x => (s_id (f x) =? id) && (s_assignment_id (f x) =? a_id a))
                 (fun x => (s_id x =? id) && (s_assignment_id x =? a_id a))).
      - rewrite first_row_map, Ht. reflexivity.
      - intros x. unfold f. rewrite stamp_grade_id, stamp_grade_assignment. reflexivity. }
    assert (Hcleared : forall x, In x (submissions d2) -> s_id x = id ->
                                 s_grade x = None /\ s_graded_at x = Some now2).
    { intros x Hx Hid. cbn in Hx. apply in_map_iff in Hx. destruct Hx as [x0 [<- _]].
      unfold g in *. rewrite stamp_grade_id in Hid. apply Z.eqb_eq in Hid.
      unfold stamp_grade. rewrite Hid. cbn. auto. }
    exists d2. eexists.
    split; [ | split; [ | split; [ | split; [ exact Hcleared | ] ] ] ].
    + unfold bulkGradeSubmissionsController.
      change (assignmentWithCourse d1 (a_id a)) with (assignmentWithCourse d (a_id a)).
      rewrite Hac. cbn [bind orNotFound fst snd].
      assert (requireOwnerOrAdmin u2 (c_instructor_id c) "Access denied" = Ok tt) as ->.
      { destruct Hu2 as [Hu2 | Hu2];
          [ apply requireOwnerOrAdmin_admin | apply requireOwnerOrAdmin_owner ];
          assumption. }
      cbn [bind throw_if List.length Z.of_nat Z.eqb Pos.of_succ_nat fold_left].
      rewrite (bulk_grade_step_ok now2 u2 (a_id a) a d1 [] []
                 (mkGradeItem id NUndefined feedback2)).
      * unfold bulk_outcome. cbn [gi_submissionId gi_grade gi_feedback].
        rewrite Ht. unfold f at 1 2. rewrite stamp_grade_is_late.
        unfold bulk_finalGrade. rewrite Hlate.
        cbn [andb bg_finalGrade sql_param app List.length]. reflexivity.
      * unfold bulk_item_ok. cbn [gi_submissionId gi_grade]. rewrite Ht. reflexivity.
    + reflexivity.
    + reflexivity.
    + intros u1 Hown. unfold deleteSubmissionController.
      match goal with
      | |- exists d3, bind (orNotFound (first_row ?L) _) _ = _ /\ _ =>
          assert (In (g (f s), a) L) as Hmem
      end.
      { apply in_flat_map. exists (g (f s)). split.
        - apply filter_In. split; [ cbn; apply in_map; apply in_map; exact Hin | ].
          unfold g, f. rewrite !stamp_grade_id, Hsid, Z.eqb_refl.
          unfold stamp_grade. rewrite Hsid, Z.eqb_refl. cbn [s_student_id s_id].
          rewrite Z.eqb_refl. cbn [s_student_id].
          rewrite Hown, Z.eqb_refl. reflexivity.
        - apply in_map. apply filter_In. split; [ exact Ha | ].
          unfold g, f. rewrite !stamp_grade_assignment. apply Z.eqb_eq. exact Haid. }
      destruct (first_row_of_member _ _ Hmem) as [[s1 a1] [Hfirst H1in]].
      rewrite Hfirst. cbn [orNotFound bind fst snd].
      apply in_flat_map in H1in. destruct H1in as [s2 [Hs2 H1in]].
      apply in_map_iff in H1in. destruct H1in as [a2 [Epair _]]. injection Epair as -> _.
      apply filter_In in Hs2. destruct Hs2 as [Hs2 Hp].
      apply andb_prop in Hp. destruct Hp as [Hp _]. apply Z.eqb_eq in Hp.
      destruct (Hcleared s1 Hs2 Hp) as [Eg _]. rewrite Eg. cbn [throw_if bind].
      eexists. split; [ reflexivity | ].
      intros x Hx. cbn [submissions set_submissions] in Hx.
      apply filter_In in Hx. destruct Hx as [_ Hx].
      apply negb_true_iff in Hx. apply Z.eqb_neq. exact Hx.
Qed.

(** After alice has graded submission 3 (on time), its author can neither
    update nor delete it; after a bulk grading that names it without a
    grade, the author deletes it. *)
Lemma graded_submission_is_closed_witness :
  exists d1 resp d2 resp2 d3,
    gradeSubmissionController Examples.school 2000 Examples.alice 3
                              (NNumber (Num 80)) None = Ok (d1, resp)
    /\ updateSubmissionController d1 2500 (mkUser 21 "tom" student) 3
                                  (Some "new text") None
       = Throw (AppError "Cannot update graded submission" BAD_REQUEST)
    /\ deleteSubmissionController d1 (mkUser 21 "tom" student) 3
       = Throw (AppError "Cannot delete graded submission" BAD_REQUEST)
    /\ bulkGradeSubmissionsController d1 3000 Examples.alice 1
         [mkGradeItem 3 NUndefined None] = Ok (d2, resp2)
    /\ deleteSubmissionController d2 (mkUser 21 "tom" student) 3 = Ok d3.
Proof.
  destruct (graded_submission_is_closed Examples.school 2000 Examples.alice 3 80 None
              Examples.on_time_submission Examples.essay
              (mkCourse 1 "Geography" (Some 7) 10 false)
              eq_refl eq_refl eq_refl eq_refl (or_intror eq_refl))
    as [_ [d1 [resp [Hrun [_ [Hupd [Hdel Hbulk]]]]]]].
  - unfold Qle; cbn; lia.
  - unfold Qle; cbn; lia.
  - destruct (Hbulk eq_refl 3000 Examples.alice None (or_intror eq_refl))
      as [d2 [resp2 [Hrun2 [_ [_ [_ Hdel2]]]]]].
    destruct (Hdel2 (mkUser 21 "tom" student) eq_refl) as [d3 [Hrun3 _]].
    exists d1, resp, d2, resp2, d3.
    split; [ exact Hrun | ].
    split; [ apply Hupd; reflexivity | ].
    split; [ apply Hdel; reflexivity | ].
    split; [ exact Hrun2 | exact Hrun3 ].
Defined.

(* ------------------------------------------------------------------ *)
(** ** One submission per assignment and student *)

Lemma NoDup_snoc {A} (l : list A) (x : A) : NoDup l -> ~ In x l -> NoDup (l ++ [x]).
Proof.
  intros Hl Hx. induction Hl as [ | y l Hy Hl IH]; cbn.
  - constructor; [ intros [] | constructor ].
  - constructor.
    + intros H. apply in_app_or in H. destruct H as [H | [H | []]];
        [ contradiction | subst; apply Hx; left; reflexivity ].
    + apply IH. intros H. apply Hx. right. exact H.
Qed.

Lemma NoDup_map_filter {A B} (k : A -> B) (p : A -> bool) (l : list A) :
  NoDup (map k l) -> NoDup (map k (filter p l)).
Proof.
  induction l as [ | x l IH]; cbn; intros H; [ constructor | ].
  inversion H as [ | y l' Hx Hl]; subst.
  destruct (p x); cbn; [ constructor | ]; auto.
  intros Hin. apply Hx. apply in_map_iff in Hin. destruct Hin as [z [Hz Hin]].
  apply filter_In in Hin. rewrite <- Hz. apply in_map. apply Hin.
Qed.

(** Two rows of a list with the same key are the same row when the keys of
    the list are pairwise distinct. *)
Lemma NoDup_map_inj {A B} (k : A -> B) (l : list A) (x y : A) :
  NoDup (map k l) -> In x l -> In y l -> k x = k y -> x = y.
Proof.
  induction l as [ | z l IH]; cbn; intros Hn Hx Hy E; [ contradiction | ].
  inversion Hn as [ | w l' Hz Hl]; subst.
  destruct Hx as [-> | Hx]; destruct Hy as [-> | Hy]; auto.
  - exfalso. apply Hz. rewrite E. apply in_map. exact Hy.
  - exfalso. apply Hz. rewrite <- E. apply in_map. exact Hx.
Qed.

Lemma handin_gives_pair (l l0 : list submission) :
  map submission_handin l = map submission_handin l0 ->
  map submission_pair l = map submission_pair l0.
Proof.
  revert l0. induction l as [ | s l IH]; intros [ | s0 l0] H; cbn in H;
    try discriminate; [ reflexivity | ].
  injection H as _ Ha Hst _ _ _ _ Hl.
  cbn. unfold submission_pair at 1 3. rewrite Ha, Hst, (IH l0 Hl). reflexivity.
Qed.

Lemma resubmit_pair id c f l now s :
  submission_pair (resubmit id c f l now s) = submission_pair s.
Proof. unfold resubmit. destruct (s_id s =? id); reflexivity. Qed.

Lemma stamp_grade_pair id g fb now grader s :
  submission_pair (stamp_grade id g fb now grader s) = submission_pair s.
Proof. unfold stamp_grade. destruct (s_id s =? id); reflexivity. Qed.

(** X5. The controllers keep "at most one submission per assignment and
    student": if it holds before a hand-in, an update, a grading, a bulk
    grading or a deletion, it holds in the store the operation returns. *)
Theorem one_submission_per_pair_is_kept (d d1 : db) :
  one_submission_per_pair d ->
  (forall now u aid content file_path row,
     submitAssignmentController d now u aid content file_path = Ok (d1, row) ->
     one_submission_per_pair d1)
  /\ (forall now u id content file_path row,
        updateSubmissionController d now u id content file_path = Ok (d1, row) ->
        one_submission_per_pair d1)
  /\ (forall now u id grade feedback resp,
        gradeSubmissionController d now u id grade feedback = Ok (d1, resp) ->
        one_submission_per_pair d1)
  /\ (forall now u aid grades resp,
        bulkGradeSubmissionsController d now u aid grades = Ok (d1, resp) ->
        one_submission_per_pair d1)
  /\ (forall u id,
        deleteSubmissionController d u id = Ok d1 ->
        one_submission_per_pair d1).
Proof.
  unfold one_submission_per_pair. intros Hinv.
  split; [ | split; [ | split; [ | split ] ] ].
  - intros now u aid content file_path row H.
    unfold submitAssignmentController in H.
    apply bind_ok in H. destruct H as [[a c] [_ H]].
    ok_skip H.
    apply bind_ok in H. destruct H as [x [Hdup H]]. apply throw_if_ok in Hdup.
    ok_skip H. injection H as <- <-. cbn [submissions set_submissions].
    rewrite map_app. cbn [map]. apply NoDup_snoc; [ exact Hinv | ].
    intros Hin. apply in_map_iff in Hin. destruct Hin as [s [Hs Hin]].
    unfold submission_pair in Hs. cbn in Hs. injection Hs as Ha Hst.
    apply Z.ltb_ge in Hdup.
    assert (In s (filter (fun s => (s_assignment_id s =? aid) && (s_student_id s =? u_id u))
                         (submissions d))) as Hf.
    { apply filter_In. split; [ exact Hin | ]. rewrite Ha, Hst, !Z.eqb_refl. reflexivity. }
    destruct (filter _ (submissions d)); [ contradiction | cbn in Hdup; lia ].
  - intros now u id content file_path row H.
    unfold updateSubmissionController in H.
    apply bind_ok in H. destruct H as [r [_ H]]. do 3 ok_skip H.
    injection H as <- _. cbn [submissions set_submissions].
    rewrite map_map. erewrite map_ext; [ exact Hinv | ].
    intros s. apply resubmit_pair.
  - intros now u id grade feedback resp H.
    unfold gradeSubmissionController in H.
    ok_step H r. do 2 ok_skip H. ok_step H final.
    injection H as <- _. cbn [submissions set_submissions].
    rewrite map_map. erewrite map_ext; [ exact Hinv | ].
    intros s. apply stamp_grade_pair.
  - intros now u aid grades resp H.
    destruct (bulk_grading_rows d now u aid grades d1 resp H) as [Hh _].
    rewrite (handin_gives_pair _ _ Hh). exact Hinv.
  - intros u id H. unfold deleteSubmissionController in H.
    apply bind_ok in H. destruct H as [r [_ H]]. ok_skip H.
    injection H as <-. cbn [submissions set_submissions].
    apply NoDup_map_filter. exact Hinv.
Qed.

(** The example store has one submission per pair, and still has after a new
    student has handed in assignment 1. *)
Lemma one_submission_per_pair_is_kept_witness :
  exists d1 row,
    submitAssignmentController Examples.school 2000 (mkUser 22 "uma" student) 1
                               (Some "essay") None = Ok (d1, row)
    /\ one_submission_per_pair Examples.school
    /\ one_submission_per_pair d1.
Proof.
  assert (H0 : one_submission_per_pair Examples.school).
  { unfold one_submission_per_pair. cbn.
    repeat constructor; cbn; intuition discriminate. }
  eexists. eexists. split; [ reflexivity | ]. split; [ exact H0 | ].
  exact (proj1 (one_submission_per_pair_is_kept Examples.school _ H0)
               2000 (mkUser 22 "uma" student) 1 (Some "essay") None _ eq_refl).
Defined.

(** X6. A student's deletion of an ungraded submission removes the rows with
    that id and no other row; with one submission per pair the student then
    has no submission for that assignment, and a new hand-in is not refused
    as a duplicate. *)
Theorem deleted_submission_can_be_handed_in_again (d d1 : db) (u : user) (id : Z) :
  deleteSubmissionController d u id = Ok d1 ->
  (forall s, In s (submissions d1) <-> In s (submissions d) /\ s_id s <> id)
  /\ assignments d1 = assignments d
  /\ exists s,
       In s (submissions d) /\ s_id s = id /\ s_student_id s = u_id u
       /\ s_grade s = None
       /\ (one_submission_per_pair d ->
           hasUserSubmitted d1 (s_assignment_id s) (u_id u) = false
           /\ forall now content file_path,
                submitAssignmentController d1 now u (s_assignment_id s) content file_path
                <> Throw (AppError "You have already submitted this assignment" CONFLICT)).
Proof.
  intros H. unfold deleteSubmissionController in H.
  apply bind_ok in H. destruct H as [[s a] [Hr H]].
  apply bind_ok in H. destruct H as [x [Hg H]]. apply throw_if_graded in Hg.
  injection H as <-. cbn [submissions set_submissions assignments fst] in *.
  split; [ | split; [ reflexivity | ] ].
  - intros x0. rewrite filter_In, negb_true_iff, Z.eqb_neq. reflexivity.
  - match type of Hr with
    | orNotFound ?X _ = _ => destruct X as [r0 | ] eqn:E; cbn in Hr; [ | discriminate ]
    end.
    injection Hr as ->. apply first_row_in in E.
    apply in_flat_map in E. destruct E as [s' [Hs E]].
    apply in_map_iff in E. destruct E as [a' [Epair _]]. injection Epair as -> _.
    apply filter_In in Hs. destruct Hs as [Hs Hp].
    apply andb_prop in Hp. destruct Hp as [Hid Hst].
    apply Z.eqb_eq in Hid. apply Z.eqb_eq in Hst.
    exists s. split; [ exact Hs | ]. split; [ exact Hid | ]. split; [ exact Hst | ].
    split; [ exact Hg | ].
    intros Hinv.
    assert (Hnone : filter (fun x => (s_assignment_id x =? s_assignment_id s)
                                     && (s_student_id x =? u_id u))
                           (filter (fun x => negb (s_id x =? id)) (submissions d)) = []).
    { destruct (filter _ (filter _ (submissions d))) as [ | y l] eqn:Ef;
        [ reflexivity | exfalso ].
      assert (In y (y :: l)) as Hy by (left; reflexivity).
      rewrite <- Ef in Hy. apply filter_In in Hy. destruct Hy as [Hy Hpy].
      apply filter_In in Hy. destruct Hy as [Hy Hny].
      apply andb_prop in Hpy. destruct Hpy as [Hya Hyst].
      apply Z.eqb_eq in Hya. apply Z.eqb_eq in Hyst.
      apply negb_true_iff, Z.eqb_neq in Hny.
      assert (y = s); [ | subst; contradiction ].
      unfold one_submission_per_pair in Hinv.
      apply (NoDup_map_inj submission_pair (submissions d)); try assumption.
      unfold submission_pair. rewrite Hya, Hyst, Hst. reflexivity. }
    split.
    + unfold hasUserSubmitted. cbn [submissions set_submissions]. rewrite Hnone. reflexivity.
    + intros now content file_path Hc.
      unfold submitAssignmentController in Hc.
      cbn [submissions set_submissions] in Hc. rewrite Hnone in Hc.
      destruct (assignmentWithCourse _ _) as [[a0 c0] | ]; cbn in Hc; [ | discriminate ].
      destruct (is_true _ && negb _); cbn in Hc; [ discriminate | ].
      destruct (falsy_string content && falsy_string file_path); cbn in Hc; discriminate.
Qed.

(** sam deletes his ungraded submission 2 and may hand in assignment 2
    again. *)
Lemma deleted_submission_can_be_handed_in_again_witness :
  exists d1,
    deleteSubmissionController Examples.school Examples.sam 2 = Ok d1
    /\ submissions d1 = [Examples.late_submission; Examples.on_time_submission]
    /\ hasUserSubmitted d1 2 20 = false.
Proof.
  eexists. split; [ reflexivity | ]. split; [ reflexivity | ].
  destruct (deleted_submission_can_be_handed_in_again Examples.school _ Examples.sam 2
              eq_refl) as [_ [_ [s [Hs [Hid [_ [_ Hagain]]]]]]].
  assert (s = Examples.early_submission) as ->.
  { cbn in Hs. destruct Hs as [<- | [<- | [<- | []]]]; cbn in Hid;
      try discriminate; reflexivity. }
  apply Hagain. unfold one_submission_per_pair. cbn.
  repeat constructor; cbn; intuition discriminate.
Defined.

(* ------------------------------------------------------------------ *)
(** ** Submissions and their assignments *)

Lemma assignmentWithCourse_in (d : db) (aid : Z) (a : assignment) (c : course) :
  assignmentWithCourse d aid = Some (a, c) -> In a (assignments d) /\ a_id a = aid.
Proof.
  intros H. split; [ | apply (assignmentWithCourse_id d aid a c H) ].
  unfold assignmentWithCourse in H. apply first_row_in in H. apply filter_In in H.
  destruct H as [H _]. unfold assignments_courses in H.
  apply in_flat_map in H. destruct H as [a' [Ha H]].
  apply in_map_iff in H. destruct H as [lc [E _]]. injection E as -> _. exact Ha.
Qed.

Lemma apply_assignment_update_id id b a :
  a_id (apply_assignment_update id b a) = a_id a.
Proof. unfold apply_assignment_update. destruct (a_id a =? id); reflexivity. Qed.

Lemma handin_assignment (l l0 : list submission) (s : submission) :
  map submission_handin l = map submission_handin l0 -> In s l ->
  exists s0, In s0 l0 /\ s_assignment_id s0 = s_assignment_id s.
Proof.
  intros E Hs. apply (in_map submission_handin) in Hs. rewrite E in Hs.
  apply in_map_iff in Hs. destruct Hs as [s0 [E0 Hs0]].
  exists s0. split; [ exact Hs0 | ].
  unfold submission_handin in E0. injection E0 as _ Ha _ _ _ _ _. exact Ha.
Qed.

(** X7. [deleteAssignmentController] refuses to delete an assignment that
    has submissions (409), and a deletion that it answers removes an
    assignment without submissions.  Each of the eight controllers of
    assignments and submissions (creation, update and deletion of an
    assignment; hand-in, update, grading, bulk grading and deletion of a
    submission) keeps "every submission answers an assignment of the
    store".  This is not so of every controller: [deleteLessonController]
    deletes the assignments of the lesson without looking at their
    submissions, which stay in a store without foreign keys, and it takes
    the invariant away. *)
Theorem submissions_keep_their_assignment (d d1 : db) :
  (forall u id a c,
     assignmentWithCourse d id = Some (a, c) ->
     u_role u = admin \/ u_id u = c_instructor_id c ->
     (exists s, In s (submissions d) /\ s_assignment_id s = id) ->
     deleteAssignmentController d u id
     = Throw (AppError "Cannot delete assignment that has submissions" CONFLICT))
  /\ (forall u id,
        deleteAssignmentController d u id = Ok d1 ->
        (forall s, In s (submissions d) -> s_assignment_id s <> id)
        /\ (forall a, In a (assignments d1) <-> In a (assignments d) /\ a_id a <> id)
        /\ submissions d1 = submissions d)
  /\ (submissions_have_assignments d ->
      (forall u id, deleteAssignmentController d u id = Ok d1 ->
                    submissions_have_assignments d1)
      /\ (forall now u id b row,
            updateAssignmentController d now u id b = Ok (d1, row) ->
            submissions_have_assignments d1)
      /\ (forall now u b row,
            createAssignmentController d now u b = Ok (d1, row) ->
            submissions_have_assignments d1)
      /\ (forall now u aid content file_path row,
            submitAssignmentController d now u aid content file_path = Ok (d1, row) ->
            submissions_have_assignments d1)
      /\ (forall now u id content file_path row,
            updateSubmissionController d now u id content file_path = Ok (d1, row) ->
            submissions_have_assignments d1)
      /\ (forall now u id grade feedback resp,
            gradeSubmissionController d now u id grade feedback = Ok (d1, resp) ->
            submissions_have_assignments d1)
      /\ (forall now u aid grades resp,
            bulkGradeSubmissionsController d now u aid grades = Ok (d1, resp) ->
            submissions_have_assignments d1)
      /\ (forall u id, deleteSubmissionController d u id = Ok d1 ->
                       submissions_have_assignments d1))
  /\ (forall u id,
        deleteLessonController d u id = Ok d1 ->
        submissions d1 = submissions d
        /\ (forall a, In a (assignments d1)
                      <-> In a (assignments d) /\ a_lesson_id a <> id))
  /\ ~ (forall d0 d2 u id,
          submissions_have_assignments d0 ->
          deleteLessonController d0 u id = Ok d2 ->
          submissions_have_assignments d2).
Proof.
  assert (Hdel : forall u id,
             deleteAssignmentController d u id = Ok d1 ->
             (forall s, In s (submissions d) -> s_assignment_id s <> id)
             /\ (forall a, In a (assignments d1) <-> In a (assignments d) /\ a_id a <> id)
             /\ submissions d1 = submissions d).
  { intros u id H. unfold deleteAssignmentController in H.
    apply bind_ok in H. destruct H as [ac [_ H]]. ok_skip H.
    apply bind_ok in H. destruct H as [x [Hc H]]. apply throw_if_ok in Hc.
    injection H as <-. cbn [assignments submissions set_assignments].
    split; [ | split; [ | reflexivity ] ].
    - intros s Hs E. apply Z.ltb_ge in Hc.
      assert (In s (filter (fun s => s_assignment_id s =? id) (submissions d))) as Hf
        by (apply filter_In; split; [ exact Hs | apply Z.eqb_eq; exact E ]).
      destruct (filter _ (submissions d)); [ contradiction | cbn in Hc; lia ].
    - intros a. rewrite filter_In, negb_true_iff, Z.eqb_neq. reflexivity. }
  split; [ | split; [ exact Hdel | split; [ | split ] ] ].
  - intros u id a c Hac Hu [s [Hs E]]. unfold deleteAssignmentController.
    rewrite Hac. cbn [orNotFound bind snd].
    assert (requireOwnerOrAdmin u (c_instructor_id c) "Access denied" = Ok tt) as ->.
    { destruct Hu as [Hu | Hu];
        [ apply requireOwnerOrAdmin_admin | apply requireOwnerOrAdmin_owner ]; assumption. }
    cbn [bind].
    assert ((0 <? Z.of_nat (List.length
               (filter (fun s => s_assignment_id s =? id) (submissions d)))) = true) as ->.
    { apply Z.ltb_lt.
      assert (In s (filter (fun s => s_assignment_id s =? id) (submissions d))) as Hf
        by (apply filter_In; split; [ exact Hs | apply Z.eqb_eq; exact E ]).
      destruct (filter _ (submissions d)); [ contradiction | cbn; lia ]. }
    reflexivity.
  - intros Hinv. unfold submissions_have_assignments in *.
    split; [ | split; [ | split; [ | split; [ | split; [ | split; [ | split ] ] ] ] ] ].
    + intros u id H s Hs. destruct (Hdel u id H) as [Hno [Hrows Hsub]].
      rewrite Hsub in Hs. destruct (Hinv s Hs) as [a [Ha E]].
      exists a. split; [ | exact E ].
      apply Hrows. split; [ exact Ha | ]. rewrite E. apply Hno. exact Hs.
    + intros now u id b row H s Hs. unfold updateAssignmentController in H.
      apply bind_ok in H. destruct H as [ac [_ H]]. do 3 ok_skip H.
      injection H as <- _. cbn [assignments submissions set_assignments] in *.
      destruct (Hinv s Hs) as [a [Ha E]].
      exists (apply_assignment_update id b a).
      split; [ apply in_map; exact Ha | rewrite apply_assignment_update_id; exact E ].
    + intros now u b row H s Hs. unfold createAssignmentController in H.
      apply bind_ok in H. destruct H as [lc [_ H]]. do 2 ok_skip H.
      injection H as <- _. cbn [assignments submissions set_assignments] in *.
      destruct (Hinv s Hs) as [a [Ha E]].
      exists a. split; [ apply in_or_app; left; exact Ha | exact E ].
    + intros now u aid content file_path row H s Hs.
      unfold submitAssignmentController in H.
      apply bind_ok in H. destruct H as [[a c] [Hac H]]. do 3 ok_skip H.
      injection H as <- <-. cbn [assignments submissions set_submissions] in *.
      apply in_app_or in Hs. destruct Hs as [Hs | [<- | []]]; [ apply Hinv; exact Hs | ].
      cbn [s_assignment_id].
      destruct (assignmentWithCourse d aid) as [ac | ] eqn:E; cbn in Hac; [ | discriminate ].
      injection Hac as ->. exists a. apply (assignmentWithCourse_in d aid a c E).
    + intros now u id content file_path row H s Hs.
      unfold updateSubmissionController in H.
      apply bind_ok in H. destruct H as [r [_ H]]. do 3 ok_skip H.
      injection H as <- _. cbn [assignments submissions set_submissions] in *.
      apply in_map_iff in Hs. destruct Hs as [s0 [<- Hs0]].
      rewrite resubmit_assignment. apply Hinv. exact Hs0.
    + intros now u id grade feedback resp H s Hs.
      unfold gradeSubmissionController in H.
      ok_step H r. do 2 ok_skip H. ok_step H final.
      injection H as <- _. cbn [assignments submissions set_submissions] in *.
      apply in_map_iff in Hs. destruct Hs as [s0 [<- Hs0]].
      rewrite stamp_grade_assignment. apply Hinv. exact Hs0.
    + intros now u aid grades resp H s Hs.
      destruct (bulk_grading_rows _ _ _ _ _ _ _ H) as [Hh [_ [Ha _]]].
      destruct (handin_assignment _ _ s Hh Hs) as [s0 [Hs0 E0]].
      rewrite Ha, <- E0. apply Hinv. exact Hs0.
    + intros u id H s Hs. unfold deleteSubmissionController in H.
      apply bind_ok in H. destruct H as [r [_ H]]. ok_skip H.
      injection H as <-. cbn [assignments submissions set_submissions] in *.
      apply filter_In in Hs. apply Hinv. apply Hs.
  - intros u id H. unfold deleteLessonController in H.
    apply bind_ok in H. destruct H as [lc [_ H]]. ok_skip H.
    injection H as <-. cbn [deleteLesson fst assignments submissions].
    split; [ reflexivity | ].
    intros a. rewrite filter_In, negb_true_iff, Z.eqb_neq. reflexivity.
  - intros H.
    assert (Hinv : submissions_have_assignments Examples.school).
    { intros s Hs. cbn in Hs.
      destruct Hs as [<- | [<- | [<- | []]]];
        [ exists Examples.essay | exists Examples.strict_essay | exists Examples.essay ];
        cbn; auto. }
    destruct (H Examples.school _ Examples.alice 1 Hinv eq_refl
                Examples.late_submission (or_introl eq_refl)) as [a [Ha _]].
    cbn in Ha. exact Ha.
Qed.

(** Assignment 1 has submissions and alice cannot delete it. *)
Lemma submissions_keep_their_assignment_witness :
  deleteAssignmentController Examples.school Examples.alice 1
  = Throw (AppError "Cannot delete assignment that has submissions" CONFLICT).
Proof.
  apply (proj1 (submissions_keep_their_assignment Examples.school Examples.school)
               Examples.alice 1 Examples.essay (mkCourse 1 "Geography" (Some 7) 10 false)
               eq_refl (or_intror eq_refl)).
  exists Examples.late_submission. split; [ left; reflexivity | reflexivity ].
Defined.

(* ------------------------------------------------------------------ *)
(** ** Quizzes: creation, update, deletion *)

Lemma next_quiz_id_fresh (qs : list quiz) (q : quiz) : In q qs -> q_id q < next_quiz_id qs.
Proof.
  unfold next_quiz_id. induction qs as [ | x qs IH]; cbn [fold_right In]; intros H;
    [ contradiction | ].
  destruct H as [-> | H]; [ lia | ]. specialize (IH H). lia.
Qed.

Lemma filter_filter {A} (p r : A -> bool) (l : list A) :
  filter p (filter r l) = filter (fun x => r x && p x) l.
Proof.
  induction l as [ | x l IH]; cbn; [ reflexivity | ].
  destruct (r x); cbn; [ destruct (p x); rewrite IH; reflexivity | exact IH ].
Qed.

Lemma filter_none {A} (p : A -> bool) (l : list A) :
  (forall x, In x l -> p x = false) -> filter p l = [].
Proof.
  induction l as [ | x l IH]; cbn; intros H; [ reflexivity | ].
  rewrite (H x (or_introl eq_refl)). apply IH. intros y Hy. apply H. right. exact Hy.
Qed.

(** The quiz join of a store with one more quiz. *)
Lemma quizzes_courses_snoc (d : db) (q : quiz) :
  quizzes_courses (set_quizzes d (quizzes d ++ [q]))
  = quizzes_courses d
    ++ map (fun lc => (q, snd lc))
           (filter (fun lc => l_id (fst lc) =? q_lesson_id q) (lessons_courses d)).
Proof.
  unfold quizzes_courses.
  change (lessons_courses (set_quizzes d (quizzes d ++ [q]))) with (lessons_courses d).
  change (quizzes (set_quizzes d (quizzes d ++ [q]))) with (quizzes d ++ [q]).
  rewrite flat_map_app. cbn [flat_map]. rewrite app_nil_r. reflexivity.
Qed.

Lemma quizzes_courses_quiz (d : db) (q : quiz) (c : course) :
  In (q, c) (quizzes_courses d) -> In q (quizzes d).
Proof.
  unfold quizzes_courses. intros H. apply in_flat_map in H. destruct H as [q' [Hq H]].
  apply in_map_iff in H. destruct H as [lc [E _]]. injection E as -> _. exact Hq.
Qed.

(** X8. A quiz that has been created is read back: [getQuizById] returns it
    with the trimmed question and answer under the course of its lesson, the
    lesson lists it, and the quizzes that were there are looked up and
    listed as before. *)
Theorem created_quiz_is_read_back (d : db) (u : user) (b : quiz_body) (d1 : db) (q : quiz) :
  createQuizController d u b = Ok (d1, q) ->
  exists l c,
    getLessonWithCourseInfo d (qb_lesson_id b) = Some (l, c)
    /\ getQuizById d1 (q_id q) = Some (q, c)
    /\ q_lesson_id q = qb_lesson_id b
    /\ q_question q = trim (qb_question b)
    /\ q_answer q = trim (qb_answer b)
    /\ is_quiz_type (q_quiz_type q) = true
    /\ (q_options q <> None -> q_quiz_type q = "multiple_choice")
    /\ (forall id, id <> q_id q -> getQuizById d1 id = getQuizById d id)
    /\ (forall lessonId x,
          In x (getQuizzesByLesson d1 lessonId)
          <-> In x (getQuizzesByLesson d lessonId)
              \/ (x = q /\ lessonId = qb_lesson_id b)).
Proof.
  intros H. unfold createQuizController in H.
  apply bind_ok in H. destruct H as [[l c] [Hlc H]]. ok_skip H.
  apply bind_ok in H. destruct H as [x [Htype H]]. apply throw_if_ok in Htype.
  ok_skip H. injection H as <- <-.
  destruct (getLessonWithCourseInfo d (qb_lesson_id b)) as [lc | ] eqn:El;
    cbn in Hlc; [ | discriminate ].
  injection Hlc as ->.
  set (q := mkQuiz _ _ _ _ _ _ _).
  assert (Hfresh : forall x, In x (quizzes d) -> (q_id x =? q_id q) = false).
  { intros x0 Hx. apply Z.eqb_neq. pose proof (next_quiz_id_fresh _ _ Hx).
    unfold q. cbn [q_id]. lia. }
  exists l, c. split; [ reflexivity | ]. split.
  - unfold getQuizById. rewrite quizzes_courses_snoc, filter_app.
    rewrite filter_none.
    + cbn [app]. rewrite filter_map_comm, first_row_map, filter_filter.
      unfold getLessonWithCourseInfo in El.
      cbn [fst snd q_id q_lesson_id q] in *. rewrite Z.eqb_refl.
      cbn [andb]. rewrite El. reflexivity.
    + intros [x0 c0] Hx. cbn [fst snd].
      rewrite (Hfresh x0 (quizzes_courses_quiz d x0 c0 Hx)). reflexivity.
  - split; [ reflexivity | ]. split; [ reflexivity | ]. split; [ reflexivity | ].
    split; [ apply negb_false_iff in Htype; exact Htype | ].
    split.
    + cbn [q_options q_quiz_type q].
      destruct (String.eqb_spec (match qb_quiz_type b with Some t => t | None => "text" end)
                                "multiple_choice") as [E | E];
        [ intros _; exact E | intros Hn; contradiction ].
    + split.
      * intros id Hid. unfold getQuizById. rewrite quizzes_courses_snoc, filter_app.
        rewrite (filter_none _ (map _ _)); [ rewrite app_nil_r; reflexivity | ].
        intros [x0 c0] Hx. apply in_map_iff in Hx. destruct Hx as [lc0 [E _]].
        injection E as <- _. cbn [fst snd].
        assert ((q_id q =? id) = false) as -> by (apply Z.eqb_neq; congruence).
        reflexivity.
      * intros lessonId x0. rewrite !getQuizzesByLesson_in.
        cbn [quizzes set_quizzes]. rewrite in_app_iff. cbn [In].
        split.
        -- intros [[Hx | [Hx | []]] Hl]; [ left; auto | right; subst; auto ].
        -- intros [[Hx Hl] | [-> ->]]; [ auto | split; [ right; left | ]; reflexivity ].
Qed.

(** alice adds a text quiz to lesson 2; it is read back trimmed. *)
Lemma created_quiz_is_read_back_witness :
  exists d1 q c,
    createQuizController Examples.school Examples.alice
      (mkQuizBody 2 "  Which river is the longest? " " Nile " None None None) = Ok (d1, q)
    /\ getQuizById d1 (q_id q) = Some (q, c)
    /\ q_question q = "Which river is the longest?"
    /\ q_answer q = "Nile".
Proof.
  destruct (createQuizController Examples.school Examples.alice
              (mkQuizBody 2 "  Which river is the longest? " " Nile " None None None))
    as [[d1 q] | e] eqn:E; [ | discriminate E ].
  destruct (created_quiz_is_read_back _ _ _ _ _ E)
    as [l [c [_ [Hget [_ [Hq [Ha _]]]]]]].
  exists d1, q, c. split; [ reflexivity | ]. split; [ exact Hget | ].
  split; [ rewrite Hq | rewrite Ha ]; reflexivity.
Defined.

Lemma apply_quiz_update_id id b q : q_id (apply_quiz_update id b q) = q_id q.
Proof. unfold apply_quiz_update. destruct (q_id q =? id); reflexivity. Qed.

(** X9. An update of a quiz that mentions [options] without restating
    [quiz_type: 'multiple_choice'] stores no options at all; the other
    quizzes are left as they are.  A multiple choice quiz updated in this
    way accepts every non-empty answer at validation. *)
Theorem options_update_without_type_erases_options (d : db) (u : user) (id : Z)
    (b : quiz_update) (d1 : db) (row : option quiz) :
  updateQuizController d u id b = Ok (d1, row) ->
  qu_options b <> Absent ->
  qu_quiz_type b <> Some "multiple_choice" ->
  (exists q1, row = Some q1 /\ q_id q1 = id /\ q_options q1 = None)
  /\ (forall q1, In q1 (quizzes d1) -> q_id q1 = id -> q_options q1 = None)
  /\ (forall q, In q (quizzes d) -> q_id q <> id -> In q (quizzes d1))
  /\ (forall q1 answers,
        In q1 (quizzes d1) -> q_id q1 = id -> q_quiz_type q1 = "multiple_choice" ->
        is_nullish (lookup_answer answers id) = false ->
        lookup_answer answers id <> JStr EmptyString ->
        validateQuizAnswer answers q1 = Ok []).
Proof.
  intros H Hopt Htype. unfold updateQuizController in H.
  apply bind_ok in H. destruct H as [[q0 c0] [Hq H]]. do 2 ok_skip H.
  injection H as <- <-. cbn [quizzes set_quizzes].
  assert (Herased : forall q, q_id q = id -> q_options (apply_quiz_update id b q) = None).
  { intros q Hid. unfold apply_quiz_update.
    assert ((q_id q =? id) = true) as -> by (apply Z.eqb_eq; exact Hid).
    cbn [q_options].
    destruct (qu_options b) as [ | | options]; [ contradiction | reflexivity | ].
    destruct (qu_quiz_type b) as [t | ]; [ | reflexivity ].
    destruct (String.eqb_spec t "multiple_choice") as [-> | _];
      [ contradiction | reflexivity ]. }
  assert (Hrows : forall q1, In q1 (map (apply_quiz_update id b) (quizzes d)) ->
                             q_id q1 = id -> q_options q1 = None).
  { intros q1 Hin Hid. apply in_map_iff in Hin. destruct Hin as [q [<- _]].
    rewrite apply_quiz_update_id in Hid. apply Herased. exact Hid. }
  split; [ | split; [ exact Hrows | split ] ].
  - destruct (getQuizById d id) as [qc | ] eqn:Eq; cbn in Hq; [ | discriminate ].
    injection Hq as ->. unfold getQuizById in Eq. apply first_row_in in Eq.
    apply filter_In in Eq. destruct Eq as [Hin Hp].
    apply andb_prop in Hp. destruct Hp as [Hp _]. apply Z.eqb_eq in Hp.
    apply quizzes_courses_quiz in Hin.
    assert (In (apply_quiz_update id b q0)
               (filter (fun q => q_id q =? id) (map (apply_quiz_update id b) (quizzes d))))
      as Hmem.
    { apply filter_In. split; [ apply in_map; exact Hin | ].
      rewrite apply_quiz_update_id. apply Z.eqb_eq. exact Hp. }
    destruct (first_row_of_member _ _ Hmem) as [q1 [Hfirst Hq1]].
    apply filter_In in Hq1. destruct Hq1 as [Hq1 Hid1]. apply Z.eqb_eq in Hid1.
    exists q1. split; [ exact Hfirst | ]. split; [ exact Hid1 | apply Hrows; assumption ].
  - intros q Hin Hid. apply in_map_iff. exists q. split; [ | exact Hin ].
    unfold apply_quiz_update.
    assert ((q_id q =? id) = false) as -> by (apply Z.eqb_neq; exact Hid). reflexivity.
  - intros q1 answers Hin Hid Hmc Hnn Hne.
    unfold validateQuizAnswer. rewrite Hid, Hnn, Hmc, (Hrows q1 Hin Hid).
    assert (strict_eq (lookup_answer answers id) (JStr EmptyString) = false) as ->.
    { destruct (lookup_answer answers id) as [ | | x | n | s | v]; try reflexivity.
      cbn. destruct (String.eqb_spec s EmptyString); [ subst; contradiction | reflexivity ]. }
    reflexivity.
Qed.

(** alice replaces the options of the capital quiz without restating its
    type: the options are gone and "Berlin" now passes validation. *)
Lemma options_update_without_type_erases_options_witness :
  exists d1 q1,
    updateQuizController Examples.school Examples.alice 1
      (mkQuizUpdate None None (Value [JStr "Paris"; JStr "Bern"]) None None)
    = Ok (d1, Some q1)
    /\ q_options q1 = None
    /\ validateQuizAnswer [(1, JStr "Berlin")] q1 = Ok [].
Proof.
  destruct (updateQuizController Examples.school Examples.alice 1
              (mkQuizUpdate None None (Value [JStr "Paris"; JStr "Bern"]) None None))
    as [[d1 row] | e] eqn:E; [ | discriminate E ].
  destruct (options_update_without_type_erases_options _ _ _ _ _ _ E)
    as [[q1 [Hrow [Hid Hopt]]] [_ [_ Hval]]]; [ discriminate | discriminate | ].
  exists d1, q1. subst row. split; [ reflexivity | ]. split; [ exact Hopt | ].
  assert (Hin : In q1 (quizzes d1)).
  { cbn in E. injection E as <- <-. left. reflexivity. }
  apply (Hval q1 [(1, JStr "Berlin")] Hin Hid); [ | reflexivity | discriminate ].
  cbn in E. injection E as _ <-. reflexivity.
Defined.

(** [ORDER BY id] gives a list sorted by id, so that removing rows before or
    after the sort is the same. *)

Lemma insert_by_id_least (q : quiz) (l : list quiz) :
  Forall (id_le q) l -> insert_by_id q l = q :: l.
Proof.
  destruct l as [ | h t]; cbn; intros H; [ reflexivity | ].
  apply Forall_inv in H. unfold id_le in H.
  assert ((q_id q <=? q_id h) = true) as -> by (apply Z.leb_le; exact H). reflexivity.
Qed.

Lemma insert_by_id_sorted (q : quiz) (l : list quiz) :
  StronglySorted id_le l -> StronglySorted id_le (insert_by_id q l).
Proof.
  induction 1 as [ | h t Hs IH Hall]; cbn.
  - constructor; constructor.
  - destruct (q_id q <=? q_id h) eqn:E.
    + apply Z.leb_le in E. constructor; [ constructor; assumption | ].
      constructor; [ exact E | ].
      eapply Forall_impl; [ | exact Hall ]. unfold id_le. intros x Hx. lia.
    + apply Z.leb_gt in E. constructor; [ exact IH | ].
      apply Forall_forall. intros x Hx. apply insert_by_id_in in Hx.
      destruct Hx as [-> | Hx]; [ unfold id_le; lia | ].
      rewrite Forall_forall in Hall. apply Hall. exact Hx.
Qed.

Lemma order_by_id_sorted (l : list quiz) : StronglySorted id_le (order_by_id l).
Proof.
  unfold order_by_id. induction l as [ | h t IH]; cbn;
    [ constructor | apply insert_by_id_sorted; exact IH ].
Qed.

Lemma filter_sorted (p : quiz -> bool) (l : list quiz) :
  StronglySorted id_le l -> StronglySorted id_le (filter p l).
Proof.
  induction 1 as [ | h t Hs IH Hall]; cbn; [ constructor | ].
  destruct (p h); [ | exact IH ]. constructor; [ exact IH | ].
  apply Forall_forall. intros x Hx. apply filter_In in Hx.
  rewrite Forall_forall in Hall. apply Hall. apply Hx.
Qed.

Lemma insert_by_id_filter (p : quiz -> bool) (q : quiz) (l : list quiz) :
  StronglySorted id_le l ->
  filter p (insert_by_id q l)
  = if p q then insert_by_id q (filter p l) else filter p l.
Proof.
  induction 1 as [ | h t Hs IH Hall]; cbn [insert_by_id].
  - cbn. destruct (p q); reflexivity.
  - destruct (q_id q <=? q_id h) eqn:E.
    + cbn [filter]. destruct (p q); [ | reflexivity ].
      symmetry. apply insert_by_id_least.
      apply Z.leb_le in E.
      assert (Forall (id_le q) (h :: t)) as Hq.
      { constructor; [ exact E | ].
        eapply Forall_impl; [ | exact Hall ]. unfold id_le. intros x Hx. lia. }
      apply Forall_forall. intros x Hx.
      assert (In x (filter p (h :: t))) as Hx' by exact Hx.
      apply filter_In in Hx'. rewrite Forall_forall in Hq. apply Hq. apply Hx'.
    + cbn [filter]. destruct (p h) eqn:Eh.
      * rewrite IH. destruct (p q); [ | reflexivity ].
        cbn [insert_by_id]. rewrite E. reflexivity.
      * exact IH.
Qed.

Lemma order_by_id_filter (p : quiz -> bool) (l : list quiz) :
  filter p (order_by_id l) = order_by_id (filter p l).
Proof.
  induction l as [ | h t IH]; [ reflexivity | ].
  change (order_by_id (h :: t)) with (insert_by_id h (order_by_id t)).
  rewrite insert_by_id_filter by apply order_by_id_sorted.
  cbn [filter]. destruct (p h); [ | exact IH ].
  change (order_by_id (h :: filter p t)) with (insert_by_id h (order_by_id (filter p t))).
  rewrite IH. reflexivity.
Qed.

Lemma filter_all {A} (p : A -> bool) (l : list A) :
  (forall x, In x l -> p x = true) -> filter p l = l.
Proof.
  induction l as [ | x l IH]; cbn; intros H; [ reflexivity | ].
  rewrite (H x (or_introl eq_refl)). f_equal. apply IH. intros y Hy. apply H. right. exact Hy.
Qed.

Lemma quizzes_courses_filter (d : db) (p : quiz -> bool) :
  quizzes_courses (set_quizzes d (filter p (quizzes d)))
  = filter (fun qc => p (fst qc)) (quizzes_courses d).
Proof.
  unfold quizzes_courses.
  change (lessons_courses (set_quizzes d (filter p (quizzes d)))) with (lessons_courses d).
  cbn [quizzes set_quizzes].
  induction (quizzes d) as [ | q qs IH]; [ reflexivity | ].
  cbn [filter flat_map]. rewrite filter_app, <- IH.
  rewrite filter_map_comm. cbn [fst].
  destruct (p q); cbn [flat_map].
  - rewrite (filter_all (fun _ : lesson * course => true)) by reflexivity. reflexivity.
  - rewrite (filter_none (fun _ : lesson * course => false)) by reflexivity. reflexivity.
Qed.

Lemma submitQuizAnswers_results (d : db) (lessonId : Z) (answers : answers_map) :
  results (submitQuizAnswers d lessonId answers)
  = map (result_of answers) (getQuizzesByLesson d lessonId).
Proof.
  unfold submitQuizAnswers, getQuizzesByLesson. rewrite grade_loop. reflexivity.
Qed.

(** X10. After a quiz has been deleted it cannot be looked up any more, the
    other quizzes are looked up as before, every lesson lists its remaining
    quizzes in the order they had, and a grading of a lesson has the results
    it had before without the one of the deleted quiz. *)
Theorem deleted_quiz_leaves_the_rest (d : db) (u : user) (id : Z) (d1 : db) :
  deleteQuizController d u id = Ok d1 ->
  getQuizById d1 id = None
  /\ (forall id', id' <> id -> getQuizById d1 id' = getQuizById d id')
  /\ (forall lessonId,
        getQuizzesByLesson d1 lessonId
        = filter (fun q => negb (q_id q =? id)) (getQuizzesByLesson d lessonId))
  /\ (forall lessonId answers,
        results (submitQuizAnswers d1 lessonId answers)
        = filter (fun r => negb (qr_quizId r =? id))
                 (results (submitQuizAnswers d lessonId answers))).
Proof.
  intros H. unfold deleteQuizController in H.
  apply bind_ok in H. destruct H as [[q0 c0] [_ H]]. ok_skip H. injection H as <-.
  assert (Hlist : forall lessonId,
             getQuizzesByLesson
               (set_quizzes d (filter (fun q => negb (q_id q =? id)) (quizzes d))) lessonId
             = filter (fun q => negb (q_id q =? id)) (getQuizzesByLesson d lessonId)).
  { intros lessonId. unfold getQuizzesByLesson. cbn [quizzes set_quizzes].
    rewrite order_by_id_filter, !filter_filter. f_equal.
    apply filter_ext. intros q. apply andb_comm. }
  split; [ | split; [ | split; [ exact Hlist | ] ] ].
  - unfold getQuizById. rewrite quizzes_courses_filter, filter_filter.
    rewrite filter_none; [ reflexivity | ].
    intros [q c] _. cbn [fst snd]. destruct (q_id q =? id); reflexivity.
  - intros id' Hne. unfold getQuizById. rewrite quizzes_courses_filter, filter_filter.
    f_equal. apply filter_ext. intros [q c]. cbn [fst snd].
    destruct (q_id q =? id') eqn:E; [ | apply andb_false_r ].
    apply Z.eqb_eq in E.
    assert ((q_id q =? id) = false) as -> by (apply Z.eqb_neq; lia). reflexivity.
  - intros lessonId answers. rewrite !submitQuizAnswers_results, Hlist.
    rewrite filter_map_comm. reflexivity.
Qed.

(** alice deletes the capital quiz. *)
Lemma deleted_quiz_leaves_the_rest_witness :
  exists d1,
    deleteQuizController Examples.school Examples.alice 1 = Ok d1
    /\ getQuizById d1 1 = None.
Proof.
  destruct (deleteQuizController Examples.school Examples.alice 1) as [d1 | e] eqn:E;
    [ | discriminate E ].
  exists d1. split; [ reflexivity | ].
  exact (proj1 (deleted_quiz_leaves_the_rest _ _ _ _ E)).
Defined.

Lemma requireOwnerOrAdmin_inv (u : user) (i : Z) (msg : string) (x : unit) :
  requireOwnerOrAdmin u i msg = Ok x -> u_role u = admin \/ i = u_id u.
Proof.
  unfold requireOwnerOrAdmin. intros H. apply throw_if_ok in H.
  apply andb_false_iff in H. destruct H as [H | H].
  - left. apply negb_false_iff in H. destruct (u_role u); cbn in H; congruence.
  - right. apply negb_false_iff in H. apply Z.eqb_eq. exact H.
Qed.

Lemma getQuizById_snoc_new (d : db) (q : quiz) (l : lesson) (c : course) :
  (forall x, In x (quizzes d) -> q_id x <> q_id q) ->
  getLessonWithCourseInfo d (q_lesson_id q) = Some (l, c) ->
  getQuizById (set_quizzes d (quizzes d ++ [q])) (q_id q) = Some (q, c).
Proof.
  intros Hfresh El. unfold getQuizById. rewrite quizzes_courses_snoc, filter_app.
  rewrite filter_none.
  - cbn [app]. rewrite filter_map_comm, first_row_map, filter_filter.
    unfold getLessonWithCourseInfo in El. cbn [fst snd]. rewrite Z.eqb_refl.
    cbn [andb]. rewrite El. reflexivity.
  - intros [x0 c0] Hx. cbn [fst snd].
    assert ((q_id x0 =? q_id q) = false) as ->; [ | reflexivity ].
    apply Z.eqb_neq. apply Hfresh. exact (quizzes_courses_quiz d x0 c0 Hx).
Qed.

Lemma getQuizById_snoc_old (d : db) (q : quiz) (id : Z) :
  id <> q_id q ->
  getQuizById (set_quizzes d (quizzes d ++ [q])) id = getQuizById d id.
Proof.
  intros Hid. unfold getQuizById. rewrite quizzes_courses_snoc, filter_app.
  rewrite (filter_none _ (map _ _)); [ rewrite app_nil_r; reflexivity | ].
  intros [x0 c0] Hx. apply in_map_iff in Hx. destruct Hx as [lc0 [E _]].
  injection E as <- _. cbn [fst snd].
  assert ((q_id q =? id) = false) as -> by (apply Z.eqb_neq; congruence).
  reflexivity.
Qed.

(** With a primary key, the rows with the id of [q] are [q] alone. *)
Lemma quizzes_by_id (qs : list quiz) (q : quiz) :
  distinct (map q_id qs) = true -> In q qs ->
  filter (fun x => q_id x =? q_id q) qs = [q].
Proof.
  induction qs as [ | x qs IH]; cbn; intros Hd Hin; [ contradiction | ].
  apply andb_prop in Hd. destruct Hd as [Hx Hd].
  apply negb_true_iff in Hx. apply existsb_eqb_in in Hx.
  destruct Hin as [-> | Hin].
  - rewrite Z.eqb_refl. f_equal. apply filter_none. intros y Hy.
    apply Z.eqb_neq. intros E. apply Hx. rewrite <- E. apply in_map. exact Hy.
  - destruct (q_id x =? q_id q) eqn:E.
    + exfalso. apply Z.eqb_eq in E. apply Hx. rewrite E. apply in_map. exact Hin.
    + apply IH; assumption.
Qed.

Lemma distinct_snoc (ids : list Z) (i : Z) :
  distinct ids = true -> ~ In i ids -> distinct (ids ++ [i]) = true.
Proof.
  induction ids as [ | x ids IH]; cbn; intros Hd Hi; [ reflexivity | ].
  apply andb_prop in Hd. destruct Hd as [Hx Hd].
  apply andb_true_intro. split; [ | apply IH; [ exact Hd | tauto ] ].
  apply negb_true_iff. apply negb_true_iff in Hx.
  rewrite existsb_app, Hx. cbn. rewrite orb_false_r. apply Z.eqb_neq. tauto.
Qed.

(** X11. A quiz is copied only by an admin or by the instructor of both the
    course of the quiz and the course of the target lesson.  With ids as
    primary key, exactly one row is added: it has a new id, the target
    lesson and the question, answer, options, type and points of the
    original; the ids stay pairwise distinct, the copy is read back under
    the target course and the original is read back as before. *)
Theorem duplicate_adds_one_copy (d : db) (u : user) (id targetLessonId : Z)
    (d1 : db) (row : option quiz) :
  distinct (map q_id (quizzes d)) = true ->
  duplicateQuizController d u id targetLessonId = Ok (d1, row) ->
  exists q0 c0 l ct q1,
    getQuizById d id = Some (q0, c0)
    /\ getLessonWithCourseInfo d targetLessonId = Some (l, ct)
    /\ (u_role u = admin
        \/ (c_instructor_id c0 = u_id u /\ c_instructor_id ct = u_id u))
    /\ row = Some q1
    /\ quizzes d1 = quizzes d ++ [q1]
    /\ q1 = mkQuiz (q_id q1) targetLessonId (q_question q0) (q_answer q0)
                   (q_options q0) (q_quiz_type q0) (q_points q0)
    /\ (forall x, In x (quizzes d) -> q_id x < q_id q1)
    /\ distinct (map q_id (quizzes d1)) = true
    /\ getQuizById d1 (q_id q1) = Some (q1, ct)
    /\ getQuizById d1 id = Some (q0, c0).
Proof.
  intros Hkey H. unfold duplicateQuizController in H.
  apply bind_ok in H. destruct H as [[q0 c0] [Hq H]].
  apply bind_ok in H. destruct H as [x0 [Hown0 H]].
  apply bind_ok in H. destruct H as [[l ct] [Hl H]].
  apply bind_ok in H. destruct H as [x1 [Hown1 H]].
  apply requireOwnerOrAdmin_inv in Hown0, Hown1. cbn [snd] in Hown0, Hown1.
  destruct (getQuizById d id) as [qc | ] eqn:Eq; cbn in Hq; [ | discriminate ].
  injection Hq as ->.
  destruct (getLessonWithCourseInfo d targetLessonId) as [lc | ] eqn:El;
    cbn in Hl; [ | discriminate ].
  injection Hl as ->.
  assert (Hin : In q0 (quizzes d) /\ q_id q0 = id).
  { unfold getQuizById in Eq. apply first_row_in in Eq. apply filter_In in Eq.
    destruct Eq as [Hin Hp]. apply andb_prop in Hp. destruct Hp as [Hp _].
    apply Z.eqb_eq in Hp. split; [ exact (quizzes_courses_quiz _ _ _ Hin) | exact Hp ]. }
  destruct Hin as [Hin Hid].
  unfold duplicateQuiz in H. rewrite <- Hid in H.
  rewrite (quizzes_by_id _ _ Hkey Hin) in H. cbn [fold_left app first_row] in H.
  rewrite app_nil_r in H. injection H as <- <-.
  set (q1 := mkQuiz _ _ _ _ _ _ _).
  assert (Hfresh : forall x, In x (quizzes d) -> q_id x < q_id q1).
  { intros x Hx. exact (next_quiz_id_fresh _ _ Hx). }
  exists q0, c0, l, ct, q1.
  split; [ reflexivity | ]. split; [ reflexivity | ].
  split; [ destruct Hown0 as [Ha | Ho]; [ left; exact Ha | ];
           destruct Hown1 as [Ha | Ho1]; [ left; exact Ha | right; split; assumption ] | ].
  split; [ reflexivity | ]. split; [ reflexivity | ]. split; [ reflexivity | ].
  split; [ exact Hfresh | ].
  split; [ | split ].
  - cbn [quizzes set_quizzes]. rewrite map_app. apply distinct_snoc; [ exact Hkey | ].
    cbn [map]. intros Hi. apply in_map_iff in Hi. destruct Hi as [x [Ex Hx]].
    specialize (Hfresh x Hx). lia.
  - apply (getQuizById_snoc_new d q1 l ct); [ | exact El ].
    intros x Hx. specialize (Hfresh x Hx). lia.
  - rewrite getQuizById_snoc_old; [ rewrite <- Hid; rewrite Hid; exact Eq | ].
    specialize (Hfresh q0 Hin). lia.
Qed.

(** alice copies the capital quiz of lesson 1 to lesson 2. *)
Lemma duplicate_adds_one_copy_witness :
  exists d1 q1 ct,
    duplicateQuizController Examples.school Examples.alice 1 2 = Ok (d1, Some q1)
    /\ getQuizById d1 (q_id q1) = Some (q1, ct)
    /\ q_lesson_id q1 = 2.
Proof.
  destruct (duplicateQuizController Examples.school Examples.alice 1 2)
    as [[d1 row] | e] eqn:E; [ | discriminate E ].
  destruct (duplicate_adds_one_copy Examples.school Examples.alice 1 2 d1 row eq_refl E)
    as [q0 [c0 [l [ct [q1 [_ [_ [_ [Hrow [_ [Hq1 [_ [_ [Hget _]]]]]]]]]]]]]].
  exists d1, q1, ct. subst row. split; [ reflexivity | ]. split; [ exact Hget | ].
  rewrite Hq1. reflexivity.
Defined.

(* ------------------------------------------------------------------ *)
(** ** Quiz grading: what a graded answer set looks like *)

Lemma validateQuizAnswers_clear (answers : answers_map) (qs : list quiz) (errors : list string) :
  validateQuizAnswers answers qs = Ok errors -> errors = [] ->
  forall q, In q qs -> validateQuizAnswer answers q = Ok [].
Proof.
  revert errors. induction qs as [ | x qs IH]; cbn [validateQuizAnswers];
    intros errors H He q Hin; [ contradiction | ].
  apply bind_ok in H. destruct H as [e1 [H1 H]].
  apply bind_ok in H. destruct H as [e2 [H2 H]]. injection H as H. rewrite He in H.
  apply app_eq_nil in H. destruct H as [-> ->].
  destruct Hin as [<- | Hin]; [ exact H1 | exact (IH [] H2 eq_refl q Hin) ].
Qed.

(** What [validateQuizAnswer] has checked when it pushes no error. *)
Lemma validateQuizAnswer_clear (answers : answers_map) (q : quiz) :
  validateQuizAnswer answers q = Ok [] ->
  let v := lookup_answer answers (q_id q) in
  is_nullish v = false
  /\ v <> JStr EmptyString
  /\ (q_quiz_type q = "true_false" ->
      v = JStr "true" \/ v = JStr "false" \/ v = JBool true \/ v = JBool false)
  /\ (q_quiz_type q = "text" -> exists s, v = JStr s /\ trim s <> EmptyString).
Proof.
  unfold validateQuizAnswer. intros H. cbv zeta in *.
  set (v := lookup_answer answers (q_id q)) in *.
  destruct (is_nullish v) eqn:En; [ discriminate | ].
  destruct (strict_eq v (JStr EmptyString)) eqn:Ee; [ discriminate | ].
  cbn [orb] in H.
  split; [ reflexivity | ]. split.
  { intros E. rewrite E in Ee. discriminate. }
  split.
  - intros Ht. rewrite Ht in H. cbn [String.eqb Ascii.eqb Bool.eqb] in H.
    change (String.eqb "true_false" "true_false") with true in H. cbv iota in H.
    destruct v as [ | | [ | ] | n | s | o ]; try (cbn in H; discriminate); auto.
    unfold js_includes in H. cbn [existsb strict_eq] in H.
    destruct (String.eqb_spec "true" s) as [<- | _]; [ auto | ].
    destruct (String.eqb_spec "false" s) as [<- | _]; [ auto | ].
    cbn in H. discriminate.
  - intros Ht. rewrite Ht in H.
    change (String.eqb "text" "true_false") with false in H.
    change (String.eqb "text" "multiple_choice") with false in H.
    change (String.eqb "text" "text") with true in H. cbv iota in H.
    destruct v as [ | | x | n | s | o ]; try discriminate.
    exists s. split; [ reflexivity | ].
    intros E. rewrite E in H. discriminate.
Qed.

(** X12. When [submitQuizAnswersController] returns a grading, the caller is
    a student, the lesson has at least one quiz, and the validation has
    let every answer through: no result has an answer that is [undefined],
    [null] or the empty string, a true/false quiz was answered with one of
    ['true', 'false', true, false], a text quiz with a string that is not
    blank.  The results are those of the quizzes of the lesson, in order,
    and each result carries its full points or none. *)
Theorem graded_answer_sets_are_complete (d : db) (u : user) (lesson_id : Z)
    (answers : option answers_map) (g : grading) :
  submitQuizAnswersController d u lesson_id answers = Ok g ->
  u_role u = student
  /\ exists a,
       answers = Some a
       /\ g = submitQuizAnswers d lesson_id a
       /\ 1 <= totalQuestions g
       /\ totalQuestions g = Z.of_nat (List.length (results g))
       /\ map qr_quizId (results g) = map q_id (getQuizzesByLesson d lesson_id)
       /\ (forall r, In r (results g) ->
             is_nullish (qr_userAnswer r) = false
             /\ qr_userAnswer r <> JStr EmptyString
             /\ qr_points r = (if qr_isCorrect r then qr_maxPoints r else 0))
       /\ (forall q, In q (getQuizzesByLesson d lesson_id) ->
             let v := lookup_answer a (q_id q) in
             (q_quiz_type q = "true_false" ->
              v = JStr "true" \/ v = JStr "false" \/ v = JBool true \/ v = JBool false)
             /\ (q_quiz_type q = "text" -> exists s, v = JStr s /\ trim s <> EmptyString)).
Proof.
  intros H. unfold submitQuizAnswersController in H.
  apply bind_ok in H. destruct H as [x [Hrole H]]. apply throw_if_ok in Hrole.
  ok_skip H. destruct answers as [a | ]; [ | discriminate ].
  apply bind_ok in H. destruct H as [x0 [Hlen H]]. apply throw_if_ok in Hlen.
  apply bind_ok in H. destruct H as [errors [Hval H]].
  apply bind_ok in H. destruct H as [x1 [Herr H]]. apply throw_if_ok in Herr.
  injection H as <-.
  assert (He : errors = []).
  { destruct errors; [ reflexivity | discriminate ]. }
  pose proof (validateQuizAnswers_clear _ _ _ Hval He) as Hclear.
  split.
  { apply negb_false_iff in Hrole. destruct (u_role u); cbn in Hrole; congruence. }
  exists a. split; [ reflexivity | ]. split; [ reflexivity | ].
  pose proof (submitQuizAnswers_results d lesson_id a) as Hres.
  assert (Htq : totalQuestions (submitQuizAnswers d lesson_id a)
                = Z.of_nat (List.length (getQuizzesByLesson d lesson_id))).
  { unfold submitQuizAnswers, getQuizzesByLesson. rewrite grade_loop. reflexivity. }
  split; [ rewrite Htq; apply Z.eqb_neq in Hlen; lia | ].
  split; [ rewrite Htq, Hres, length_map; reflexivity | ].
  split; [ rewrite Hres, map_map; reflexivity | ].
  split.
  - intros r Hr. rewrite Hres in Hr. apply in_map_iff in Hr.
    destruct Hr as [q [<- Hq]]. cbn [result_of qr_userAnswer qr_points qr_isCorrect qr_maxPoints].
    destruct (validateQuizAnswer_clear _ _ (Hclear q Hq)) as [Hn [Hne _]].
    split; [ exact Hn | ]. split; [ exact Hne | reflexivity ].
  - intros q Hq v. destruct (validateQuizAnswer_clear _ _ (Hclear q Hq)) as [_ [_ Hrest]].
    exact Hrest.
Qed.

(** sam answers the capital quiz. *)
Lemma graded_answer_sets_are_complete_witness :
  exists g,
    submitQuizAnswersController Examples.school Examples.sam 1
      (Some [(1, JStr "Paris")]) = Ok g
    /\ 1 <= totalQuestions g.
Proof.
  destruct (submitQuizAnswersController Examples.school Examples.sam 1
              (Some [(1, JStr "Paris")])) as [g | e] eqn:E; [ | discriminate E ].
  exists g. split; [ reflexivity | ].
  destruct (graded_answer_sets_are_complete _ _ _ _ _ E) as [_ [a [_ [_ [H _]]]]].
  exact H.
Defined.

Lemma sum_points_nonneg (qs : list quiz) :
  (forall q, In q qs -> 0 <= q_points q) -> 0 <= sum_points qs.
Proof.
  induction qs as [ | q qs IH]; cbn; intros H; [ lia | ].
  pose proof (H q (or_introl eq_refl)).
  assert (0 <= sum_points qs) by (apply IH; intros x Hx; apply H; right; exact Hx).
  unfold sum_points in *. lia.
Qed.

Lemma sum_points_filter_le (p : quiz -> bool) (qs : list quiz) :
  (forall q, In q qs -> 0 <= q_points q) ->
  0 <= sum_points (filter p qs) <= sum_points qs.
Proof.
  induction qs as [ | q qs IH]; cbn; intros H; [ lia | ].
  pose proof (H q (or_introl eq_refl)).
  assert (0 <= sum_points (filter p qs) <= sum_points qs)
    by (apply IH; intros x Hx; apply H; right; exact Hx).
  destruct (p q); cbn; unfold sum_points in *; lia.
Qed.

(** The score depends on the ratio of the points only. *)
Lemma compute_score_ratio (e t e' t' : Z) :
  0 < t -> 0 < t' -> e * t' = e' * t -> compute_score e t = compute_score e' t'.
Proof.
  intros Ht Ht' H. unfold compute_score.
  assert ((0 <? t) = true) as -> by (apply Z.ltb_lt; exact Ht).
  assert ((0 <? t') = true) as -> by (apply Z.ltb_lt; exact Ht').
  rewrite !js_div_positive by assumption.
  rewrite (fl_comp (inject_Z e / inject_Z t) (inject_Z e' / inject_Z t'));
    [ reflexivity | ].
  assert (~ (inject_Z t == 0)%Q) as Hnz by (unfold Qeq; cbn; lia).
  assert (~ (inject_Z t' == 0)%Q) as Hnz' by (unfold Qeq; cbn; lia).
  assert (E : (inject_Z e * inject_Z t' == inject_Z e' * inject_Z t)%Q).
  { rewrite <- !inject_Z_mult, H. reflexivity. }
  apply (Qmult_inj_r _ _ (inject_Z t * inject_Z t')).
  - intros F. apply Qmult_integral in F. tauto.
  - transitivity (inject_Z e * inject_Z t')%Q; [ field; exact Hnz | ].
    rewrite E. field. exact Hnz'.
Qed.

(** X13. When no quiz of the lesson has negative points, the earned points
    lie between 0 and the total.  The score depends on the ratio of the
    earned points to a positive total only: it is the score of any pair of
    points in the same ratio, so 100 when all points are earned, 50 for
    half of them, 0 for none (and for a total of 0), and 57 for 23 points
    of 40, where the binary64 product is just below 57.5. *)
Theorem quiz_score_is_a_percentage (d : db) (lessonId : Z) (answers : answers_map) :
  (forall q, In q (quizzes d) -> q_lesson_id q = lessonId -> 0 <= q_points q) ->
  let g := submitQuizAnswers d lessonId answers in
  0 <= earnedPoints g <= totalPoints g
  /\ (totalPoints g = 0 -> score g = Num 0)
  /\ (forall e t : Z,
        0 < totalPoints g -> 0 < t -> earnedPoints g * t = e * totalPoints g ->
        score g = compute_score e t)
  /\ (0 < totalPoints g ->
      (earnedPoints g = totalPoints g -> score g = Num 100)
      /\ (2 * earnedPoints g = totalPoints g -> score g = Num 50)
      /\ (earnedPoints g = 0 -> score g = Num 0)
      /\ (40 * earnedPoints g = 23 * totalPoints g -> score g = Num 57)).
Proof.
  intros Hpts g. subst g. unfold submitQuizAnswers.
  fold (getQuizzesByLesson d lessonId). rewrite grade_loop.
  cbn [totalPoints earnedPoints score]. rewrite !Z.add_0_l.
  assert (Hq : forall q, In q (getQuizzesByLesson d lessonId) -> 0 <= q_points q).
  { intros q Hq. apply getQuizzesByLesson_in in Hq. destruct Hq as [Hin Hl].
    exact (Hpts q Hin Hl). }
  pose proof (sum_points_filter_le (isCorrect answers) _ Hq) as Hb.
  set (t := sum_points (getQuizzesByLesson d lessonId)) in *.
  set (e := sum_points (filter (isCorrect answers) (getQuizzesByLesson d lessonId))) in *.
  split; [ exact Hb | ].
  split; [ intros Ht; rewrite Ht; reflexivity | ].
  split; [ intros e' t' Ht Ht' H; apply compute_score_ratio; assumption | ].
  intros Ht. repeat split; intros H.
  - rewrite (compute_score_ratio e t 1 1) by lia. vm_compute. reflexivity.
  - rewrite (compute_score_ratio e t 1 2) by lia. vm_compute. reflexivity.
  - rewrite (compute_score_ratio e t 0 1) by lia. vm_compute. reflexivity.
  - rewrite (compute_score_ratio e t 23 40) by lia. vm_compute. reflexivity.
Qed.

(** The score of sam's right answer in lesson 1. *)
Lemma quiz_score_is_a_percentage_witness :
  score (submitQuizAnswers Examples.school 1 [(1, JStr "Paris")]) = Num 100.
Proof.
  destruct (quiz_score_is_a_percentage Examples.school 1 [(1, JStr "Paris")])
    as [_ [_ [_ H]]].
  - intros q Hin _. cbn in Hin.
    repeat (destruct Hin as [<- | Hin]; [ cbn; lia | ]). contradiction.
  - destruct H as [H _]; [ vm_compute; reflexivity | ].
    apply H. reflexivity.
Defined.

(* ------------------------------------------------------------------ *)
(** ** Enrollments: unenrolling, status and progress *)

Lemma isUserEnrolled_in (d : db) (userId courseId : Z) :
  isUserEnrolled d userId courseId = true
  <-> exists e, In e (enrollments d) /\ same_enrollment userId courseId e = true.
Proof.
  unfold isUserEnrolled. fold (same_enrollment userId courseId).
  rewrite Z.ltb_lt. split.
  - intros H. destruct (filter (same_enrollment userId courseId) (enrollments d))
      as [ | e l] eqn:E; [ cbn in H; lia | ].
    exists e. apply filter_In. rewrite E. left. reflexivity.
  - intros [e He]. apply filter_In in He.
    destruct (filter (same_enrollment userId courseId) (enrollments d));
      [ contradiction | cbn; lia ].
Qed.

Lemma getEnrollment_filter (d : db) (p : enrollment -> bool) (userId courseId : Z) :
  getEnrollmentByUserAndCourse (set_enrollments d (filter p (enrollments d))) userId courseId
  = first_row
      (flat_map (fun e =>
         map (fun _ => e) (filter (fun c => c_id c =? e_course_id e) (courses d)))
         (filter (fun e => p e && same_enrollment userId courseId e) (enrollments d))).
Proof.
  unfold getEnrollmentByUserAndCourse. cbn [enrollments courses set_enrollments].
  rewrite filter_filter. reflexivity.
Qed.

(** X14. Unenrolling needs an enrollment and removes the rows of this user
    in this course, and no other row.  Afterwards the user is not enrolled:
    the status says so, a progress write and a second unenrolling are
    refused; the enrollments of every other user and course answer as
    before. *)
Theorem unenrolled_user_is_out (d : db) (u : user) (course_id : Z) (d1 : db) :
  unenrollFromCourse d u course_id = Ok d1 ->
  isUserEnrolled d (u_id u) course_id = true
  /\ enrollments d1
     = filter (fun e => negb (same_enrollment (u_id u) course_id e)) (enrollments d)
  /\ courses d1 = courses d
  /\ isUserEnrolled d1 (u_id u) course_id = false
  /\ getEnrollmentByUserAndCourse d1 (u_id u) course_id = None
  /\ checkEnrollmentStatus d1 u course_id
     = mkEnrollmentStatus course_id (u_id u) false None
  /\ (forall now progress r, updateProgress d1 now u course_id progress <> Ok r)
  /\ unenrollFromCourse d1 u course_id
     = Throw (AppError "You are not enrolled in this course" NOT_FOUND)
  /\ (forall userId courseId,
        userId <> u_id u \/ courseId <> course_id ->
        isUserEnrolled d1 userId courseId = isUserEnrolled d userId courseId
        /\ getEnrollmentByUserAndCourse d1 userId courseId
           = getEnrollmentByUserAndCourse d userId courseId).
Proof.
  intros H. unfold unenrollFromCourse in H.
  apply bind_ok in H. destruct H as [e [He H]].
  change (fst (deleteEnrollment d (u_id u) course_id))
    with (set_enrollments d
            (filter (fun e => negb (same_enrollment (u_id u) course_id e)) (enrollments d)))
    in H.
  injection H as <-.
  destruct (getEnrollmentByUserAndCourse d (u_id u) course_id) as [e0 | ] eqn:E;
    cbn in He; [ | discriminate ].
  injection He as ->.
  destruct (enrollment_found _ _ _ _ E) as [Hin [Hp _]].
  set (d1 := set_enrollments d _).
  assert (Hgone : isUserEnrolled d1 (u_id u) course_id = false).
  { destruct (isUserEnrolled d1 (u_id u) course_id) eqn:E1; [ | reflexivity ].
    apply isUserEnrolled_in in E1. destruct E1 as [x [Hx Hs]].
    unfold d1 in Hx. cbn [enrollments set_enrollments] in Hx.
    apply filter_In in Hx. destruct Hx as [_ Hx]. cbv beta in Hx.
    rewrite Hs in Hx. discriminate. }
  assert (Hnone : getEnrollmentByUserAndCourse d1 (u_id u) course_id = None).
  { unfold d1. rewrite getEnrollment_filter. rewrite filter_none; [ reflexivity | ].
    intros x _. destruct (same_enrollment (u_id u) course_id x); reflexivity. }
  split; [ apply isUserEnrolled_in; exists e; split; assumption | ].
  split; [ reflexivity | ]. split; [ reflexivity | ]. split; [ exact Hgone | ].
  split; [ exact Hnone | ].
  split; [ unfold checkEnrollmentStatus; rewrite Hgone; reflexivity | ].
  split.
  { intros now progress r Hr. unfold updateProgress in Hr. rewrite Hnone in Hr.
    destruct (js_lt progress (NNumber (Num 0)) || js_gt progress (NNumber (Num 100)));
      discriminate. }
  split; [ unfold unenrollFromCourse; rewrite Hnone; reflexivity | ].
  intros userId courseId Hother.
  assert (Hsame : forall x, negb (same_enrollment (u_id u) course_id x)
                            && same_enrollment userId courseId x
                            = same_enrollment userId courseId x).
  { intros x. unfold same_enrollment.
    destruct (e_user_id x =? userId) eqn:E1; [ | apply andb_false_r ].
    destruct (e_course_id x =? courseId) eqn:E2; [ | apply andb_false_r ].
    apply Z.eqb_eq in E1, E2.
    assert ((e_user_id x =? u_id u) && (e_course_id x =? course_id) = false) as ->;
      [ | reflexivity ].
    apply andb_false_iff. rewrite !Z.eqb_neq. lia. }
  split.
  - unfold isUserEnrolled, d1. cbn [enrollments set_enrollments].
    fold (same_enrollment userId courseId). rewrite filter_filter.
    rewrite (filter_ext _ _ Hsame). reflexivity.
  - unfold d1. rewrite getEnrollment_filter. rewrite (filter_ext _ _ Hsame). reflexivity.
Qed.

(** sam leaves the geography course. *)
Lemma unenrolled_user_is_out_witness :
  exists d1,
    unenrollFromCourse Examples.school Examples.sam 1 = Ok d1
    /\ isUserEnrolled d1 20 1 = false.
Proof.
  destruct (unenrollFromCourse Examples.school Examples.sam 1) as [d1 | e] eqn:E;
    [ | discriminate E ].
  exists d1. split; [ reflexivity | ].
  exact (proj1 (proj2 (proj2 (proj2 (unenrolled_user_is_out _ _ _ _ E))))).
Defined.

Lemma write_progress_written userId courseId p b t (e : enrollment) :
  progress_written userId courseId e (write_progress userId courseId p b t e).
Proof.
  unfold progress_written, write_progress. fold (same_enrollment userId courseId e).
  destruct (same_enrollment userId courseId e); cbn; repeat split; congruence.
Qed.

(** X15. A progress write adds and removes no enrollment and changes no
    column of the rows of other users or courses, so that everybody is
    enrolled where they were.  It needs an enrollment of the caller, whose
    row it returns, and it keeps [completed] and [completed_at] together:
    when every completed enrollment had its time and no other had one,
    this is so afterwards. *)
Theorem progress_write_keeps_other_rows (d : db) (now : Z) (u : user) (course_id : Z)
    (progress : numval) (d1 : db) (row : option enrollment) :
  updateProgress d now u course_id progress = Ok (d1, row) ->
  Forall2 (progress_written (u_id u) course_id) (enrollments d) (enrollments d1)
  /\ courses d1 = courses d
  /\ (forall userId courseId,
        isUserEnrolled d1 userId courseId = isUserEnrolled d userId courseId)
  /\ (exists e1, row = Some e1 /\ In e1 (enrollments d1)
                 /\ same_enrollment (u_id u) course_id e1 = true
                 /\ e_progress e1 = sql_param progress)
  /\ (completion_is_stamped d -> completion_is_stamped d1).
Proof.
  intros H. unfold updateProgress in H. ok_skip H.
  apply bind_ok in H. destruct H as [e [He H]]. injection H as <- <-.
  destruct (getEnrollmentByUserAndCourse d (u_id u) course_id) as [e0 | ] eqn:E;
    cbn in He; [ | discriminate ].
  injection He as ->.
  destruct (enrollment_found _ _ _ _ E) as [Hin [Hp _]].
  cbn [enrollments courses set_enrollments].
  set (w := write_progress (u_id u) course_id (sql_param progress)
              (js_ge progress (NNumber (Num 100)))
              (if js_ge progress (NNumber (Num 100)) then Some now else None)).
  assert (Hrel : Forall2 (progress_written (u_id u) course_id)
                         (enrollments d) (map w (enrollments d))).
  { generalize (enrollments d). intros l.
    induction l as [ | x l IH]; cbn;
      [ constructor | constructor; [ apply write_progress_written | exact IH ] ]. }
  split; [ exact Hrel | ]. split; [ reflexivity | ]. split; [ | split ].
  - intros userId courseId. unfold isUserEnrolled. cbn [enrollments set_enrollments].
    rewrite filter_map_comm, length_map.
    do 3 f_equal. apply filter_ext. intros x.
    destruct (write_progress_written (u_id u) course_id (sql_param progress)
                (js_ge progress (NNumber (Num 100)))
                (if js_ge progress (NNumber (Num 100)) then Some now else None) x)
      as [_ [Hu [Hc _]]].
    fold w in Hu, Hc. rewrite Hu, Hc. reflexivity.
  - destruct (first_written (enrollments d) (u_id u) course_id (sql_param progress)
                (js_ge progress (NNumber (Num 100)))
                (if js_ge progress (NNumber (Num 100)) then Some now else None) e Hin Hp)
      as [r [Hrow [Hrin [Hrp [Hprog _]]]]].
    exists r. fold w in Hrow, Hrin. split; [ exact Hrow | ]. auto.
  - intros Hinv e1 He1. apply in_map_iff in He1. destruct He1 as [x [<- Hx]].
    unfold w, write_progress.
    destruct ((e_user_id x =? u_id u) && (e_course_id x =? course_id));
      [ | exact (Hinv x Hx) ].
    cbn [e_completed e_completed_at].
    destruct (js_ge progress (NNumber (Num 100))); split; congruence.
Qed.

(** sam reports half of the geography course. *)
Lemma progress_write_keeps_other_rows_witness :
  exists d1 row,
    updateProgress Examples.school 50 Examples.sam 1 (NNumber (Num 50)) = Ok (d1, row)
    /\ courses d1 = courses Examples.school.
Proof.
  destruct (updateProgress Examples.school 50 Examples.sam 1 (NNumber (Num 50)))
    as [[d1 row] | e] eqn:E; [ | discriminate E ].
  exists d1, row. split; [ reflexivity | ].
  exact (proj1 (proj2 (progress_write_keeps_other_rows _ _ _ _ _ _ _ E))).
Defined.

(** X16. When every enrollment is for a course of the [courses] table, the
    ways of asking whether a user is enrolled agree: the status reports an
    enrollment exactly when [isUserEnrolled] holds, the enrollment it
    reports is a row of this user in this course, and unenrolling succeeds
    exactly then. *)
Theorem enrollment_status_is_consistent (d : db) (u : user) (course_id : Z) :
  enrollments_have_courses d ->
  let st := checkEnrollmentStatus d u course_id in
  (es_isEnrolled st = true <-> es_enrollment st <> None)
  /\ es_enrollment st = getEnrollmentByUserAndCourse d (u_id u) course_id
  /\ (forall e, es_enrollment st = Some e ->
        In e (enrollments d) /\ e_user_id e = u_id u /\ e_course_id e = course_id)
  /\ (es_isEnrolled st = true <-> exists d1, unenrollFromCourse d u course_id = Ok d1)
  /\ (es_isEnrolled st = false ->
      unenrollFromCourse d u course_id
      = Throw (AppError "You are not enrolled in this course" NOT_FOUND)).
Proof.
  intros Hfk st.
  assert (Hiff : isUserEnrolled d (u_id u) course_id = true
                 <-> getEnrollmentByUserAndCourse d (u_id u) course_id <> None).
  { split.
    - intros H. apply isUserEnrolled_in in H. destruct H as [e [He Hp]].
      destruct (Hfk e He) as [c [Hc Hid]].
      destruct (enrollment_lookup d _ _ e c He Hp Hc Hid) as [e' ->]. discriminate.
    - intros H. destruct (getEnrollmentByUserAndCourse d (u_id u) course_id) as [e | ] eqn:E;
        [ | contradiction ].
      destruct (enrollment_found _ _ _ _ E) as [Hin [Hp _]].
      apply isUserEnrolled_in. exists e. split; assumption. }
  assert (Hst : es_enrollment st = getEnrollmentByUserAndCourse d (u_id u) course_id).
  { unfold st, checkEnrollmentStatus. cbn [es_enrollment].
    destruct (isUserEnrolled d (u_id u) course_id) eqn:E; [ reflexivity | ].
    destruct (getEnrollmentByUserAndCourse d (u_id u) course_id) eqn:E1; [ | reflexivity ].
    assert (false = true) by (apply Hiff; discriminate). discriminate. }
  split; [ rewrite Hst; exact Hiff | ]. split; [ exact Hst | ]. split; [ | split ].
  - intros e He. rewrite Hst in He.
    destruct (enrollment_found _ _ _ _ He) as [Hin [Hp _]].
    unfold same_enrollment in Hp. apply andb_prop in Hp. destruct Hp as [H1 H2].
    apply Z.eqb_eq in H1, H2. auto.
  - change (es_isEnrolled st) with (isUserEnrolled d (u_id u) course_id).
    rewrite Hiff. unfold unenrollFromCourse.
    destruct (getEnrollmentByUserAndCourse d (u_id u) course_id); cbn; split.
    + intros _. eexists. reflexivity.
    + intros _. discriminate.
    + intros H. contradiction.
    + intros [d1 H]. discriminate.
  - change (es_isEnrolled st) with (isUserEnrolled d (u_id u) course_id).
    intros H. unfold unenrollFromCourse.
    destruct (getEnrollmentByUserAndCourse d (u_id u) course_id) eqn:E; [ | reflexivity ].
    assert (isUserEnrolled d (u_id u) course_id = true) by (apply Hiff; discriminate).
    congruence.
Qed.

(** The status of sam in the geography course of [Examples.school]. *)
Lemma enrollment_status_is_consistent_witness :
  es_enrollment (checkEnrollmentStatus Examples.school Examples.sam 1)
  = getEnrollmentByUserAndCourse Examples.school 20 1.
Proof.
  refine (proj1 (proj2 (enrollment_status_is_consistent Examples.school Examples.sam 1 _))).
  intros e He. cbn in He. destruct He as [<- | []].
  exists (mkCourse 1 "Geography" (Some 7) 10 false). split; [ left | ]; reflexivity.
Defined.

(* ------------------------------------------------------------------ *)
(** ** Categories: bulk deletion and merge *)

Lemma count_positive {A} (p : A -> bool) (l : list A) :
  (0 <? Z.of_nat (List.length (filter p l))) = existsb p l.
Proof.
  induction l as [ | x l IH]; cbn [filter existsb]; [ reflexivity | ].
  destruct (p x); [ cbn [List.length orb]; apply Z.ltb_lt; lia | exact IH ].
Qed.

(** [deleteCategory] by cases on the courses of the category. *)
Lemma deleteCategory_cases (d : db) (id : Z) :
  (blocked d id = true /\
   exists msg, deleteCategory d id = Throw (Error msg)
               /\ includes "associated courses" msg = true)
  \/ (blocked d id = false /\
      exists r, deleteCategory d id
                = Ok (set_categories d (filter (fun k => negb (cat_id k =? id)) (categories d)),
                      r)).
Proof.
  unfold deleteCategory, blocked.
  change (fun c : course =>
            match c_category_id c with
            | Some k => k =? id
            | None => false
            end && negb (c_is_deleted c))
    with (active_in_category id).
  rewrite count_positive.
  destruct (existsb (active_in_category id) (courses d)); [ left | right ];
    (split; [ reflexivity | ]); cbn; eexists; [ split; [ reflexivity | ] | reflexivity ].
  apply associated_courses_message.
Qed.

Lemma without_categories_snoc (ids : list Z) (id : Z) (ks : list category) :
  filter (fun k => negb (cat_id k =? id)) (without_categories ids ks)
  = without_categories (ids ++ [id]) ks.
Proof.
  unfold without_categories. rewrite filter_filter. apply filter_ext. intros k.
  rewrite existsb_app. cbn [existsb]. rewrite orb_false_r, negb_orb. reflexivity.
Qed.

Lemma bulk_delete_loop (d : db) (ids done : list Z)
    (results : list bulk_deleted) (errors : list bulk_delete_error) :
  fold_left bulk_delete_step ids
    (set_categories d (without_categories done (categories d)), results, errors)
  = (set_categories d
       (without_categories (done ++ filter (fun id => negb (blocked d id)) ids)
                           (categories d)),
     results ++ map (fun id => mkBulkDeleted id "deleted")
                    (filter (fun id => negb (blocked d id)) ids),
     errors ++ map (fun id => mkBulkDeleteError id "Category has associated courses")
                   (filter (blocked d) ids)).
Proof.
  revert done results errors.
  induction ids as [ | id ids IH]; intros done results errors.
  - cbn. rewrite !app_nil_r. reflexivity.
  - cbn [fold_left filter]. unfold bulk_delete_step at 2.
    destruct (deleteCategory_cases
                (set_categories d (without_categories done (categories d))) id)
      as [[Hb [msg [-> Hmsg]]] | [Hb [r ->]]];
      change (blocked (set_categories d (without_categories done (categories d))) id)
        with (blocked d id) in Hb; rewrite Hb; cbn [negb fst exn_message map].
    + rewrite Hmsg. rewrite IH. rewrite <- !app_assoc. reflexivity.
    + cbn [categories set_categories]. rewrite without_categories_snoc.
      change (set_categories (set_categories d (without_categories done (categories d)))
                (without_categories (done ++ [id]) (categories d)))
        with (set_categories d (without_categories (done ++ [id]) (categories d))).
      rewrite IH. rewrite <- !app_assoc. reflexivity.
Qed.

(** X17. Bulk deletion of categories reports as deleted exactly the ids
    that no non-deleted course uses, whether a category with the id exists
    or not, and as errors the others, each with the text
    'Category has associated courses'; the counts add up to the number of
    ids.  The categories with a reported id are gone, the others and the
    courses are left as they are. *)
Theorem bulk_delete_reports_unused_ids (d : db) (ids : list Z) (d1 : db)
    (resp : bulk_delete_response) :
  bulkDeleteCategories d (Some ids) = Ok (d1, resp) ->
  let free := filter (fun id => negb (blocked d id)) ids in
  bdr_deleted resp = map (fun id => mkBulkDeleted id "deleted") free
  /\ bdr_errors resp
     = map (fun id => mkBulkDeleteError id "Category has associated courses")
           (filter (blocked d) ids)
  /\ bdr_deletedCount resp + bdr_errorCount resp = Z.of_nat (List.length ids)
  /\ d1 = set_categories d (without_categories free (categories d))
  /\ (forall id, In id free -> getCategoryById d1 id = None)
  /\ (forall id, ~ In id free -> getCategoryById d1 id = getCategoryById d id).
Proof.
  intros H free. unfold bulkDeleteCategories in H. ok_skip H.
  assert (Hd : d = set_categories d (without_categories [] (categories d))).
  { unfold without_categories. cbn [existsb negb].
    rewrite filter_all by reflexivity. destruct d; reflexivity. }
  rewrite Hd in H at 1. rewrite bulk_delete_loop in H. cbn [app] in H.
  injection H as <- <-. fold free.
  cbn [bdr_deleted bdr_errors bdr_deletedCount bdr_errorCount].
  split; [ reflexivity | ]. split; [ reflexivity | ].
  split; [ rewrite !length_map; unfold free;
           pose proof (filter_split_length (blocked d) ids); lia | ].
  split; [ reflexivity | ].
  split.
  - intros id Hin. unfold getCategoryById, without_categories.
    cbn [categories set_categories]. rewrite filter_filter, filter_none; [ reflexivity | ].
    intros k _. destruct (cat_id k =? id) eqn:E; [ | apply andb_false_r ].
    apply Z.eqb_eq in E. rewrite andb_true_r. apply negb_false_iff.
    apply existsb_exists. exists id. split; [ exact Hin | apply Z.eqb_eq; exact E ].
  - intros id Hout. unfold getCategoryById, without_categories.
    cbn [categories set_categories]. rewrite filter_filter. f_equal.
    apply filter_ext. intros k. destruct (cat_id k =? id) eqn:E; [ | apply andb_false_r ].
    apply Z.eqb_eq in E. rewrite andb_true_r. apply negb_true_iff.
    destruct (existsb (Z.eqb (cat_id k)) free) eqn:Ex; [ | reflexivity ].
    apply existsb_exists in Ex. destruct Ex as [x [Hx Hxe]]. apply Z.eqb_eq in Hxe.
    exfalso. apply Hout. congruence.
Qed.

(** Three ids: the category of the courses, an unused one and one that
    does not exist. *)
Lemma bulk_delete_reports_unused_ids_witness :
  exists d1 resp,
    bulkDeleteCategories Examples.school (Some [7; 8; 99]) = Ok (d1, resp)
    /\ bdr_deleted resp = [mkBulkDeleted 8 "deleted"; mkBulkDeleted 99 "deleted"]
    /\ bdr_errors resp = [mkBulkDeleteError 7 "Category has associated courses"].
Proof.
  destruct (bulkDeleteCategories Examples.school (Some [7; 8; 99])) as [[d1 resp] | e] eqn:E;
    [ | discriminate E ].
  destruct (bulk_delete_reports_unused_ids _ _ _ _ E) as [Hd [He _]].
  exists d1, resp. split; [ reflexivity | ]. split; [ rewrite Hd | rewrite He ]; reflexivity.
Defined.

(** Every turn of the merge on a source other than the target fails. *)
Lemma merge_loop (target : Z) (sources : list Z) (d : db) (moved : Z)
    (errors : list merge_error) :
  fold_left (merge_step target) sources (d, moved, errors)
  = (d, moved,
     errors ++ map (fun source => mkMergeError source "query is not defined")
                   (merge_candidates sources target)).
Proof.
  revert errors. induction sources as [ | s sources IH]; intros errors; cbn [fold_left].
  - cbn. rewrite app_nil_r. reflexivity.
  - unfold merge_step at 2, merge_candidates. cbn [filter].
    destruct (s =? target); cbn [negb].
    + apply IH.
    + cbn [unbound_query bind exn_message]. rewrite IH, <- app_assoc. reflexivity.
Qed.

(** X18. A merge never moves a course and never deletes a category: the
    controller calls [query], which its module does not import, so each
    turn on a source other than the target ends in the [catch] with
    [query is not defined].  A merge that is answered leaves the store as
    it was and reports no moved course, one error per source id other than
    the target, in the order of the request, and as merged categories the
    number of source ids equal to the target. *)
Theorem merge_changes_nothing (d : db) (sources : list Z) (target : Z)
    (d1 : db) (resp : merge_response) :
  mergeCategories d (Some sources) (Some target) = Ok (d1, resp) ->
  d1 = d
  /\ getCategoryById d target = Some (mr_targetCategory resp)
  /\ mr_movedCourses resp = 0
  /\ mr_errors resp
     = map (fun source => mkMergeError source "query is not defined")
           (merge_candidates sources target)
  /\ mr_mergedCategories resp
     = Z.of_nat (List.length (filter (fun source => source =? target) sources))
  /\ (forall source, In source sources -> source <> target ->
        In (mkMergeError source "query is not defined") (mr_errors resp)
        /\ getCategoryById d1 source = getCategoryById d source)
  /\ courses d1 = courses d
  /\ categories d1 = categories d.
Proof.
  intros H. unfold mergeCategories in H. do 2 ok_skip H.
  apply bind_ok in H. destruct H as [k [Hk H]].
  destruct (getCategoryById d target) as [k0 | ] eqn:Et; cbn in Hk; [ | discriminate ].
  injection Hk as ->.
  rewrite merge_loop in H. cbn [app] in H. injection H as <- <-.
  cbn [mr_targetCategory mr_errors mr_mergedCategories mr_movedCourses].
  split; [ reflexivity | ]. split; [ reflexivity | ]. split; [ reflexivity | ].
  split; [ reflexivity | ].
  split.
  - rewrite length_map. unfold merge_candidates.
    pose proof (filter_split_length (fun source => source =? target) sources) as E.
    lia.
  - split; [ | split; reflexivity ].
    intros source Hin Hne. split; [ | reflexivity ].
    apply in_map_iff. exists source. split; [ reflexivity | ].
    apply filter_In. split; [ exact Hin | ].
    apply negb_true_iff. apply Z.eqb_neq. exact Hne.
Qed.

(** The two categories of [Examples.school] merged into the second: no
    course moves, category 7 stays, and one error is reported. *)
Lemma merge_changes_nothing_witness :
  exists resp,
    mergeCategories Examples.school (Some [7; 8]) (Some 8) = Ok (Examples.school, resp)
    /\ mr_errors resp = [mkMergeError 7 "query is not defined"]
    /\ mr_movedCourses resp = 0
    /\ mr_mergedCategories resp = 1.
Proof.
  destruct (mergeCategories Examples.school (Some [7; 8]) (Some 8)) as [[d1 resp] | e] eqn:E;
    [ | discriminate E ].
  destruct (merge_changes_nothing _ _ _ _ _ E)
    as [Hd [_ [Hm [He [Hn _]]]]].
  exists resp. rewrite <- Hd. split; [ reflexivity | ].
  split; [ exact He | ]. split; [ exact Hm | exact Hn ].
Defined.

(* ------------------------------------------------------------------ *)
(** ** Assignments: a new assignment is open *)

Lemma next_assignment_id_fresh (xs : list assignment) (a : assignment) :
  In a xs -> a_id a < next_assignment_id xs.
Proof.
  unfold next_assignment_id. induction xs as [ | x xs IH]; cbn [fold_right In]; intros H;
    [ contradiction | ].
  destruct H as [-> | H]; [ lia | ]. specialize (IH H). lia.
Qed.

Lemma assignments_courses_snoc (d : db) (a : assignment) :
  assignments_courses (set_assignments d (assignments d ++ [a]))
  = assignments_courses d
    ++ map (fun lc => (a, snd lc))
           (filter (fun lc => l_id (fst lc) =? a_lesson_id a) (lessons_courses d)).
Proof.
  unfold assignments_courses.
  change (lessons_courses (set_assignments d (assignments d ++ [a])))
    with (lessons_courses d).
  change (assignments (set_assignments d (assignments d ++ [a]))) with (assignments d ++ [a]).
  rewrite flat_map_app. cbn [flat_map]. rewrite app_nil_r. reflexivity.
Qed.

Lemma assignments_courses_assignment (d : db) (a : assignment) (c : course) :
  In (a, c) (assignments_courses d) -> In a (assignments d).
Proof.
  unfold assignments_courses. intros H. apply in_flat_map in H. destruct H as [a' [Ha H]].
  apply in_map_iff in H. destruct H as [lc [E _]]. injection E as -> _. exact Ha.
Qed.

(** X19. An assignment that has just been created is read back under the
    course of its lesson, its due date is not in the past, and the other
    assignments are read as before.  When every submission of the store
    has its assignment, nobody has submitted for the new one, and a
    submission with content made at the time of the creation is accepted
    and is not late. *)
Theorem new_assignment_is_open (d : db) (now : Z) (u : user) (b : assignment_body)
    (d1 : db) (a : assignment) :
  submissions_have_assignments d ->
  createAssignmentController d now u b = Ok (d1, a) ->
  exists l c,
    getLessonWithCourseInfo d (ab_lesson_id b) = Some (l, c)
    /\ (u_role u = admin \/ c_instructor_id c = u_id u)
    /\ assignmentWithCourse d1 (a_id a) = Some (a, c)
    /\ (forall id, id <> a_id a -> assignmentWithCourse d1 id = assignmentWithCourse d id)
    /\ (forall due, a_due_date a = Some due -> now <= due)
    /\ (forall studentId, hasUserSubmitted d1 (a_id a) studentId = false)
    /\ (forall st content,
          content <> EmptyString ->
          exists d2 row,
            submitAssignmentController d1 now st (a_id a) (Some content) None = Ok (d2, row)
            /\ s_assignment_id row = a_id a
            /\ s_student_id row = u_id st
            /\ is_true (s_is_late row) = false).
Proof.
  intros Hfk H. unfold createAssignmentController in H.
  apply bind_ok in H. destruct H as [[l c] [Hlc H]].
  apply bind_ok in H. destruct H as [x [Hown H]]. apply requireOwnerOrAdmin_inv in Hown.
  apply bind_ok in H. destruct H as [x0 [Hdue H]]. apply throw_if_ok in Hdue.
  injection H as <- <-.
  destruct (getLessonWithCourseInfo d (ab_lesson_id b)) as [lc | ] eqn:El;
    cbn in Hlc; [ | discriminate ].
  injection Hlc as ->. cbn [snd] in Hown.
  set (a := mkAssignment _ _ _ _ _ _ _ _).
  set (d1 := set_assignments d (assignments d ++ [a])).
  assert (Hfresh : forall x, In x (assignments d) -> a_id x <> a_id a).
  { intros y Hy. pose proof (next_assignment_id_fresh _ _ Hy). unfold a. cbn [a_id]. lia. }
  assert (Hget : assignmentWithCourse d1 (a_id a) = Some (a, c)).
  { unfold assignmentWithCourse, d1. rewrite assignments_courses_snoc, filter_app.
    rewrite filter_none.
    - cbn [app]. rewrite filter_map_comm, first_row_map, filter_filter.
      unfold getLessonWithCourseInfo in El. cbn [fst snd]. rewrite Z.eqb_refl.
      cbn [andb]. change (a_lesson_id a) with (ab_lesson_id b). rewrite El. reflexivity.
    - intros [y cy] Hy. cbn [fst snd].
      assert ((a_id y =? a_id a) = false) as ->; [ | reflexivity ].
      apply Z.eqb_neq. apply Hfresh. exact (assignments_courses_assignment d y cy Hy). }
  assert (Hnone : forall studentId, hasUserSubmitted d1 (a_id a) studentId = false).
  { intros studentId. unfold hasUserSubmitted. cbn [submissions d1 set_assignments].
    rewrite filter_none; [ reflexivity | ].
    intros s Hs. destruct (Hfk s Hs) as [y [Hy Hid]].
    assert ((s_assignment_id s =? a_id a) = false) as ->; [ | reflexivity ].
    apply Z.eqb_neq. rewrite <- Hid. apply Hfresh. exact Hy. }
  assert (Hnotpast : forall due, a_due_date a = Some due -> now <= due).
  { intros due Ha. cbn [a a_due_date] in Ha. rewrite Ha in Hdue.
    unfold isDatePast in Hdue. apply Z.ltb_ge in Hdue. exact Hdue. }
  exists l, c. split; [ reflexivity | ].
  split; [ destruct Hown as [Ha | Ho]; [ left; exact Ha | right; exact Ho ] | ].
  split; [ exact Hget | ]. split.
  { intros id Hid. unfold assignmentWithCourse, d1.
    rewrite assignments_courses_snoc, filter_app.
    rewrite (filter_none _ (map _ _)); [ rewrite app_nil_r; reflexivity | ].
    intros [y cy] Hy. apply in_map_iff in Hy. destruct Hy as [lc0 [E _]].
    injection E as <- _. cbn [fst snd].
    assert ((a_id a =? id) = false) as -> by (apply Z.eqb_neq; congruence).
    reflexivity. }
  split; [ exact Hnotpast | ]. split; [ exact Hnone | ].
  intros st content Hc. unfold submitAssignmentController. rewrite Hget.
  cbn [orNotFound bind fst].
  assert (Hlate : is_true (late_flag (a_due_date a) now) = false).
  { destruct (a_due_date a) as [due | ] eqn:Ed; [ | reflexivity ].
    cbn. unfold isDatePast.
    assert ((due <? now) = false) as -> by (apply Z.ltb_ge; exact (Hnotpast due eq_refl)).
    reflexivity. }
  rewrite Hlate. cbn [andb throw_if bind].
  pose proof (Hnone (u_id st)) as Hn. unfold hasUserSubmitted in Hn. rewrite Hn.
  cbn [throw_if bind falsy_string].
  assert (String.eqb content EmptyString = false) as ->
    by (apply String.eqb_neq; exact Hc).
  cbn [andb throw_if bind].
  eexists. eexists. split; [ reflexivity | ].
  cbn [s_assignment_id s_student_id s_is_late]. auto.
Qed.

(** alice sets an assignment in lesson 2, due at 5000; sam hands in at
    once. *)
Lemma new_assignment_is_open_witness :
  exists d1 a d2 row,
    createAssignmentController Examples.school 3000 Examples.alice
      (mkAssignmentBody 2 " Rivers of Europe " None (Some 5000) None None Absent)
    = Ok (d1, a)
    /\ submitAssignmentController d1 3000 Examples.sam (a_id a) (Some "The Danube") None
       = Ok (d2, row)
    /\ is_true (s_is_late row) = false.
Proof.
  destruct (createAssignmentController Examples.school 3000 Examples.alice
              (mkAssignmentBody 2 " Rivers of Europe " None (Some 5000) None None Absent))
    as [[d1 a] | e] eqn:E; [ | discriminate E ].
  assert (Hfk : submissions_have_assignments Examples.school).
  { intros s Hs. cbn in Hs.
    destruct Hs as [<- | [<- | [<- | []]]];
      [ exists Examples.essay | exists Examples.strict_essay | exists Examples.essay ];
      (split; [ cbn; auto | reflexivity ]). }
  destruct (new_assignment_is_open _ _ _ _ _ _ Hfk E)
    as [l [c [_ [_ [_ [_ [_ [_ Hsub]]]]]]]].
  destruct (Hsub Examples.sam "The Danube") as [d2 [row [Hrun [_ [_ Hl]]]]];
    [ discriminate | ].
  exists d1, a, d2, row. split; [ reflexivity | ]. split; [ exact Hrun | exact Hl ].
Defined.

(* ------------------------------------------------------------------ *)
(** ** Pagination *)

Lemma Qceiling_quotient (t : Z) (p : positive) :
  Qceiling (inject_Z t / inject_Z (Zpos p)) = - ((- t) / Zpos p).
Proof.
  assert (E : (inject_Z t / inject_Z (Zpos p) == t # p)%Q).
  { rewrite (Qmake_Qdiv t p). reflexivity. }
  rewrite E. reflexivity.
Qed.

(** X20. The parameters of a page are always usable: the page is at least
    1, the limit lies between 1 and 100 (a limit of 0 or one that is not a
    number gives 10) and the offset is [(page - 1) * limit].  With them the
    meta data is a number of pages [n] with [(n - 1) * limit < totalCount <=
    n * limit], and it announces a next page exactly when rows are left
    after this page and a previous page exactly when the offset is
    positive. *)
Theorem pagination_is_consistent (page limit : option Z) (totalCount : Z) :
  let p := getPaginationParams page limit in
  let m := getPaginationMeta (pp_page p) (pp_limit p) totalCount in
  1 <= pp_page p
  /\ 1 <= pp_limit p <= 100
  /\ pp_offset p = (pp_page p - 1) * pp_limit p
  /\ (parsed_or limit 10 = 10 -> pp_limit p = 10)
  /\ (exists n, pm_totalPages m = Pages n
                /\ (n - 1) * pp_limit p < totalCount <= n * pp_limit p)
  /\ (pm_hasNextPage m = true <-> pp_offset p + pp_limit p < totalCount)
  /\ (pm_hasPreviousPage m = true <-> 0 < pp_offset p).
Proof.
  cbv zeta. unfold getPaginationParams, getPaginationMeta.
  cbn [pp_page pp_limit pp_offset pm_totalPages pm_hasNextPage pm_hasPreviousPage].
  set (pg := Z.max 1 (parsed_or page 1)).
  set (lm := Z.min 100 (Z.max 1 (parsed_or limit 10))).
  assert (Hpg : 1 <= pg) by (unfold pg; lia).
  assert (Hlm : 1 <= lm <= 100) by (unfold lm; lia).
  split; [ exact Hpg | ]. split; [ exact Hlm | ]. split; [ reflexivity | ].
  split; [ intros E; unfold lm; rewrite E; reflexivity | ].
  unfold ceil_quotient.
  assert ((lm =? 0) = false) as -> by (apply Z.eqb_neq; lia).
  destruct lm as [ | l | l] eqn:El; try lia.
  rewrite Qceiling_quotient.
  pose proof (Z.div_mod (- totalCount) (Zpos l) ltac:(lia)) as Hdm.
  pose proof (Z.mod_pos_bound (- totalCount) (Zpos l) ltac:(lia)) as Hm.
  set (q := (- totalCount) / Zpos l) in *.
  split; [ exists (- q); split; [ reflexivity | nia ] | ].
  split.
  - cbn [below_pages]. rewrite Z.ltb_lt. split; intros H; nia.
  - rewrite Z.ltb_lt. split; intros H; nia.
Qed.

(* ------------------------------------------------------------------ *)
(** ** The course gates of the middleware *)

(** X21. On a course id, [authorizeInstructor] lets through the admins,
    whether the course exists or not, and the instructors whose id is the
    [instructor_id] of the course, which must exist and not be deleted.
    Whoever it lets through passes the owner-or-admin check of the
    controllers on that course.  A student is refused with 403 even as the
    [instructor_id] of the course, where the check of the controllers
    passes. *)
Theorem instructor_gate_matches_ownership (d : db) (u : user) (courseId : Z) :
  (authorizeInstructor d (Some u) (Some courseId) = Ok tt
   <-> u_role u = admin
       \/ (u_role u = instructor
           /\ exists c, getCourseById d courseId = Some c /\ c_instructor_id c = u_id u))
  /\ (forall c msg,
        authorizeInstructor d (Some u) (Some courseId) = Ok tt ->
        getCourseById d courseId = Some c ->
        requireOwnerOrAdmin u (c_instructor_id c) msg = Ok tt)
  /\ (u_role u = instructor -> getCourseById d courseId = None ->
      authorizeInstructor d (Some u) (Some courseId)
      = Throw (AppError "Course not found." NOT_FOUND))
  /\ (u_role u = student ->
      authorizeInstructor d (Some u) (Some courseId)
      = Throw (AppError "Access denied. Instructor role required." FORBIDDEN)
      /\ forall c msg, c_instructor_id c = u_id u ->
                       requireOwnerOrAdmin u (c_instructor_id c) msg = Ok tt).
Proof.
  assert (Hiff : authorizeInstructor d (Some u) (Some courseId) = Ok tt
                 <-> u_role u = admin
                     \/ (u_role u = instructor
                         /\ exists c, getCourseById d courseId = Some c
                                      /\ c_instructor_id c = u_id u)).
  { unfold authorizeInstructor, getCourseById.
    destruct (u_role u) eqn:Er; cbn [role_eqb negb].
    - split; [ discriminate | ].
      intros [H | [H _]]; discriminate.
    - destruct (filter (fun c => (c_id c =? courseId) && negb (c_is_deleted c)) (courses d))
        as [ | c cs]; cbn [map first_row].
      + split; [ discriminate | ].
        intros [H | [_ [c [H _]]]]; discriminate.
      + unfold throw_if. destruct (Z.eqb_spec (c_instructor_id c) (u_id u)) as [E | E];
          cbn [negb].
        * split; [ intros _; right; split; [ reflexivity | exists c; auto ] | reflexivity ].
        * split; [ discriminate | ].
          intros [H | [_ [c' [H H']]]]; [ discriminate | ].
          injection H as ->. contradiction.
    - split; [ intros _; left; reflexivity | reflexivity ]. }
  split; [ exact Hiff | ]. split; [ | split ].
  - intros c msg H Hc. apply Hiff in H. destruct H as [H | [_ [c' [Hc' Ho]]]].
    + apply requireOwnerOrAdmin_admin. exact H.
    + apply requireOwnerOrAdmin_owner. rewrite Hc in Hc'. injection Hc' as ->.
      symmetry. exact Ho.
  - intros Hr Hc. unfold authorizeInstructor, getCourseById in *. rewrite Hr.
    cbn [role_eqb negb].
    destruct (filter (fun c => (c_id c =? courseId) && negb (c_is_deleted c)) (courses d));
      [ reflexivity | discriminate ].
  - intros Hr. split.
    + unfold authorizeInstructor. rewrite Hr. cbn [role_eqb negb]. reflexivity.
    + intros c msg Ho. apply requireOwnerOrAdmin_owner. symmetry. exact Ho.
Qed.

Lemma enrolled_gate_student (d : db) (u : user) (courseId : Z) :
  u_role u = student ->
  authorizeEnrolledStudent d (Some u) (Some courseId)
  = if isUserEnrolled d (u_id u) courseId then Ok tt
    else Throw (AppError "Access denied. You are not enrolled in this course." FORBIDDEN).
Proof.
  intros Hr. unfold authorizeEnrolledStudent, isUserEnrolled. rewrite Hr.
  cbn [role_eqb orb].
  destruct (filter (fun e => (e_user_id e =? u_id u) && (e_course_id e =? courseId))
                   (enrollments d)); reflexivity.
Qed.

Lemma unenroll_store (d : db) (u : user) (course_id : Z) (d1 : db) :
  unenrollFromCourse d u course_id = Ok d1 ->
  isUserEnrolled d (u_id u) course_id = true
  /\ isUserEnrolled d1 (u_id u) course_id = false.
Proof.
  intros H. unfold unenrollFromCourse in H.
  apply bind_ok in H. destruct H as [e [He H]].
  change (fst (deleteEnrollment d (u_id u) course_id))
    with (set_enrollments d
            (filter (fun e => negb (same_enrollment (u_id u) course_id e)) (enrollments d)))
    in H.
  injection H as <-.
  destruct (getEnrollmentByUserAndCourse d (u_id u) course_id) as [e0 | ] eqn:E;
    cbn in He; [ | discriminate ].
  destruct (enrollment_found _ _ _ _ E) as [Hin [Hp _]].
  split; [ apply isUserEnrolled_in; exists e0; split; assumption | ].
  match goal with |- ?b = false => destruct b eqn:E1; [ | reflexivity ] end.
  apply isUserEnrolled_in in E1. destruct E1 as [x [Hx Hs]].
  cbn [enrollments set_enrollments] in Hx.
  apply filter_In in Hx. destruct Hx as [_ Hx]. cbv beta in Hx.
  rewrite Hs in Hx. discriminate.
Qed.

Lemma progress_write_enrolled (d : db) (now : Z) (u : user) (course_id : Z)
    (progress : numval) (d1 : db) (row : option enrollment) :
  updateProgress d now u course_id progress = Ok (d1, row) ->
  forall userId courseId,
    isUserEnrolled d1 userId courseId = isUserEnrolled d userId courseId.
Proof.
  intros H. unfold updateProgress in H. ok_skip H.
  apply bind_ok in H. destruct H as [e [_ H]]. injection H as <- _.
  intros userId courseId. unfold isUserEnrolled. cbn [enrollments set_enrollments].
  rewrite filter_map_comm, length_map.
  do 3 f_equal. apply filter_ext. intros x.
  rewrite write_progress_user, write_progress_course. reflexivity.
Qed.

(** X22. For a student, [authorizeEnrolledStudent] follows the enrollment:
    it lets the student through exactly when [isUserEnrolled] holds.  A
    student who unenrolls passed the gate of the course before and is
    answered 403 afterwards, and a progress write changes the answer of the
    gate for nobody.  Admins and instructors pass for every course. *)
Theorem enrolled_gate_follows_enrollment (d : db) (u : user) (courseId : Z) :
  u_role u = student ->
  (authorizeEnrolledStudent d (Some u) (Some courseId) = Ok tt
   <-> isUserEnrolled d (u_id u) courseId = true)
  /\ (forall d1,
        unenrollFromCourse d u courseId = Ok d1 ->
        authorizeEnrolledStudent d (Some u) (Some courseId) = Ok tt
        /\ authorizeEnrolledStudent d1 (Some u) (Some courseId)
           = Throw (AppError "Access denied. You are not enrolled in this course."
                             FORBIDDEN))
  /\ (forall now w c progress d1 row,
        updateProgress d now w c progress = Ok (d1, row) ->
        authorizeEnrolledStudent d1 (Some u) (Some courseId)
        = authorizeEnrolledStudent d (Some u) (Some courseId))
  /\ (forall staff c, u_role staff <> student ->
        authorizeEnrolledStudent d (Some staff) c = Ok tt).
Proof.
  intros Hr. split; [ | split; [ | split ] ].
  - rewrite (enrolled_gate_student d u courseId Hr).
    destruct (isUserEnrolled d (u_id u) courseId); split; congruence.
  - intros d1 H. destruct (unenroll_store _ _ _ _ H) as [H0 H1].
    rewrite !(enrolled_gate_student _ u courseId Hr), H0, H1. auto.
  - intros now w c progress d1 row H.
    rewrite !(enrolled_gate_student _ u courseId Hr).
    rewrite (progress_write_enrolled _ _ _ _ _ _ _ H). reflexivity.
  - intros staff c Hs. unfold authorizeEnrolledStudent.
    destruct (u_role staff); [ contradiction | reflexivity | reflexivity ].
Qed.

(** sam at the gate of the geography course, before and after leaving. *)
Lemma enrolled_gate_follows_enrollment_witness :
  authorizeEnrolledStudent Examples.school (Some Examples.sam) (Some 1) = Ok tt
  /\ exists d1,
       unenrollFromCourse Examples.school Examples.sam 1 = Ok d1
       /\ authorizeEnrolledStudent d1 (Some Examples.sam) (Some 1)
          = Throw (AppError "Access denied. You are not enrolled in this course."
                            FORBIDDEN).
Proof.
  destruct (unenrollFromCourse Examples.school Examples.sam 1) as [d1 | e] eqn:E;
    [ | discriminate E ].
  destruct (enrolled_gate_follows_enrollment Examples.school Examples.sam 1 eq_refl)
    as [_ [H _]].
  destruct (H d1 E) as [H0 H1].
  split; [ exact H0 | ]. exists d1. split; [ reflexivity | exact H1 ].
Defined.

(* ------------------------------------------------------------------ *)
(** ** The counts of an assignment *)

Lemma assignmentWithCourse_submissions (d : db) (ss : list submission) (id : Z) :
  assignmentWithCourse (set_submissions d ss) id = assignmentWithCourse d id.
Proof. reflexivity. Qed.

Lemma stamp_grade_none (id : Z) g fb now grader (l : list submission) :
  (forall s, In s l -> s_id s <> id) -> map (stamp_grade id g fb now grader) l = l.
Proof.
  induction l as [ | x l IH]; cbn; intros H; [ reflexivity | ].
  rewrite stamp_grade_other by (apply H; left; reflexivity).
  f_equal. apply IH. intros s Hs. apply H. right. exact Hs.
Qed.

(** Grading one ungraded submission of the assignment: the rows that count
    as graded are one more when the stored grade is not NULL. *)
Lemma graded_after_stamp (aid id : Z) (g : option jsnumber) fb now grader
    (l : list submission) (s : submission) :
  distinct (map s_id l) = true -> In s l -> s_id s = id ->
  s_assignment_id s = aid -> s_grade s = None ->
  let graded x := (s_assignment_id x =? aid)
                  && match s_grade x with Some _ => true | None => false end in
  Z.of_nat (List.length (filter graded (map (stamp_grade id g fb now grader) l)))
  = Z.of_nat (List.length (filter graded l))
    + (match g with Some _ => 1 | None => 0 end).
Proof.
  intros Hd Hin Hid Ha Hg graded.
  induction l as [ | x l IH]; [ contradiction | ].
  cbn [map distinct] in *. apply andb_prop in Hd. destruct Hd as [Hx Hd].
  apply negb_true_iff in Hx. apply existsb_eqb_in in Hx.
  destruct Hin as [-> | Hin].
  - rewrite stamp_grade_none.
    + assert (E1 : graded (stamp_grade id g fb now grader s)
                   = match g with Some _ => true | None => false end).
      { unfold graded, stamp_grade. rewrite Hid, Z.eqb_refl.
        cbn [s_assignment_id s_grade]. rewrite Ha, Z.eqb_refl. reflexivity. }
      assert (E2 : graded s = false).
      { unfold graded. rewrite Hg. apply andb_false_r. }
      cbn [filter]. rewrite E1, E2. destruct g; cbn [List.length]; lia.
    + intros y Hy E. apply Hx. rewrite Hid, <- E. apply in_map. exact Hy.
  - assert (s_id x <> id).
    { intros E. apply Hx. rewrite E, <- Hid. apply in_map. exact Hin. }
    rewrite stamp_grade_other by assumption.
    cbn [filter]. specialize (IH Hd Hin).
    destruct (graded x); cbn [List.length]; lia.
Qed.

(** X23. The counts that [getAssignmentByIdController] shows follow the
    other controllers: the graded count lies between 0 and the submission
    count; an accepted submission for the assignment adds one to the
    submission count and leaves the graded count; a grading of an ungraded
    submission of the assignment leaves the submission count and adds one
    to the graded count when a grade is stored, none when the stored grade
    is NULL.  The assignment itself is shown as before. *)
Theorem assignment_counts_follow (d : db) (u : user) (id : Z) (v : assignment_view) :
  getAssignmentByIdController d u id = Ok v ->
  a_id (av_assignment v) = id
  /\ 0 <= av_graded_count v <= av_submission_count v
  /\ (forall now st content file d1 row,
        submitAssignmentController d now st id content file = Ok (d1, row) ->
        getAssignmentByIdController d1 u id
        = Ok (mkAssignmentView (av_assignment v) (av_course v)
                               (av_submission_count v + 1) (av_graded_count v)))
  /\ (forall now grader sid grade fb d1 resp s,
        distinct (map s_id (submissions d)) = true ->
        In s (submissions d) -> s_id s = sid -> s_assignment_id s = id ->
        s_grade s = None ->
        gradeSubmissionController d now grader sid grade fb = Ok (d1, resp) ->
        getAssignmentByIdController d1 u id
        = Ok (mkAssignmentView (av_assignment v) (av_course v)
                (av_submission_count v)
                (av_graded_count v
                 + match sql_param (gr_finalGrade resp) with Some _ => 1 | None => 0 end))).
Proof.
  intros H. unfold getAssignmentByIdController in H.
  apply bind_ok in H. destruct H as [[a c] [Hac H]].
  apply bind_ok in H. destruct H as [x [Hacc H]]. injection H as <-.
  destruct (assignmentWithCourse d id) as [ac | ] eqn:E; cbn in Hac; [ | discriminate ].
  injection Hac as ->. cbn [fst snd] in *.
  pose proof (assignmentWithCourse_id d id a c E) as Hid.
  cbn [av_assignment av_course av_submission_count av_graded_count].
  split; [ exact Hid | ]. rewrite Hid. split; [ | split ].
  - unfold graded_count, submission_count. split; [ lia | ].
    apply inj_le. induction (submissions d) as [ | s l IH]; cbn [filter]; [ lia | ].
    destruct (s_assignment_id s =? id); cbn [andb]; [ | exact IH ].
    destruct (s_grade s); cbn [List.length]; lia.
  - intros now st content file d1 row Hs.
    unfold submitAssignmentController in Hs.
    apply bind_ok in Hs. destruct Hs as [ac' [_ Hs]]. do 3 ok_skip Hs.
    injection Hs as <- _.
    unfold getAssignmentByIdController. rewrite assignmentWithCourse_submissions, E.
    cbn [orNotFound bind fst snd]. cbn [fst snd] in Hacc. rewrite Hacc.
    cbn [bind]. rewrite Hid. do 2 f_equal.
    + unfold submission_count. cbn [submissions set_submissions].
      rewrite filter_app, length_app. cbn [filter s_assignment_id].
      rewrite Z.eqb_refl. cbn [List.length]. lia.
    + unfold graded_count. cbn [submissions set_submissions].
      rewrite filter_app, length_app. cbn [filter s_assignment_id s_grade].
      rewrite Z.eqb_refl. cbn [andb List.length]. lia.
  - intros now grader sid grade fb d1 resp s Hd Hin Hsid Hsa Hg Hgr.
    unfold gradeSubmissionController in Hgr.
    ok_step Hgr r. do 2 ok_skip Hgr. ok_step Hgr final.
    injection Hgr as <- <-. cbn [gr_finalGrade].
    unfold getAssignmentByIdController. rewrite assignmentWithCourse_submissions, E.
    cbn [orNotFound bind fst snd]. cbn [fst snd] in Hacc. rewrite Hacc.
    cbn [bind]. rewrite Hid. do 2 f_equal.
    + unfold submission_count. cbn [submissions set_submissions].
      rewrite filter_map_comm, length_map. do 2 f_equal. apply filter_ext. intros y.
      rewrite stamp_grade_assignment. reflexivity.
    + unfold graded_count. cbn [submissions set_submissions].
      exact (graded_after_stamp id sid (sql_param final) _ now (u_id grader)
               (submissions d) s Hd Hin Hsid Hsa Hg).
Qed.

(** alice looks at the timed essay, which has one submission and no
    grade. *)
Lemma assignment_counts_follow_witness :
  exists v,
    getAssignmentByIdController Examples.school Examples.alice 2 = Ok v
    /\ 0 <= av_graded_count v <= av_submission_count v.
Proof.
  destruct (getAssignmentByIdController Examples.school Examples.alice 2) as [v | e] eqn:E;
    [ | discriminate E ].
  exists v. split; [ reflexivity | ].
  exact (proj1 (proj2 (assignment_counts_follow _ _ _ _ E))).
Defined.

(* ------------------------------------------------------------------ *)
(** ** Quiz statistics *)

Lemma insert_by_id_length (q : quiz) (l : list quiz) :
  List.length (insert_by_id q l) = S (List.length l).
Proof.
  induction l as [ | h t IH]; cbn; [ reflexivity | ].
  destruct (q_id q <=? q_id h); cbn; [ reflexivity | rewrite IH; reflexivity ].
Qed.

Lemma order_by_id_length (l : list quiz) : List.length (order_by_id l) = List.length l.
Proof.
  unfold order_by_id. induction l as [ | h t IH]; cbn; [ reflexivity | ].
  rewrite insert_by_id_length, IH. reflexivity.
Qed.

Lemma sum_points_insert (q : quiz) (l : list quiz) :
  sum_points (insert_by_id q l) = q_points q + sum_points l.
Proof.
  induction l as [ | h t IH]; cbn; [ reflexivity | ].
  destruct (q_id q <=? q_id h); cbn; [ reflexivity | ].
  unfold sum_points in *. rewrite IH. lia.
Qed.

Lemma sum_points_order (l : list quiz) : sum_points (order_by_id l) = sum_points l.
Proof.
  unfold order_by_id. induction l as [ | h t IH]; cbn; [ reflexivity | ].
  rewrite sum_points_insert. unfold sum_points in *. rewrite IH. reflexivity.
Qed.

Lemma type_counts (qs : list quiz) :
  count_of_type "multiple_choice" qs + count_of_type "true_false" qs
  + count_of_type "text" qs <= Z.of_nat (List.length qs)
  /\ ((forall q, In q qs -> is_quiz_type (q_quiz_type q) = true) ->
      count_of_type "multiple_choice" qs + count_of_type "true_false" qs
      + count_of_type "text" qs = Z.of_nat (List.length qs)).
Proof.
  unfold count_of_type. induction qs as [ | q qs [IH1 IH2]]; [ split; reflexivity | ].
  cbn [filter].
  assert (Hq : (String.eqb (q_quiz_type q) "multiple_choice" = true
                /\ String.eqb (q_quiz_type q) "true_false" = false
                /\ String.eqb (q_quiz_type q) "text" = false)
               \/ (String.eqb (q_quiz_type q) "multiple_choice" = false
                   /\ String.eqb (q_quiz_type q) "true_false" = true
                   /\ String.eqb (q_quiz_type q) "text" = false)
               \/ (String.eqb (q_quiz_type q) "multiple_choice" = false
                   /\ String.eqb (q_quiz_type q) "true_false" = false
                   /\ String.eqb (q_quiz_type q) "text" = true)
               \/ is_quiz_type (q_quiz_type q) = false).
  { unfold is_quiz_type, QUIZ_TYPES. cbn [existsb].
    destruct (String.eqb (q_quiz_type q) "multiple_choice") eqn:E1;
      [ apply String.eqb_eq in E1; rewrite E1; left; repeat split; reflexivity | ].
    destruct (String.eqb (q_quiz_type q) "true_false") eqn:E2;
      [ apply String.eqb_eq in E2; rewrite E2; right; left; repeat split; reflexivity | ].
    destruct (String.eqb (q_quiz_type q) "text") eqn:E3;
      [ right; right; left; repeat split; reflexivity | ].
    right. right. right. reflexivity. }
  split.
  - destruct Hq as [[-> [-> ->]] | [[-> [-> ->]] | [[-> [-> ->]] | Hn]]];
      cbn [List.length]; try lia.
    destruct (String.eqb (q_quiz_type q) "multiple_choice") eqn:E1;
      destruct (String.eqb (q_quiz_type q) "true_false") eqn:E2;
      destruct (String.eqb (q_quiz_type q) "text") eqn:E3;
      cbn [List.length]; try lia;
      unfold is_quiz_type, QUIZ_TYPES in Hn; cbn [existsb] in Hn;
      rewrite ?E1, ?E2, ?E3 in Hn; discriminate.
  - intros Hall.
    assert (IH : forall x, In x qs -> is_quiz_type (q_quiz_type x) = true)
      by (intros x Hx; apply Hall; right; exact Hx).
    specialize (IH2 IH).
    destruct Hq as [[-> [-> ->]] | [[-> [-> ->]] | [[-> [-> ->]] | Hn]]];
      cbn [List.length]; try lia.
    rewrite (Hall q (or_introl eq_refl)) in Hn. discriminate.
Qed.

(** X24. The quiz statistics are not served: their route validates a path
    parameter [id] that the path [/lesson/:lesson_id/stats] does not bind,
    so every request is answered with the 400 of the validation and the
    controller is not reached.  The controller itself shows the statistics
    to the instructor of the course of the lesson and to admins, and they
    agree with the grading of the lesson: the number of quizzes is the
    number of questions of a grading and, when the lesson has quizzes, the
    total of the points is its total; without quizzes the total is [NaN].
    The counts by type add up to at most the number of quizzes, and to it
    when every quiz of the lesson has one of the three types. *)
Theorem quiz_stats_agree_with_grading (d : db) (u : user) (lesson_id : Z) :
  getQuizStatsRoute d u lesson_id
  = Throw (AppError "Validation failed: ID must be a positive integer" BAD_REQUEST)
  /\ forall resp,
      getQuizStatsController d u lesson_id = Ok resp ->
      let st := qsr_stats resp in
      (exists l c,
         getLessonWithCourseInfo d lesson_id = Some (l, c)
         /\ (u_role u = admin \/ c_instructor_id c = u_id u)
         /\ qsr_lessonTitle resp = l_title l)
      /\ (forall answers,
            qs_totalQuizzes st = totalQuestions (submitQuizAnswers d lesson_id answers)
            /\ (0 < qs_totalQuizzes st ->
                qs_totalPoints st
                = Num (inject_Z (totalPoints (submitQuizAnswers d lesson_id answers)))))
      /\ (qs_totalQuizzes st = 0 -> qs_totalPoints st = NaN)
      /\ qs_multipleChoiceCount st + qs_trueFalseCount st + qs_textCount st
         <= qs_totalQuizzes st
      /\ ((forall q, In q (quizzes d) -> q_lesson_id q = lesson_id ->
                     is_quiz_type (q_quiz_type q) = true) ->
          qs_multipleChoiceCount st + qs_trueFalseCount st + qs_textCount st
          = qs_totalQuizzes st).
Proof.
  split; [ reflexivity | ].
  intros resp H st. unfold getQuizStatsController in H.
  apply bind_ok in H. destruct H as [[l c] [Hlc H]].
  apply bind_ok in H. destruct H as [x [Hown H]]. apply requireOwnerOrAdmin_inv in Hown.
  injection H as <-. subst st. cbn [qsr_stats qsr_lessonTitle fst snd] in *.
  destruct (getLessonWithCourseInfo d lesson_id) as [lc | ] eqn:El;
    cbn in Hlc; [ | discriminate ].
  injection Hlc as ->.
  split; [ exists l, c; auto | ].
  unfold getQuizStats.
  set (rows := filter (fun q => q_lesson_id q =? lesson_id) (quizzes d)).
  cbn [qs_totalQuizzes qs_totalPoints qs_multipleChoiceCount
       qs_trueFalseCount qs_textCount].
  assert (Hg : forall answers,
             totalQuestions (submitQuizAnswers d lesson_id answers)
             = Z.of_nat (List.length rows)
             /\ totalPoints (submitQuizAnswers d lesson_id answers) = sum_points rows).
  { intros answers. unfold submitQuizAnswers. fold rows. rewrite grade_loop.
    cbn [totalQuestions totalPoints].
    rewrite order_by_id_length, sum_points_order. split; [ reflexivity | lia ]. }
  split; [ | split; [ | split ] ].
  - intros answers. destruct (Hg answers) as [Hn Ht]. rewrite Hn, Ht.
    split; [ reflexivity | ]. intros Hpos.
    destruct rows as [ | q rows']; [ cbn in Hpos; lia | ].
    reflexivity.
  - intros Hz. destruct rows as [ | q rows']; [ reflexivity | ].
    cbn [List.length] in Hz. lia.
  - apply (proj1 (type_counts rows)).
  - intros Hall. apply (proj2 (type_counts rows)).
    intros q Hq. unfold rows in Hq. apply filter_In in Hq. destruct Hq as [Hin Hl].
    apply Hall; [ exact Hin | apply Z.eqb_eq; exact Hl ].
Qed.

(** alice asks for the statistics of lesson 1: the route answers 400; the
    controller would count one multiple choice quiz of five points. *)
Lemma quiz_stats_agree_with_grading_witness :
  getQuizStatsRoute Examples.school Examples.alice 1
  = Throw (AppError "Validation failed: ID must be a positive integer" BAD_REQUEST)
  /\ exists resp,
      getQuizStatsController Examples.school Examples.alice 1 = Ok resp
      /\ qs_totalPoints (qsr_stats resp) = Num 5
      /\ qs_multipleChoiceCount (qsr_stats resp) + qs_trueFalseCount (qsr_stats resp)
         + qs_textCount (qsr_stats resp) <= qs_totalQuizzes (qsr_stats resp).
Proof.
  destruct (quiz_stats_agree_with_grading Examples.school Examples.alice 1)
    as [Hroute Hstats].
  split; [ exact Hroute | ].
  destruct (getQuizStatsController Examples.school Examples.alice 1) as [resp | e] eqn:E;
    [ | discriminate E ].
  exists resp. split; [ reflexivity | ].
  destruct (Hstats resp eq_refl) as [_ [Hg [_ [Hc _]]]].
  split; [ | exact Hc ].
  destruct (Hg []) as [_ Hp]. rewrite Hp; [ reflexivity | ].
  injection E as <-. cbn. lia.
Defined.

(* ------------------------------------------------------------------ *)
(** ** Strings: trimming and sanitizing *)

(** [s] does not begin with white space. *)
Lemma trimStart_clean (s : string) :
  match trimStart s with
  | String c _ => is_space c = false
  | EmptyString => True
  end.
Proof.
  induction s as [ | c r IH]; cbn [trimStart]; [ exact I | ].
  destruct (is_space c) eqn:E; [ exact IH | exact E ].
Qed.

Lemma trimStart_fixed (s : string) :
  match s with String c _ => is_space c = false | EmptyString => True end ->
  trimStart s = s.
Proof. destruct s as [ | c r]; cbn; [ reflexivity | intros ->; reflexivity ]. Qed.

Lemma trimEnd_head (c : ascii) (r : string) :
  is_space c = false -> exists r', trimEnd (String c r) = String c r'.
Proof.
  intros H. cbn [trimEnd]. destruct (trimEnd r); [ rewrite H | ]; eexists; reflexivity.
Qed.

Lemma trimEnd_idem (s : string) : trimEnd (trimEnd s) = trimEnd s.
Proof.
  induction s as [ | c r IH]; [ reflexivity | ].
  cbn [trimEnd]. destruct (trimEnd r) as [ | c' r'] eqn:E.
  - destruct (is_space c) eqn:Ec; [ reflexivity | ].
    cbn [trimEnd]. rewrite Ec. reflexivity.
  - change (trimEnd (String c (String c' r')))
      with (match trimEnd (String c' r') with
            | EmptyString => if is_space c then EmptyString else String c EmptyString
            | String a b => String c (String a b)
            end).
    rewrite IH. reflexivity.
Qed.

Lemma trim_idem (s : string) : trim (trim s) = trim s.
Proof.
  unfold trim.
  assert (H : trimStart (trimEnd (trimStart s)) = trimEnd (trimStart s)).
  { pose proof (trimStart_clean s) as Hc.
    destruct (trimStart s) as [ | c r]; [ reflexivity | ].
    destruct (trimEnd_head c r Hc) as [r' ->]. apply trimStart_fixed. exact Hc. }
  rewrite H. apply trimEnd_idem.
Qed.

Lemma trimStart_length (s : string) : (String.length (trimStart s) <= String.length s)%nat.
Proof.
  induction s as [ | c r IH]; cbn; [ lia | ].
  destruct (is_space c); cbn; lia.
Qed.

Lemma trimEnd_length (s : string) : (String.length (trimEnd s) <= String.length s)%nat.
Proof.
  induction s as [ | c r IH]; cbn; [ lia | ].
  destruct (trimEnd r); [ destruct (is_space c) | ]; cbn in *; lia.
Qed.

Lemma trim_length (s : string) : (String.length (trim s) <= String.length s)%nat.
Proof.
  unfold trim. pose proof (trimEnd_length (trimStart s)). pose proof (trimStart_length s).
  lia.
Qed.

Lemma no_angles_trimStart (s : string) : no_angles s = true -> no_angles (trimStart s) = true.
Proof.
  induction s as [ | c r IH]; cbn [trimStart]; intros H; [ reflexivity | ].
  destruct (is_space c); [ | exact H ].
  apply IH. cbn [no_angles] in H. apply andb_prop in H. apply H.
Qed.

Lemma no_angles_trimEnd (s : string) : no_angles s = true -> no_angles (trimEnd s) = true.
Proof.
  induction s as [ | c r IH]; cbn [trimEnd]; intros H; [ reflexivity | ].
  cbn [no_angles] in H. apply andb_prop in H. destruct H as [Hc Hr].
  specialize (IH Hr).
  destruct (trimEnd r); [ destruct (is_space c); [ reflexivity | ] | ];
    cbn [no_angles] in *; rewrite Hc; [ reflexivity | exact IH ].
Qed.

Lemma no_angles_removed (s : string) : no_angles (remove_angles s) = true.
Proof.
  induction s as [ | c r IH]; cbn; [ reflexivity | ].
  destruct (Ascii.eqb c "<" || Ascii.eqb c ">")%bool eqn:E; [ exact IH | ].
  cbn [no_angles]. rewrite E, IH. reflexivity.
Qed.

Lemma remove_angles_fixed (s : string) : no_angles s = true -> remove_angles s = s.
Proof.
  induction s as [ | c r IH]; cbn; intros H; [ reflexivity | ].
  apply andb_prop in H. destruct H as [Hc Hr]. apply negb_true_iff in Hc.
  rewrite Hc, (IH Hr). reflexivity.
Qed.

(** X25. A sanitized string contains no angle bracket and has no white
    space at its ends, it is not longer than the input, and sanitizing it
    again changes nothing; a value that is not a string is returned as it
    is. *)
Theorem sanitized_input_is_clean (input : jsval) :
  sanitizeInput (sanitizeInput input) = sanitizeInput input
  /\ (forall s, input = JStr s ->
        exists t, sanitizeInput input = JStr t
                  /\ no_angles t = true
                  /\ trim t = t
                  /\ (String.length t <= String.length s)%nat)
  /\ ((forall s, input <> JStr s) -> sanitizeInput input = input).
Proof.
  assert (Hclean : forall s, no_angles (trim (remove_angles s)) = true).
  { intros s. unfold trim. apply no_angles_trimEnd, no_angles_trimStart, no_angles_removed. }
  split; [ | split ].
  - destruct input as [ | | b | n | s | v ]; try reflexivity.
    cbn [sanitizeInput]. rewrite (remove_angles_fixed _ (Hclean s)), trim_idem. reflexivity.
  - intros s ->. exists (trim (remove_angles s)).
    split; [ reflexivity | ]. split; [ apply Hclean | ]. split; [ apply trim_idem | ].
    pose proof (trim_length (remove_angles s)).
    assert (String.length (remove_angles s) <= String.length s)%nat.
    { clear. induction s as [ | c r IH]; cbn; [ lia | ].
      destruct (Ascii.eqb c "<" || Ascii.eqb c ">")%bool; cbn; lia. }
    lia.
  - intros H. destruct input as [ | | b | n | s | v ]; try reflexivity.
    exfalso. exact (H s eq_refl).
Qed.

Lemma substring_length (n : nat) (s : string) :
  String.length (substring 0 n s) = Nat.min n (String.length s).
Proof.
  revert s. induction n as [ | n IH]; intros s; destruct s as [ | c r]; cbn;
    try reflexivity.
  rewrite IH. reflexivity.
Qed.

Lemma string_length_app (a b : string) :
  String.length (a ++ b) = (String.length a + String.length b)%nat.
Proof. induction a as [ | c a IH]; cbn; [ reflexivity | rewrite IH; reflexivity ]. Qed.

(** X26. A text that fits is returned as it is.  A longer text becomes a
    trimmed prefix of at most [maxLength] characters followed by three
    dots: the result has at most [maxLength + 3] characters, which can be
    more than the text had. *)
Theorem truncated_text_is_bounded (text : string) (maxLength : Z) :
  0 <= maxLength ->
  (Z.of_nat (String.length text) <= maxLength ->
   truncateText text (Some maxLength) = text)
  /\ (maxLength < Z.of_nat (String.length text) ->
      exists kept,
        truncateText text (Some maxLength) = (kept ++ "...")%string
        /\ kept = trim (substring 0 (Z.to_nat maxLength) text)
        /\ trim kept = kept
        /\ Z.of_nat (String.length kept) <= maxLength)
  /\ Z.of_nat (String.length (truncateText text (Some maxLength))) <= maxLength + 3.
Proof.
  intros Hm. unfold truncateText.
  pose proof (trim_length (substring 0 (Z.to_nat maxLength) text)) as Ht.
  rewrite substring_length in Ht.
  split; [ | split ].
  - intros H. apply Z.leb_le in H. rewrite H. reflexivity.
  - intros H. assert ((Z.of_nat (String.length text) <=? maxLength) = false) as ->
      by (apply Z.leb_gt; exact H).
    eexists. split; [ reflexivity | ]. split; [ reflexivity | ].
    split; [ apply trim_idem | lia ].
  - destruct (Z.of_nat (String.length text) <=? maxLength) eqn:E;
      [ apply Z.leb_le in E; lia | ].
    rewrite string_length_app. cbn [String.length]. lia.
Qed.

(** A title cut at ten characters. *)
Lemma truncated_text_is_bounded_witness :
  Z.of_nat (String.length (truncateText "Rivers of Europe" (Some 10))) <= 10 + 3.
Proof.
  apply (truncated_text_is_bounded "Rivers of Europe" 10). lia.
Defined.

(* ------------------------------------------------------------------ *)
(** ** Grade percentages and letters *)

(** The percentage depends on the quotient of the score by the maximum
    only. *)
Lemma percentage_ratio (s m s' m' : Q) :
  ~ (m == 0)%Q -> ~ (m' == 0)%Q -> (s * m' == s' * m)%Q ->
  calculateGradePercentage (Num s) (Num m) = calculateGradePercentage (Num s') (Num m').
Proof.
  intros Hm Hm' H. unfold calculateGradePercentage, is_zero, js_div.
  assert (Qeq_bool m 0 = false) as ->.
  { destruct (Qeq_bool m 0) eqn:E; [ apply Qeq_bool_iff in E; contradiction | reflexivity ]. }
  assert (Qeq_bool m' 0 = false) as ->.
  { destruct (Qeq_bool m' 0) eqn:E; [ apply Qeq_bool_iff in E; contradiction | reflexivity ]. }
  rewrite (fl_comp (s / m) (s' / m')); [ reflexivity | ].
  apply (Qmult_inj_r _ _ (m * m')).
  - intros F. apply Qmult_integral in F. tauto.
  - transitivity (s * m')%Q; [ field; exact Hm | ].
    rewrite H. field. exact Hm'.
Qed.

Lemma at_least_le (n p q : Q) :
  (p <= q)%Q -> at_least n (Num p) = true -> at_least n (Num q) = true.
Proof.
  unfold at_least, js_ge. cbn [ToNumber]. intros Hpq H.
  apply Qle_bool_iff. apply Qle_bool_iff in H. eapply Qle_trans; eassumption.
Qed.

(** X27. The grade letter grows with the percentage, and a percentage
    that is no number gets an ['F'].  The percentage of a score out of a
    maximum other than 0 depends on their quotient only: it is 100, an
    ['A'], for the full score and 0, an ['F'], for a score of 0; a maximum
    of 0 gives the percentage 0.  The percentage is [Math.round] of a
    binary64 product: 23 out of 40 gives 57 and 29 out of 200 gives 14,
    where the exact products are 57.5 and 14.5. *)
Theorem grade_letter_follows_percentage :
  (forall p q : Q,
     (p <= q)%Q ->
     letter_rank (getGradeLetter (Num p)) <= letter_rank (getGradeLetter (Num q)))
  /\ getGradeLetter NaN = Grade_F
  /\ (forall s m s' m' : Q,
        ~ (m == 0)%Q -> ~ (m' == 0)%Q -> (s * m' == s' * m)%Q ->
        calculateGradePercentage (Num s) (Num m)
        = calculateGradePercentage (Num s') (Num m'))
  /\ (forall m : Q,
        ~ (m == 0)%Q ->
        calculateGradePercentage (Num m) (Num m) = Num 100
        /\ getGradeLetter (calculateGradePercentage (Num m) (Num m)) = Grade_A
        /\ calculateGradePercentage (Num 0) (Num m) = Num 0
        /\ getGradeLetter (calculateGradePercentage (Num 0) (Num m)) = Grade_F)
  /\ (forall score : jsnumber, calculateGradePercentage score (Num 0) = Num 0)
  /\ calculateGradePercentage (Num 23) (Num 40) = Num 57
  /\ calculateGradePercentage (Num 29) (Num 200) = Num 14
  /\ calculateGradePercentage (Num 9) (Num 10) = Num 90.
Proof.
  split; [ | split; [ reflexivity | split; [ exact percentage_ratio | split ] ] ].
  - intros p q Hpq.
    pose proof (fun n => at_least_le n p q Hpq) as H.
    unfold getGradeLetter.
    destruct (at_least 90 (Num p)) eqn:P90; destruct (at_least 80 (Num p)) eqn:P80;
      destruct (at_least 70 (Num p)) eqn:P70; destruct (at_least 60 (Num p)) eqn:P60;
      destruct (at_least 90 (Num q)) eqn:Q90; destruct (at_least 80 (Num q)) eqn:Q80;
      destruct (at_least 70 (Num q)) eqn:Q70; destruct (at_least 60 (Num q)) eqn:Q60;
      cbn [letter_rank]; try lia;
      match goal with
      | E : at_least ?x (Num p) = true, E' : at_least ?x (Num q) = false |- _ =>
          rewrite (H x E) in E'; discriminate
      end.
  - intros m Hm.
    assert (E1 : calculateGradePercentage (Num m) (Num m) = Num 100).
    { rewrite (percentage_ratio m m 1 1); [ vm_compute; reflexivity | exact Hm | | ring ].
      intros F. discriminate F. }
    assert (E0 : calculateGradePercentage (Num 0) (Num m) = Num 0).
    { rewrite (percentage_ratio 0 m 0 1); [ vm_compute; reflexivity | exact Hm | | ring ].
      intros F. discriminate F. }
    rewrite E1, E0. repeat split; reflexivity.
  - split; [ intros score; reflexivity | ].
    repeat split; vm_compute; reflexivity.
Qed.

(* ------------------------------------------------------------------ *)
(** ** Arrays without duplicates *)

Lemma existsb_eqb_true (v : Z) (l : list Z) : existsb (Z.eqb v) l = true <-> In v l.
Proof.
  rewrite existsb_exists. split.
  - intros [x [Hx E]]. apply Z.eqb_eq in E. subst x. exact Hx.
  - intros H. exists v. split; [ exact H | apply Z.eqb_refl ].
Qed.

Lemma existsb_same_members (v : Z) (l l' : list Z) :
  (forall x, In x l <-> In x l') -> existsb (Z.eqb v) l = existsb (Z.eqb v) l'.
Proof.
  intros H. destruct (existsb (Z.eqb v) l') eqn:E.
  - apply existsb_eqb_true. apply H. apply existsb_eqb_true. exact E.
  - destruct (existsb (Z.eqb v) l) eqn:E'; [ | reflexivity ].
    apply existsb_eqb_true in E'. apply H in E'. apply existsb_eqb_true in E'. congruence.
Qed.

Lemma filter_unseen_keys {X : Type} (key : X -> Z) (seen : list Z) (array : list X) :
  NoDup (map key (filter_unseen key seen array))
  /\ (forall x, In x (filter_unseen key seen array) -> In x array /\ ~ In (key x) seen)
  /\ (forall x, In x array -> ~ In (key x) seen ->
                exists y, In y (filter_unseen key seen array) /\ key y = key x).
Proof.
  revert seen. induction array as [ | item rest IH]; intros seen; cbn [filter_unseen].
  - split; [ constructor | ]. split; [ intros x [] | intros x [] ].
  - destruct (existsb (Z.eqb (key item)) seen) eqn:E.
    + destruct (IH seen) as [H1 [H2 H3]]. apply existsb_eqb_true in E.
      split; [ exact H1 | ]. split.
      * intros x Hx. destruct (H2 x Hx). split; [ right; assumption | assumption ].
      * intros x [<- | Hx] Hn; [ contradiction | apply H3; assumption ].
    + destruct (IH (key item :: seen)) as [H1 [H2 H3]].
      assert (Hn : ~ In (key item) seen).
      { intros Hin. apply existsb_eqb_true in Hin. congruence. }
      split; [ | split ].
      * cbn [map]. constructor; [ | exact H1 ].
        intros Hin. apply in_map_iff in Hin. destruct Hin as [y [Ey Hy]].
        destruct (H2 y Hy) as [_ Hy']. apply Hy'. left. symmetry. exact Ey.
      * intros x [<- | Hx]; [ split; [ left; reflexivity | exact Hn ] | ].
        destruct (H2 x Hx) as [Hin Hs]. split; [ right; exact Hin | ].
        intros Hk. apply Hs. right. exact Hk.
      * intros x [<- | Hx] Hs; [ exists item; split; [ left | ]; reflexivity | ].
        destruct (Z.eq_dec (key x) (key item)) as [Ek | Ek].
        -- exists item. split; [ left; reflexivity | symmetry; exact Ek ].
        -- destruct (H3 x Hx) as [y [Hy Eyk]].
           ++ intros [Hk | Hk]; [ apply Ek; symmetry; exact Hk | apply Hs; exact Hk ].
           ++ exists y. split; [ right; exact Hy | exact Eyk ].
Qed.

(** The set of the branch without a key, built element by element, is the
    filter of the branch with a key. *)
Lemma set_is_filter (array set seen : list Z) :
  (forall x, In x seen <-> In x set) ->
  fold_left (fun set x => if existsb (Z.eqb x) set then set else set ++ [x]) array set
  = set ++ filter_unseen (fun x => x) seen array.
Proof.
  revert set seen. induction array as [ | v rest IH]; intros set seen Hs;
    cbn [fold_left filter_unseen]; [ rewrite app_nil_r; reflexivity | ].
  rewrite (existsb_same_members v seen set Hs).
  destruct (existsb (Z.eqb v) set) eqn:E.
  - apply IH. exact Hs.
  - rewrite (IH (set ++ [v]) (v :: seen)).
    + rewrite <- app_assoc. reflexivity.
    + intros x. rewrite in_app_iff. cbn [In]. rewrite (Hs x). tauto.
Qed.

Lemma filter_unseen_fixed (seen array : list Z) :
  NoDup array -> (forall x, In x array -> ~ In x seen) ->
  filter_unseen (fun x => x) seen array = array.
Proof.
  revert seen. induction array as [ | v rest IH]; intros seen Hnd Hs;
    cbn [filter_unseen]; [ reflexivity | ].
  inversion Hnd as [ | ? ? Hv Hrest]; subst.
  destruct (existsb (Z.eqb v) seen) eqn:E.
  - apply existsb_eqb_true in E. exfalso. apply (Hs v); [ left; reflexivity | exact E ].
  - f_equal. apply IH; [ exact Hrest | ].
    intros x Hx [<- | Hin]; [ contradiction | ].
    apply (Hs x); [ right; exact Hx | exact Hin ].
Qed.

(** X28. Without a key, [removeDuplicates] on numbers returns every value
    of the array once, and doing it again changes nothing; it is the
    branch with a key on the values themselves.  With a key, the items
    that are kept are items of the array with pairwise distinct keys, and
    every key of the array is the key of an item that is kept. *)
Theorem duplicates_are_removed (array : list Z) :
  NoDup (removeDuplicates array)
  /\ (forall x, In x (removeDuplicates array) <-> In x array)
  /\ removeDuplicates (removeDuplicates array) = removeDuplicates array
  /\ removeDuplicates array = removeDuplicatesBy (fun x => x) array
  /\ (forall (X : Type) (key : X -> Z) (items : list X),
        NoDup (map key (removeDuplicatesBy key items))
        /\ (forall x, In x (removeDuplicatesBy key items) -> In x items)
        /\ (forall x, In x items ->
              exists y, In y (removeDuplicatesBy key items) /\ key y = key x)).
Proof.
  assert (Hby : forall l, removeDuplicates l = removeDuplicatesBy (fun x => x) l).
  { intros l. unfold removeDuplicates, removeDuplicatesBy.
    rewrite (set_is_filter l [] []); [ reflexivity | tauto ]. }
  assert (Hkeys : forall (X : Type) (key : X -> Z) (items : list X),
             NoDup (map key (removeDuplicatesBy key items))
             /\ (forall x, In x (removeDuplicatesBy key items) -> In x items)
             /\ (forall x, In x items ->
                   exists y, In y (removeDuplicatesBy key items) /\ key y = key x)).
  { intros X key items. unfold removeDuplicatesBy.
    destruct (filter_unseen_keys key [] items) as [H1 [H2 H3]].
    split; [ exact H1 | ]. split.
    - intros x Hx. apply (H2 x Hx).
    - intros x Hx. apply (H3 x Hx). intros []. }
  destruct (Hkeys Z (fun x => x) array) as [H1 [H2 H3]].
  rewrite map_id in H1. rewrite <- Hby in H1, H2, H3.
  split; [ exact H1 | ]. split.
  { intros x. split; [ apply H2 | ].
    intros Hx. destruct (H3 x Hx) as [y [Hy <-]]. exact Hy. }
  split.
  { rewrite (Hby (removeDuplicates array)). unfold removeDuplicatesBy.
    apply filter_unseen_fixed; [ exact H1 | intros x _ [] ]. }
  split; [ apply Hby | exact Hkeys ].
Qed.

(* ------------------------------------------------------------------ *)
(** ** Stored texts are trimmed *)

Lemma trimmed_opt_trim (s : option string) : trimmed_opt (option_map trim s).
Proof. destruct s; cbn; [ apply trim_idem | exact I ]. Qed.

Lemma Forall_filter_keep {X} (P : X -> Prop) (f : X -> bool) (l : list X) :
  Forall P l -> Forall P (filter f l).
Proof.
  intros H. apply Forall_forall. intros x Hx. apply filter_In in Hx.
  rewrite Forall_forall in H. apply H. apply Hx.
Qed.

Lemma Forall_map_keep {X} (P : X -> Prop) (f : X -> X) (l : list X) :
  (forall x, P x -> P (f x)) -> Forall P l -> Forall P (map f l).
Proof.
  intros Hf H. apply Forall_forall. intros x Hx. apply in_map_iff in Hx.
  destruct Hx as [y [<- Hy]]. rewrite Forall_forall in H. apply Hf, H, Hy.
Qed.

Lemma apply_quiz_update_trimmed id b q :
  quiz_trimmed q -> quiz_trimmed (apply_quiz_update id b q).
Proof.
  intros [Hq Ha]. unfold apply_quiz_update. destruct (q_id q =? id); [ | split; assumption ].
  split; cbn [q_question q_answer].
  - destruct (qu_question b) as [t | ]; [ | exact Hq ].
    destruct (String.eqb t EmptyString); [ exact Hq | apply trim_idem ].
  - destruct (qu_answer b) as [t | ]; [ | exact Ha ].
    destruct (String.eqb t EmptyString); [ exact Ha | apply trim_idem ].
Qed.

Lemma apply_assignment_update_trimmed id b a :
  assignment_trimmed a -> assignment_trimmed (apply_assignment_update id b a).
Proof.
  intros [Ht Hd]. unfold apply_assignment_update.
  destruct (a_id a =? id); [ | split; assumption ].
  split; cbn [a_title a_description].
  - destruct (au_title b) as [t | ]; [ | exact Ht ].
    destruct (String.eqb t EmptyString); [ exact Ht | apply trim_idem ].
  - destruct (au_description b) as [ | | t]; [ exact Hd | exact I | apply trim_idem ].
Qed.

Lemma resubmit_trimmed id content file isLate now s :
  submission_trimmed s ->
  submission_trimmed (resubmit id (option_map trim content) file isLate now s).
Proof.
  intros [Hc Hf]. unfold resubmit. destruct (s_id s =? id); [ | split; assumption ].
  split; cbn [s_content s_feedback]; [ apply trimmed_opt_trim | exact Hf ].
Qed.

Lemma stamp_grade_trimmed id g fb now grader s :
  submission_trimmed s ->
  submission_trimmed (stamp_grade id g (option_map trim fb) now grader s).
Proof.
  intros [Hc Hf]. unfold stamp_grade. destruct (s_id s =? id); [ | split; assumption ].
  split; cbn [s_content s_feedback]; [ exact Hc | apply trimmed_opt_trim ].
Qed.

Lemma duplicate_copies_trimmed (d : db) (t : Z) (src acc : list quiz) :
  Forall quiz_trimmed src -> Forall quiz_trimmed acc ->
  Forall quiz_trimmed
    (fold_left (fun acc q =>
                  acc ++ [mkQuiz (next_quiz_id (quizzes d ++ acc)) t
                                 (q_question q) (q_answer q) (q_options q)
                                 (q_quiz_type q) (q_points q)])
               src acc).
Proof.
  revert acc. induction src as [ | q src IH]; intros acc Hs Ha; cbn [fold_left];
    [ exact Ha | ].
  inversion Hs as [ | ? ? Hq Hrest]; subst. apply IH; [ exact Hrest | ].
  apply Forall_app. split; [ exact Ha | ]. constructor; [ exact Hq | constructor ].
Qed.

Lemma bulk_grade_step_trimmed now u aid a acc item :
  texts_are_trimmed (fst (fst acc)) ->
  texts_are_trimmed (fst (fst (bulk_grade_step now u aid a acc item))).
Proof.
  destruct acc as [[d results] errors]. cbn [fst]. intros H.
  unfold bulk_grade_step.
  destruct (grade_out_of_range (gi_grade item) (a_max_points a)); [ exact H | ].
  destruct (bulk_target d aid (gi_submissionId item)); [ | exact H ].
  cbn [fst]. destruct H as [Hq [Ha Hs]]. split; [ exact Hq | ]. split; [ exact Ha | ].
  cbn [submissions set_submissions].
  apply Forall_map_keep; [ intros x; apply stamp_grade_trimmed | exact Hs ].
Qed.

Lemma bulk_grade_fold_trimmed now u aid a (items : list grade_item) acc :
  texts_are_trimmed (fst (fst acc)) ->
  texts_are_trimmed (fst (fst (fold_left (bulk_grade_step now u aid a) items acc))).
Proof.
  revert acc. induction items as [ | item items IH]; intros acc H; cbn [fold_left];
    [ exact H | ].
  apply IH. apply bulk_grade_step_trimmed. exact H.
Qed.

(** [H : (x <- r ;; k) = Ok b]: keep the value of [r] and [k x = Ok b]. *)
Ltac ok_keep H :=
  let x := fresh "x" in
  apply bind_ok in H; destruct H as [x [_ H]].

(** X29. Twelve controllers keep the stored texts trimmed: when the texts
    of the quizzes (question, answer), assignments (title, description)
    and submissions (content, feedback) have no white space at their
    ends, this is still so after [createQuizController],
    [updateQuizController], [duplicateQuizController],
    [deleteQuizController], [createAssignmentController],
    [updateAssignmentController], [deleteAssignmentController],
    [submitAssignmentController], [updateSubmissionController],
    [gradeSubmissionController], [bulkGradeSubmissionsController] and
    [deleteSubmissionController].  The other writers of these tables are
    not covered; [bulkCreateQuizzesController] for one stores the
    question and the answer as they are sent. *)
Theorem stored_texts_stay_trimmed (d : db) :
  texts_are_trimmed d ->
  (forall u b d1 q, createQuizController d u b = Ok (d1, q) -> texts_are_trimmed d1)
  /\ (forall u id b d1 row,
        updateQuizController d u id b = Ok (d1, row) -> texts_are_trimmed d1)
  /\ (forall u id t d1 row,
        duplicateQuizController d u id t = Ok (d1, row) -> texts_are_trimmed d1)
  /\ (forall u id d1, deleteQuizController d u id = Ok d1 -> texts_are_trimmed d1)
  /\ (forall now u b d1 a,
        createAssignmentController d now u b = Ok (d1, a) -> texts_are_trimmed d1)
  /\ (forall now u id b d1 row,
        updateAssignmentController d now u id b = Ok (d1, row) -> texts_are_trimmed d1)
  /\ (forall u id d1, deleteAssignmentController d u id = Ok d1 -> texts_are_trimmed d1)
  /\ (forall now u id content file d1 row,
        submitAssignmentController d now u id content file = Ok (d1, row) ->
        texts_are_trimmed d1)
  /\ (forall now u id content file d1 row,
        updateSubmissionController d now u id content file = Ok (d1, row) ->
        texts_are_trimmed d1)
  /\ (forall now u id grade feedback d1 resp,
        gradeSubmissionController d now u id grade feedback = Ok (d1, resp) ->
        texts_are_trimmed d1)
  /\ (forall now u aid grades d1 resp,
        bulkGradeSubmissionsController d now u aid grades = Ok (d1, resp) ->
        texts_are_trimmed d1)
  /\ (forall u id d1, deleteSubmissionController d u id = Ok d1 -> texts_are_trimmed d1).
Proof.
  intros Hinv. pose proof Hinv as [Hq [Ha Hs]].
  repeat apply conj.
  - intros u b d1 q H. unfold createQuizController in H. do 4 ok_keep H.
    injection H as <- _. split; [ | split; assumption ].
    cbn [quizzes set_quizzes]. apply Forall_app. split; [ exact Hq | ].
    constructor; [ split; apply trim_idem | constructor ].
  - intros u id b d1 row H. unfold updateQuizController in H. do 3 ok_keep H.
    injection H as <- _. split; [ | split; assumption ].
    cbn [quizzes set_quizzes].
    apply Forall_map_keep; [ intros ?; apply apply_quiz_update_trimmed | exact Hq ].
  - intros u id t d1 row H. unfold duplicateQuizController in H. do 4 ok_keep H.
    unfold duplicateQuiz in H. injection H as <- _. split; [ | split; assumption ].
    cbn [quizzes set_quizzes]. apply Forall_app. split; [ exact Hq | ].
    apply duplicate_copies_trimmed; [ apply Forall_filter_keep; exact Hq | constructor ].
  - intros u id d1 H. unfold deleteQuizController in H. do 2 ok_keep H.
    injection H as <-. split; [ | split; assumption ].
    cbn [quizzes set_quizzes]. apply Forall_filter_keep. exact Hq.
  - intros now u b d1 a H. unfold createAssignmentController in H. do 3 ok_keep H.
    injection H as <- _. split; [ exact Hq | ]. split; [ | exact Hs ].
    cbn [assignments set_assignments]. apply Forall_app. split; [ exact Ha | ].
    constructor; [ split; [ apply trim_idem | apply trimmed_opt_trim ] | constructor ].
  - intros now u id b d1 row H. unfold updateAssignmentController in H. do 4 ok_keep H.
    injection H as <- _. split; [ exact Hq | ]. split; [ | exact Hs ].
    cbn [assignments set_assignments].
    apply Forall_map_keep; [ intros ?; apply apply_assignment_update_trimmed | exact Ha ].
  - intros u id d1 H. unfold deleteAssignmentController in H. do 3 ok_keep H.
    injection H as <-. split; [ exact Hq | ]. split; [ | exact Hs ].
    cbn [assignments set_assignments]. apply Forall_filter_keep. exact Ha.
  - intros now u id content file d1 row H. unfold submitAssignmentController in H.
    do 4 ok_keep H. injection H as <- _. split; [ exact Hq | ]. split; [ exact Ha | ].
    cbn [submissions set_submissions]. apply Forall_app. split; [ exact Hs | ].
    constructor; [ split; [ apply trimmed_opt_trim | exact I ] | constructor ].
  - intros now u id content file d1 row H. unfold updateSubmissionController in H.
    do 4 ok_keep H. injection H as <- _. split; [ exact Hq | ]. split; [ exact Ha | ].
    cbn [submissions set_submissions].
    apply Forall_map_keep; [ intros ?; apply resubmit_trimmed | exact Hs ].
  - intros now u id grade feedback d1 resp H. unfold gradeSubmissionController in H.
    do 4 ok_keep H. injection H as <- _. split; [ exact Hq | ]. split; [ exact Ha | ].
    cbn [submissions set_submissions].
    apply Forall_map_keep; [ intros ?; apply stamp_grade_trimmed | exact Hs ].
  - intros now u aid grades d1 resp H.
    destruct (bulk_grade_run _ _ _ _ _ _ _ H) as [a [c [_ [Hfold _]]]].
    pose proof (bulk_grade_fold_trimmed now u aid a grades (d, [], []) Hinv) as Ht.
    rewrite Hfold in Ht. exact Ht.
  - intros u id d1 H. unfold deleteSubmissionController in H. do 2 ok_keep H.
    injection H as <-. split; [ exact Hq | ]. split; [ exact Ha | ].
    cbn [submissions set_submissions]. apply Forall_filter_keep. exact Hs.
Qed.

(** The texts of [Examples.school] are trimmed, and still so when alice has
    added a quiz whose question and answer come with spaces. *)
Lemma stored_texts_stay_trimmed_witness :
  exists d1 q,
    createQuizController Examples.school Examples.alice
      (mkQuizBody 2 "  Which river is the longest? " " Nile " None None None) = Ok (d1, q)
    /\ texts_are_trimmed d1.
Proof.
  destruct (createQuizController Examples.school Examples.alice
              (mkQuizBody 2 "  Which river is the longest? " " Nile " None None None))
    as [[d1 q] | e] eqn:E; [ | discriminate E ].
  exists d1, q. split; [ reflexivity | ].
  assert (H : texts_are_trimmed Examples.school).
  { unfold texts_are_trimmed, quiz_trimmed, assignment_trimmed, submission_trimmed.
    cbn [quizzes assignments submissions Examples.school].
    repeat constructor. }
  exact (proj1 (stored_texts_stay_trimmed Examples.school H) _ _ _ _ E).
Defined.

(* ------------------------------------------------------------------ *)
(** ** Ids stay primary keys *)

Lemma next_submission_id_fresh (ss : list submission) (s : submission) :
  In s ss -> s_id s < next_submission_id ss.
Proof.
  unfold next_submission_id. induction ss as [ | x ss IH]; cbn [fold_right In]; intros H;
    [ contradiction | ].
  destruct H as [-> | H]; [ lia | ]. specialize (IH H). lia.
Qed.

Lemma distinct_fresh {X} (key : X -> Z) (l : list X) (x : X) :
  distinct (map key l) = true -> (forall y, In y l -> key y < key x) ->
  distinct (map key (l ++ [x])) = true.
Proof.
  intros Hd Hf. rewrite map_app. apply distinct_snoc; [ exact Hd | ].
  intros Hin. apply in_map_iff in Hin. destruct Hin as [y [E Hy]].
  specialize (Hf y Hy). lia.
Qed.

Lemma distinct_filter {X} (key : X -> Z) (p : X -> bool) (l : list X) :
  distinct (map key l) = true -> distinct (map key (filter p l)) = true.
Proof.
  induction l as [ | x l IH]; cbn [map filter distinct]; intros H; [ reflexivity | ].
  apply andb_prop in H. destruct H as [Hx Hd].
  destruct (p x); [ | apply IH; exact Hd ].
  cbn [map distinct]. rewrite (IH Hd), andb_true_r.
  apply negb_true_iff. apply negb_true_iff in Hx.
  destruct (existsb (Z.eqb (key x)) (map key (filter p l))) eqn:E; [ | reflexivity ].
  apply existsb_eqb_true in E. apply in_map_iff in E. destruct E as [y [Ey Hy]].
  apply filter_In in Hy. exfalso. apply (existsb_eqb_in _ _ Hx).
  rewrite <- Ey. apply in_map. apply Hy.
Qed.

Lemma distinct_map_same {X} (key : X -> Z) (f : X -> X) (l : list X) :
  (forall x, key (f x) = key x) ->
  distinct (map key l) = true -> distinct (map key (map f l)) = true.
Proof.
  intros Hf H. rewrite map_map. rewrite (map_ext _ key Hf). exact H.
Qed.

Lemma duplicate_copies_fresh (d : db) (t : Z) (src acc : list quiz) :
  distinct (map q_id (quizzes d ++ acc)) = true ->
  distinct
    (map q_id
       (quizzes d ++
        fold_left (fun acc q =>
                     acc ++ [mkQuiz (next_quiz_id (quizzes d ++ acc)) t
                                    (q_question q) (q_answer q) (q_options q)
                                    (q_quiz_type q) (q_points q)])
                  src acc)) = true.
Proof.
  revert acc. induction src as [ | q src IH]; intros acc H; cbn [fold_left]; [ exact H | ].
  apply IH. rewrite app_assoc. apply distinct_fresh; [ exact H | ].
  intros y Hy. cbn [q_id]. apply next_quiz_id_fresh. exact Hy.
Qed.

Lemma bulk_grade_step_keys now u aid a acc item :
  ids_are_keys (fst (fst acc)) ->
  ids_are_keys (fst (fst (bulk_grade_step now u aid a acc item))).
Proof.
  destruct acc as [[d results] errors]. cbn [fst]. intros H.
  unfold bulk_grade_step.
  destruct (grade_out_of_range (gi_grade item) (a_max_points a)); [ exact H | ].
  destruct (bulk_target d aid (gi_submissionId item)); [ | exact H ].
  cbn [fst]. destruct H as [Hq [Ha Hs]]. split; [ exact Hq | ]. split; [ exact Ha | ].
  cbn [submissions set_submissions].
  apply distinct_map_same; [ intros ?; apply stamp_grade_id | exact Hs ].
Qed.

Lemma bulk_grade_fold_keys now u aid a (items : list grade_item) acc :
  ids_are_keys (fst (fst acc)) ->
  ids_are_keys (fst (fst (fold_left (bulk_grade_step now u aid a) items acc))).
Proof.
  revert acc. induction items as [ | item items IH]; intros acc H; cbn [fold_left];
    [ exact H | ].
  apply IH. apply bulk_grade_step_keys. exact H.
Qed.

(** X30. The ids of quizzes, assignments and submissions stay primary
    keys: when they are pairwise distinct in each table, they are so after
    each controller that writes one of the tables, a new row taking an id
    above all ids of its table. *)
Theorem ids_stay_keys (d : db) :
  ids_are_keys d ->
  (forall u b d1 q,
     createQuizController d u b = Ok (d1, q) ->
     ids_are_keys d1 /\ forall x, In x (quizzes d) -> q_id x < q_id q)
  /\ (forall u id b d1 row,
        updateQuizController d u id b = Ok (d1, row) -> ids_are_keys d1)
  /\ (forall u id t d1 row,
        duplicateQuizController d u id t = Ok (d1, row) -> ids_are_keys d1)
  /\ (forall u id d1, deleteQuizController d u id = Ok d1 -> ids_are_keys d1)
  /\ (forall now u b d1 a,
        createAssignmentController d now u b = Ok (d1, a) ->
        ids_are_keys d1 /\ forall x, In x (assignments d) -> a_id x < a_id a)
  /\ (forall now u id b d1 row,
        updateAssignmentController d now u id b = Ok (d1, row) -> ids_are_keys d1)
  /\ (forall u id d1, deleteAssignmentController d u id = Ok d1 -> ids_are_keys d1)
  /\ (forall now u id content file d1 row,
        submitAssignmentController d now u id content file = Ok (d1, row) ->
        ids_are_keys d1 /\ forall x, In x (submissions d) -> s_id x < s_id row)
  /\ (forall now u id content file d1 row,
        updateSubmissionController d now u id content file = Ok (d1, row) ->
        ids_are_keys d1)
  /\ (forall now u id grade feedback d1 resp,
        gradeSubmissionController d now u id grade feedback = Ok (d1, resp) ->
        ids_are_keys d1)
  /\ (forall now u aid grades d1 resp,
        bulkGradeSubmissionsController d now u aid grades = Ok (d1, resp) ->
        ids_are_keys d1)
  /\ (forall u id d1, deleteSubmissionController d u id = Ok d1 -> ids_are_keys d1).
Proof.
  intros Hinv. pose proof Hinv as [Hq [Ha Hs]].
  repeat apply conj.
  - intros u b d1 q H. unfold createQuizController in H. do 4 ok_keep H.
    injection H as <- <-.
    assert (Hf : forall y, In y (quizzes d) ->
                 q_id y < next_quiz_id (quizzes d))
      by (intros y Hy; apply next_quiz_id_fresh; exact Hy).
    split; [ | exact Hf ]. split; [ | split; assumption ].
    cbn [quizzes set_quizzes]. apply distinct_fresh; [ exact Hq | exact Hf ].
  - intros u id b d1 row H. unfold updateQuizController in H. do 3 ok_keep H.
    injection H as <- _. split; [ | split; assumption ].
    cbn [quizzes set_quizzes].
    apply distinct_map_same; [ intros ?; apply apply_quiz_update_id | exact Hq ].
  - intros u id t d1 row H. unfold duplicateQuizController in H. do 4 ok_keep H.
    unfold duplicateQuiz in H. injection H as <- _. split; [ | split; assumption ].
    cbn [quizzes set_quizzes]. apply duplicate_copies_fresh.
    rewrite app_nil_r. exact Hq.
  - intros u id d1 H. unfold deleteQuizController in H. do 2 ok_keep H.
    injection H as <-. split; [ | split; assumption ].
    cbn [quizzes set_quizzes]. apply distinct_filter. exact Hq.
  - intros now u b d1 a H. unfold createAssignmentController in H. do 3 ok_keep H.
    injection H as <- <-.
    assert (Hf : forall y, In y (assignments d) ->
                 a_id y < next_assignment_id (assignments d))
      by (intros y Hy; apply next_assignment_id_fresh; exact Hy).
    split; [ | exact Hf ]. split; [ exact Hq | ]. split; [ | exact Hs ].
    cbn [assignments set_assignments]. apply distinct_fresh; [ exact Ha | exact Hf ].
  - intros now u id b d1 row H. unfold updateAssignmentController in H. do 4 ok_keep H.
    injection H as <- _. split; [ exact Hq | ]. split; [ | exact Hs ].
    cbn [assignments set_assignments].
    apply distinct_map_same; [ intros ?; apply apply_assignment_update_id | exact Ha ].
  - intros u id d1 H. unfold deleteAssignmentController in H. do 3 ok_keep H.
    injection H as <-. split; [ exact Hq | ]. split; [ | exact Hs ].
    cbn [assignments set_assignments]. apply distinct_filter. exact Ha.
  - intros now u id content file d1 row H. unfold submitAssignmentController in H.
    do 4 ok_keep H. injection H as <- <-.
    assert (Hf : forall y, In y (submissions d) ->
                 s_id y < next_submission_id (submissions d))
      by (intros y Hy; apply next_submission_id_fresh; exact Hy).
    split; [ | exact Hf ]. split; [ exact Hq | ]. split; [ exact Ha | ].
    cbn [submissions set_submissions]. apply distinct_fresh; [ exact Hs | exact Hf ].
  - intros now u id content file d1 row H. unfold updateSubmissionController in H.
    do 4 ok_keep H. injection H as <- _. split; [ exact Hq | ]. split; [ exact Ha | ].
    cbn [submissions set_submissions].
    apply distinct_map_same; [ intros ?; apply resubmit_id | exact Hs ].
  - intros now u id grade feedback d1 resp H. unfold gradeSubmissionController in H.
    do 4 ok_keep H. injection H as <- _. split; [ exact Hq | ]. split; [ exact Ha | ].
    cbn [submissions set_submissions].
    apply distinct_map_same; [ intros ?; apply stamp_grade_id | exact Hs ].
  - intros now u aid grades d1 resp H.
    destruct (bulk_grade_run _ _ _ _ _ _ _ H) as [a [c [_ [Hfold _]]]].
    pose proof (bulk_grade_fold_keys now u aid a grades (d, [], []) Hinv) as Ht.
    rewrite Hfold in Ht. exact Ht.
  - intros u id d1 H. unfold deleteSubmissionController in H. do 2 ok_keep H.
    injection H as <-. split; [ exact Hq | ]. split; [ exact Ha | ].
    cbn [submissions set_submissions]. apply distinct_filter. exact Hs.
Qed.

(** alice adds an assignment to [Examples.school]: the ids are still
    keys. *)
Lemma ids_stay_keys_witness :
  exists d1 a,
    createAssignmentController Examples.school 3000 Examples.alice
      (mkAssignmentBody 2 " Rivers of Europe " None (Some 5000) None None Absent)
    = Ok (d1, a)
    /\ ids_are_keys d1.
Proof.
  destruct (createAssignmentController Examples.school 3000 Examples.alice
              (mkAssignmentBody 2 " Rivers of Europe " None (Some 5000) None None Absent))
    as [[d1 a] | e] eqn:E; [ | discriminate E ].
  exists d1, a. split; [ reflexivity | ].
  assert (H : ids_are_keys Examples.school) by (repeat split; reflexivity).
  destruct (ids_stay_keys Examples.school H) as [_ [_ [_ [_ [Hc _]]]]].
  exact (proj1 (Hc _ _ _ _ _ E)).
Defined.
